(* ===== verification/_CoqProject ===== *)
-Q . S2P
Prelude.v
Js.v
Model.v
IsoDate.v
Http.v
Url.v
StartupGuide.v
Runtime.v
Conc.v
Service.v
Borrowing.v
Books.v
Members.v
Dashboard.v
Connection.v
App.v
