(* ===== verification/Prelude.v ===== *)
(** * A verification library for the LMS browser front end (nehalmr/lms-monolithic)

    The program is a React application in TypeScript (src/src): [App]
    shows one of four tabs ([Dashboard], [BookManagement],
    [MemberManagement], [BorrowingManagement]) under a [ConnectionStatus]
    banner; every component keeps its state in [useState] hooks and talks
    to a REST backend through the axios instance [api] of
    services/api.ts, whose response interceptor re-sends a request once
    after a 500 reply, and through [checkBackendHealth].  The backend
    itself is not in the repository: spec.md describes its borrowing
    lifecycle (sections 3 and 4.1), its endpoints (section 6) and its
    errors (section 7).

    ** Files, in dependency order

    - [Prelude] (this file): the scope [lms_scope], the tactic [zcase],
      the hint databases [lms] and [lms_simpl], ceiling division
      ([Math.ceil(a / b)]), counting ([xs.filter(p).length]) over lists
      and gmaps, and the list lemmas the components share.
    - [Js]: the JavaScript built-ins the code calls, over Latin-1 strings:
      [toLowerCase], [includes], [trim], truthiness, [Number.parseInt] and
      [Number.prototype.toString] (exact decimal digits, as the engine
      prints a safe integer; [safe_integer] is the range up to
      [Number.MAX_SAFE_INTEGER]), with [parseInt (toString n) = Int n].
    - [Model]: the entity types of the components ([BookType], [Member],
      [BorrowingTransaction]), the ui variants and the class [DateCodec],
      the interface between the backend's date strings and the client's
      [new Date(...)].
    - [IsoDate]: the instance of [DateCodec]: the backend's
      [LocalDate.toString] (Hinnant's civil-from-days) and ECMA-262's
      parse of a date-only string ([MakeDay]); [format_iso_roundtrip]
      proves the round trip for every day of the years 0 to 9999 (a law
      of the codec the served dates rely on).
    - [Http]: requests, replies and outcomes; axios' [settle]; the
      interceptor [on_response_error]; the class [Backend] (what a backend
      promises the client); [api_request] (a call through [api], with
      fuel), [api_call] (fuel 2) and [checkBackendHealth]'s [health_of];
      [API_BASE_URL] of the value of [REACT_APP_API_URL].
    - [Url]: [encodeURIComponent] and the backend's reading of a query
      parameter ([query_param]: split on [&] and [=], [+] a space,
      [%XY] a byte, UTF-8); [url_decode_encode] is their round trip.
    - [StartupGuide]: the getting-started card the Dashboard shows when
      the health check fails (static text), checked against
      [API_BASE_URL] (Http): its port is the client's without
      [REACT_APP_API_URL] ([guide_backend_port]) and does not follow the
      variable ([guide_port_overridden]).
    - [Runtime]: the effects of a handler as the program type [Eff]
      ([Upd] a setter call, [Await] an awaited request, [Spawn] an async
      call not awaited, [Sleep], [Alert], [Now]) and [run], the sequential
      execution of a program against a [Backend] in a [World]; [upds_ok]
      and [run_preserves] turn invariants of the setters into invariants
      of whole handlers; [upds_ok_on] and [run_preserves_on] do the same
      on the paths where every reply has the shape a backend promises
      ([serves_ok], Http); [page_reach] is the worlds of a mounted page
      (its mount effect, any of its event handlers [handler], other
      clients and time), and [page_reach_preserves] its invariants;
      [run_events] runs user events one after the other.
    - [Conc]: the handlers interleaved: a [Pool] of threads, each a
      program to run or one waiting for the reply to the request it sent,
      and [esteps], a schedule of thread steps and user actions (a user
      action starts the handler of the state shown).  [run_schedule]:
      [run] is one of its schedules; [esteps_preserves]: an invariant of
      every handler's updates holds in every interleaving.
    - [Service]: the backend as spec.md describes it: [Lifecycle]
      (attemptBorrow, attemptReturn, classify, daysOverdue), a [Store] of
      gmaps, the endpoints [serve_store], the invariant [store_wf] and the
      stores [reachable] from the empty one.
    - [Borrowing], [Books], [Members], [Dashboard] (with its
      MockDataProvider child), [Connection], [App]: one Module per
      component, named after it ([BorrowingManagement], [BookManagement],
      [MemberManagement], [DashboardComponent],
      [ConnectionStatusComponent], [AppComponent]).  Its record [State]
      has the component's hooks as fields, one setter per hook
      ([setBooks], ...), and one definition per handler of the same name
      ([fetchData], [handleBorrowBook], [handleSearch], ...); [render]
      is what the component shows for a state.  A handler is given the
      state of the render that created it, as its closure is.  In
      each file the [...Facts] module holds the theorems and the
      [...Witnesses] module their instances on concrete data.

    ** What the theorems show

    - Client against service (refinement): the dashboard's counts are the
      store's, active and overdue loans as [classify] finds them
      (Dashboard.fetchStats_service), the book page's local filter is the
      service's search (Books.fetchBooks_shows_search,
      Members.filter_list_members_search), a transaction card shows the
      spec's daysOverdue exactly for a loan served BORROWED that is
      overdue when the page renders (Borrowing.card_days_overdue_spec),
      the borrow form's ids are read back by the service
      (Borrowing.borrow_form_ids, for safe-integer ids).
    - Invariants by rule induction: the stores the service reaches keep
      [0 <= availableCopies <= totalCopies] (Service); the health checks
      of [ConnectionStatus] over time (Connection.auto_single_check,
      Connection.checking_pending).
    - Page invariants over [page_reach]: every book the book page holds
      is the service's Book JSON with an id (Books.page_books_served),
      every member the member page holds has an id and a printed
      registration date (Members.page_members_served), and the borrow
      form only offers books with a copy available and ACTIVE members,
      each option with a value (Borrowing.page_borrow_offers), also
      under every interleaving of the page's handlers
      (Borrowing.page_borrow_offers_conc).
    - URLs: the search term the book page puts into its URL is the one
      the backend reads (Books.search_url_roundtrip), and the borrow
      request's unencoded ids are read back because they are printed
      numbers (Borrowing.borrow_url_ids).
    - Composition: selecting a tab mounts its component and its mount
      effect shows the store's current data (App.selectTab_loads).
    - The interceptor: [api_request] answers from fuel 2 on, after one or
      two requests, and the second request is the only retry
      (Http.api_request_terminates).
    - The handlers on every branch (handleBorrowBook unselected,
      fulfilled, rejected; handleSearch; the add form's copies; the days
      overdue never decrease, Borrowing.getDaysOverdue_mono).
    - Findings, each a theorem: a loan served OVERDUE is never flagged
      and has no Return button (Borrowing.served_overdue_unflagged); the
      spec's "6 days overdue" holds at midnight only
      (Borrowing.getDaysOverdue_at); the edit form PUTs the loaded
      availableCopies with the new total, so it can send more copies
      available than in total (Books.edit_copies_overflow); a Retry click and the interval tick
      overlap and the stale check wins (Connection.overlapping_checks);
      two searches in flight leave the earlier term's result under the
      later term (Books.search_last_reply_wins, a schedule of [Conc]);
      the interceptor's re-send of a POST whose reply was lost borrows
      twice (Borrowing.retry_borrows_twice); a second click on Borrow
      Book while the first is in flight borrows twice
      (Borrowing.double_submit_borrows_twice); a request that times out
      is not reported as the backend being unavailable
      (Books.fetchBooks_timeout, against spec.md section 7); the add,
      update and delete handlers swallow every failed request
      (Books.silent_failures, against spec.md section 7).

    ** Bounds and fuel

    - [api_call] runs [api_request] with fuel 2, the most requests the
      interceptor can send ([_retry] stops a second re-send);
      [api_request_fuel] shows any larger fuel gives the same answer.
    - Dates: [IsoDate] checks one 400-year era (146097 days) by
      [vm_compute] and extends it by periodicity; [iso_in_range] is the
      years 0 to 9999, where both sides print and read four-digit years.
    - Timeouts: the [api] instance's 10000 ms ([api_timeout_ms]) gives
      axios' timeout rejection ([timeout_reply]); the backends [stalled]
      and [refusing] (Http) are a backend past that timeout and one
      that refuses connections.
    - Times are milliseconds since the epoch as [Z]; the browser's time
      zone is UTC ([getFullYear], [new Date(date-only)]).  JSON numbers
      are exact integers: ids and counts stay below 2^53, where
      [toString] prints exact digits ([safe_integer], Js).  Ids sent as
      request parameters are read as Java longs (range [-2^63, 2^63)),
      which the safe integers are within.
    - [Timed] (Connection): ticks every 30000 ms and responses within the
      health check's 5000 ms timeout.

    ** Choices where spec.md is silent (Service)

    Borrow checks, in the spec's order: parameters, then the member and
    the book exist (404), then the member is ACTIVE, a copy is available
    and the member is under the limit (400); unknown ids give 404, every
    other refusal 400; POST answers 201, DELETE 204, the rest 200;
    deleting a book or member a transaction refers to is refused; a book
    needs [0 < totalCopies] and [0 <= availableCopies <= totalCopies]; the
    member search matches name or email (section 4.1); lists come in the
    store's key order; the status OVERDUE is recomputed on every read
    (section 3), with [now > dueDate] read with the due date at the start
    of its day in UTC (where the client's [new Date(dueDate)] puts it);
    [daysOverdue] is 0 unless [classify] gives OVERDUE (section 4.1).
    PUT /books/{id} replaces the record as sent, which is why
    [reachable] leaves it out; [Books.edit_copies_overflow] is stated on
    the request the client sends, not on this choice.

    ** Not modelled

    [console.*] calls (no effect on state); the request interceptor (it
    only logs); CSS classes, icons and the ui kit; [toLocaleDateString]
    and [toLocaleTimeString] (dates are kept as time values); React's
    render batching (a setter takes
    effect at once; in [run] a spawned call runs to its end before its
    caller goes on, which is the order of their updates since the spawned
    call is always the caller's last statement, and [Conc] gives the
    other orders); setState on an unmounted component after a tab
    switch; the network's delays other than the interceptor's 1000 ms
    wait and the health check's timeout; the paths and bodies of the
    requests other than the search and borrow URLs (the [Request]
    constructors stand for them; [API_BASE_URL] is only used for the
    health check's URL). *)

From Stdlib Require Export ZArith Lia List Bool.
From stdpp Require Export base list option gmap strings.

(** * Prelude: notation scope, tactics, hint databases and the generic
    lemmas on integers, lists and options that the components share. *)

Declare Scope lms_scope.
Delimit Scope lms_scope with lms.

Create HintDb lms discriminated.
Create Rewrite HintDb lms_simpl.

(** [zcase]: split on every boolean comparison of integers in the goal. *)
(** Close the conjuncts of a goal one after the other, left to right,
    by evaluation (a witness or a scenario on concrete data): each
    conjunct may fix an existential the next ones mention.  [split]
    alone would also try [eq_refl] on the equations and make the
    unifier evaluate them. *)
Ltac by_compute :=
  repeat (match goal with |- _ /\ _ => split; [vm_compute; reflexivity|] end);
  vm_compute; reflexivity.

Ltac zcase :=
  repeat match goal with
  | |- context [(?a <? ?b)%Z] => destruct (Z.ltb_spec a b)
  | |- context [(?a <=? ?b)%Z] => destruct (Z.leb_spec a b)
  | |- context [(?a =? ?b)%Z] => destruct (Z.eqb_spec a b)
  | H : context [(?a <? ?b)%Z] |- _ => destruct (Z.ltb_spec a b)
  | H : context [(?a <=? ?b)%Z] |- _ => destruct (Z.leb_spec a b)
  | H : context [(?a =? ?b)%Z] |- _ => destruct (Z.eqb_spec a b)
  end.

(** ** Ceiling division, as [Math.ceil(a / b)] computes it on integers. *)

Definition ceil_div (a b : Z) : Z := (- ((- a) / b))%Z.

(** ** Counting the elements of a list that satisfy a boolean test,
    [xs.filter(p).length] in the code. *)

Definition count_if {A} (p : A -> bool) (l : list A) : nat := length (List.filter p l).

(** The values of a finite map that satisfy a boolean test. *)
Definition map_count `{Countable K} {A} (p : A -> bool) (m : gmap K A) : nat :=
  count_if p (snd <$> map_to_list m).

Section CeilDiv.
Open Scope Z_scope.
Context (b : Z) (Hb : 0 < b).

Lemma ceil_div_spec a : b * (ceil_div a b - 1) < a <= b * ceil_div a b.
  Proof.
    unfold ceil_div.
    pose proof (Z.div_mod (- a) b ltac:(lia)).
    pose proof (Z.mod_pos_bound (- a) b Hb). nia.
  Qed.

Lemma ceil_div_unique a q : b * (q - 1) < a <= b * q -> ceil_div a b = q.
  Proof. intros H. pose proof (ceil_div_spec a). nia. Qed.

Lemma ceil_div_mono a1 a2 : a1 <= a2 -> ceil_div a1 b <= ceil_div a2 b.
  Proof. intros H. pose proof (ceil_div_spec a1). pose proof (ceil_div_spec a2). nia. Qed.

Lemma ceil_div_pos a : 0 < a <-> 0 < ceil_div a b.
  Proof. pose proof (ceil_div_spec a). nia. Qed.

Lemma ceil_div_mul k : ceil_div (k * b) b = k.
  Proof. apply ceil_div_unique. nia. Qed.

  (** [k] whole units and [x] more: [k] when [x] is 0, [k + 1] otherwise. *)
Lemma ceil_div_at k x : 0 <= x < b -> ceil_div (k * b + x) b = if x =? 0 then k else k + 1.
  Proof.
    intros Hx. destruct (Z.eqb_spec x 0) as [->|Hx0].
    - rewrite Z.add_0_r. apply ceil_div_mul.
    - apply ceil_div_unique. nia.
  Qed.
End CeilDiv.

Lemma count_if_le {A} (p : A -> bool) l : count_if p l <= length l.
Proof. apply filter_length_le. Qed.

Lemma count_if_app {A} (p : A -> bool) l1 l2 :
  count_if p (l1 ++ l2) = count_if p l1 + count_if p l2.
Proof. unfold count_if. by rewrite List.filter_app, length_app. Qed.

Lemma count_if_cons {A} (p : A -> bool) x l :
  count_if p (x :: l) = (if p x then 1 else 0) + count_if p l.
Proof. unfold count_if. simpl. by destruct (p x). Qed.

Lemma count_if_ext {A} (p q : A -> bool) l :
  (forall x, In x l -> p x = q x) -> count_if p l = count_if q l.
Proof. intros H. unfold count_if. f_equal. by apply filter_ext_in. Qed.

(** [String.append] is [simpl never] in stdpp: its two equations. *)
Lemma string_app_cons c s t : String c s +:+ t = String c (s +:+ t).
Proof. reflexivity. Qed.

Lemma string_app_nil t : EmptyString +:+ t = t.
Proof. reflexivity. Qed.

#[export] Hint Resolve count_if_le : lms.
#[export] Hint Rewrite string_app_cons string_app_nil : lms_simpl.
#[export] Hint Rewrite @count_if_app @count_if_cons : lms_simpl.

(** Filtering the image of a list is filtering the list, when the tests
    agree along the map. *)
Lemma filter_fmap_comm {A B} (f : A -> B) (q : B -> bool) (p : A -> bool) l :
  (forall x, q (f x) = p x) -> List.filter q (f <$> l) = f <$> List.filter p l.
Proof. intros Hqp. induction l as [|x l IH]; [done|]. simpl. rewrite Hqp. destruct (p x); [|exact IH]. rewrite fmap_cons. f_equal. exact IH. Qed.

Lemma filter_all {A} (p : A -> bool) l : (forall x, p x = true) -> List.filter p l = l.
Proof. intros Hp. induction l as [|x l IH]; [done|]. simpl. by rewrite Hp, IH. Qed.

Lemma filter_idem {A} (p : A -> bool) l : List.filter p (List.filter p l) = List.filter p l.
Proof. induction l as [|x l IH]; [done|]. simpl. destruct (p x) eqn:Hp; simpl; [rewrite Hp|]; by rewrite IH. Qed.

Lemma count_if_fmap {A B} (p : B -> bool) (f : A -> B) l :
  count_if p (f <$> l) = count_if (fun x => p (f x)) l.
Proof. induction l as [|x l IH]; [done|]. rewrite fmap_cons, !count_if_cons. by rewrite IH. Qed.

(** Two tests that never hold together count their disjunction. *)
Lemma count_if_or {A} (p q : A -> bool) l :
  (forall x, In x l -> p x && q x = false) ->
  count_if p l + count_if q l = count_if (fun x => p x || q x) l.
Proof.
  induction l as [|x l IH]; intros Hd; [done|]. rewrite !count_if_cons.
  pose proof (Hd x (or_introl eq_refl)).
  rewrite <- IH by (intros y Hy; apply Hd; by right). destruct (p x), (q x); simpl in *; lia.
Qed.

(** [omap] of a function that succeeds on every element. *)
Lemma fmap_omap_all {A B C} (f : A -> option B) (g : B -> C) (h : A -> C) l :
  (forall x, In x l -> exists y, f x = Some y /\ g y = h x) -> g <$> omap f l = h <$> l.
Proof.
  induction l as [|x l IH]; intros Hf; [done|].
  destruct (Hf x (or_introl eq_refl)) as (y & Hy & Hg).
  rewrite fmap_cons, <- Hg, <- IH by (intros z Hz; apply Hf; by right).
  cbn. rewrite Hy. reflexivity.
Qed.

Lemma count_if_perm {A} (p : A -> bool) l1 l2 : l1 ≡ₚ l2 -> count_if p l1 = count_if p l2.
Proof.
  induction 1; rewrite ?count_if_cons; try lia; destruct (p x), (p y); lia.
Qed.

Lemma count_if_zero {A} (p : A -> bool) l : (forall x, In x l -> p x = false) -> count_if p l = 0.
Proof.
  induction l as [|x l IH]; intros H; [done|].
  rewrite count_if_cons, (H x (in_eq x l)), IH; [done|].
  intros y Hy. apply H. by right.
Qed.

Section MapCount.
Context `{Countable K} {A : Type} (p : A -> bool).
Implicit Types (m : gmap K A).

Lemma map_count_empty : map_count p (∅ : gmap K A) = 0.
Proof. unfold map_count. by rewrite map_to_list_empty. Qed.

Lemma map_count_insert_fresh m i x :
  m !! i = None -> map_count p (<[i:=x]> m) = (if p x then 1 else 0) + map_count p m.
Proof.
  intros Hi. unfold map_count. rewrite (count_if_perm _ _ _ (fmap_Permutation snd _ _ (map_to_list_insert m i x Hi))).
  simpl. by rewrite count_if_cons.
Qed.

Lemma map_count_delete m i x :
  m !! i = Some x -> map_count p m = (if p x then 1 else 0) + map_count p (delete i m).
Proof.
  intros Hi. unfold map_count. rewrite <- (count_if_perm _ _ _ (fmap_Permutation snd _ _ (map_to_list_delete m i x Hi))).
  simpl. by rewrite count_if_cons.
Qed.

Lemma map_count_insert_over m i x y :
  m !! i = Some y ->
  map_count p (<[i:=x]> m) + (if p y then 1 else 0) = map_count p m + (if p x then 1 else 0).
Proof.
  intros Hi. rewrite (map_count_delete m i y Hi), <- insert_delete_eq.
  rewrite map_count_insert_fresh by apply lookup_delete_eq. lia.
Qed.

Lemma map_count_zero m : (forall k x, m !! k = Some x -> p x = false) -> map_count p m = 0.
Proof.
  intros Hm. apply count_if_zero. intros x Hx.
  apply in_map_iff in Hx as [[k y] [Hxy Hin]]. simpl in Hxy. subst x.
  apply (Hm k). apply elem_of_map_to_list. by apply list_elem_of_In.
Qed.

Lemma map_count_ext (q : A -> bool) m :
  (forall k x, m !! k = Some x -> p x = q x) -> map_count p m = map_count q m.
Proof.
  intros Hm. apply count_if_ext. intros x Hx.
  apply in_map_iff in Hx as [[k y] [Hxy Hin]]. simpl in Hxy. subst x.
  apply (Hm k). apply elem_of_map_to_list. by apply list_elem_of_In.
Qed.
End MapCount.
