(* ===== verification/Js.v ===== *)
(** * Js: the JavaScript runtime primitives the components call.

    Strings are sequences of code units; the model restricts them to the
    Latin-1 range (Stdlib's 8-bit [ascii]), on which [toLowerCase],
    [trim] and [Number.parseInt] are modelled exactly as ECMAScript
    specifies them.  Numbers that the code obtains from [parseInt] are
    integers or [NaN] ([num]); numbers that come from the backend are
    integers ([Z]).  The rounding of doubles above 2^53 is not modelled. *)

From S2P Require Import Prelude.
From Stdlib Require Import Ascii.

(** ** Characters *)

Definition code (c : Ascii.ascii) : nat := Ascii.nat_of_ascii c.
Definition chr (n : nat) : Ascii.ascii := Ascii.ascii_of_nat n.

(** [String.prototype.toLowerCase] on one Latin-1 code unit: A-Z and
    U+00C0..U+00DE except U+00D7 map to the code unit 32 above. *)
Definition lower_char (c : Ascii.ascii) : Ascii.ascii :=
  let n := code c in
  if ((65 <=? n) && (n <=? 90)) || ((192 <=? n) && (n <=? 222) && negb (n =? 215))
  then chr (n + 32) else c.

(** The StrWhiteSpaceChar code units of the Latin-1 range: TAB, LF, VT,
    FF, CR, SPACE and NO-BREAK SPACE. *)
Definition is_ws (c : Ascii.ascii) : bool :=
  let n := code c in
  ((9 <=? n) && (n <=? 13)) || (n =? 32) || (n =? 160).

(** ** Strings *)

Fixpoint toLowerCase (s : string) : string :=
  match s with
  | EmptyString => EmptyString
  | String c s' => String (lower_char c) (toLowerCase s')
  end.

(** [starts_with s t]: [t] is a prefix of [s]. *)
Fixpoint starts_with (s t : string) : bool :=
  match t, s with
  | EmptyString, _ => true
  | String _ _, EmptyString => false
  | String c t', String d s' => Ascii.eqb c d && starts_with s' t'
  end.

(** [s.includes(t)]: the search starts at every position of [s] in turn. *)
Fixpoint includes (s t : string) : bool :=
  starts_with s t ||
  match s with
  | EmptyString => false
  | String _ s' => includes s' t
  end.

Fixpoint trim_start (s : string) : string :=
  match s with
  | String c s' => if is_ws c then trim_start s' else s
  | EmptyString => EmptyString
  end.

Fixpoint trim_end (s : string) : string :=
  match s with
  | EmptyString => EmptyString
  | String c s' =>
      match trim_end s' with
      | EmptyString => if is_ws c then EmptyString else String c EmptyString
      | r => String c r
      end
  end.

(** [s.trim()] *)
Definition trim (s : string) : string := trim_end (trim_start s).

(** JavaScript truthiness of a string: only [""] is falsy. *)
Definition str_truthy (s : string) : bool :=
  match s with EmptyString => false | _ => true end.

(** [{error && <banner>}] for an [error] of type [string | null]: the
    banner is shown for a non-empty message only. *)
Definition str_guard (e : option string) : option string :=
  match e with Some m => if str_truthy m then Some m else None | None => None end.

(** ** Numbers *)

Inductive num := Int (z : Z) | NaN.

#[export] Instance num_eq_dec : EqDecision num.
Proof. solve_decision. Defined.

(** [x > k] for a number [x] and an integer [k]: false on [NaN]. *)
Definition num_gt (x : num) (k : Z) : bool :=
  match x with Int z => (k <? z)%Z | NaN => false end.

(** The value of a digit in the given radix ([0-9], [a-z], [A-Z]). *)
Definition digit_val (radix : Z) (c : Ascii.ascii) : option Z :=
  let n := code c in
  let v := if (48 <=? n) && (n <=? 57) then Some (Z.of_nat n - 48)%Z
           else if (97 <=? n) && (n <=? 122) then Some (Z.of_nat n - 87)%Z
           else if (65 <=? n) && (n <=? 90) then Some (Z.of_nat n - 55)%Z
           else None in
  match v with Some d => if (d <? radix)%Z then Some d else None | None => None end.

(** The digits of the longest prefix made of radix digits. *)
Fixpoint digit_prefix (radix : Z) (s : string) : list Z :=
  match s with
  | EmptyString => []
  | String c s' =>
      match digit_val radix c with
      | Some d => d :: digit_prefix radix s'
      | None => []
      end
  end.

Definition digits_value (radix : Z) (ds : list Z) : Z :=
  fold_left (fun acc d => acc * radix + d)%Z ds 0%Z.

(** Steps 9 to 13 of [parseInt]: strip a [0x]/[0X] prefix (radix 16,
    else 10) and read the longest digit prefix; no digit gives [None]. *)
Definition parse_magnitude (s2 : string) : option Z :=
  let '(radix, s3) :=
    match s2 with
    | String z (String x r) =>
        if Ascii.eqb z "0"%char && (Ascii.eqb x "x"%char || Ascii.eqb x "X"%char)
        then (16%Z, r) else (10%Z, s2)
    | _ => (10%Z, s2)
    end in
  match digit_prefix radix s3 with
  | [] => None
  | ds => Some (digits_value radix ds)
  end.

(** [Number.parseInt(s)] with no radix argument (ECMA-262, 19.2.5): skip
    leading white space, read a sign, then the magnitude; no digit gives
    [NaN]. *)
Definition parseInt (s : string) : num :=
  let s1 := trim_start s in
  let '(sign, s2) :=
    match s1 with
    | String c r =>
        if Ascii.eqb c "-"%char then ((-1)%Z, r)
        else if Ascii.eqb c "+"%char then (1%Z, r) else (1%Z, s1)
    | EmptyString => (1%Z, s1)
    end in
  match parse_magnitude s2 with
  | None => NaN
  | Some m => Int (sign * m)%Z
  end.

(** Decimal digits of a non-negative integer, least significant first;
    [fuel] bounds the number of digits. *)
Fixpoint digits_rev (fuel : nat) (n : Z) : list Z :=
  match fuel with
  | O => []
  | S f => (n mod 10)%Z :: (if (n <? 10)%Z then [] else digits_rev f (n / 10))
  end.

Definition digit_char (d : Z) : Ascii.ascii := chr (Z.to_nat d + 48).

Fixpoint string_of_chars (cs : list Ascii.ascii) : string :=
  match cs with [] => EmptyString | c :: cs' => String c (string_of_chars cs') end.

Definition dec_string (n : Z) : string :=
  string_of_chars (map digit_char (rev (digits_rev (S (Z.to_nat (Z.log2 n))) n))).

(** [Number.MAX_SAFE_INTEGER]: a number of the code (a JSON id parsed by
    axios, a [parseInt]) is an exact integer up to this bound. *)
Definition MAX_SAFE_INTEGER : Z := (2 ^ 53 - 1)%Z.

Definition safe_integer (n : Z) : Prop := (- MAX_SAFE_INTEGER <= n <= MAX_SAFE_INTEGER)%Z.

(** [n.toString()] for an integer number [n]: its decimal digits, as
    Number::toString (ECMA-262, 6.1.6.1.20) prints a safe integer.  Above
    [MAX_SAFE_INTEGER] the engine prints the shortest digits that read
    back as the same double (2^60 prints as 1152921504606847000); the
    statements about [toString] are made for safe integers. *)
Definition toString (n : Z) : string :=
  if (n <? 0)%Z then String "-"%char (dec_string (- n)) else dec_string n.

(** ** Lemmas on strings *)

Lemma starts_with_spec s t : starts_with s t = true <-> exists r, s = t +:+ r.
Proof.
  revert s. induction t as [|c t IH]; intros [|d s]; simpl.
  - split; eauto.
  - split; eauto.
  - split; [done|]. intros [r Hr]. discriminate.
  - rewrite andb_true_iff, IH. split.
    + intros [Hc%Ascii.eqb_eq [r ->]]. subst. eauto.
    + intros [r Hr]. injection Hr as -> ->. rewrite Ascii.eqb_refl. eauto.
Qed.

(** [includes] decides the substring relation. *)
Lemma includes_spec s t : includes s t = true <-> exists a b, s = a +:+ t +:+ b.
Proof.
  induction s as [|c s IH]; cbn [includes]; rewrite orb_true_iff, starts_with_spec.
  - split.
    + intros [[r Hr]|?]; [|done]. by exists EmptyString, r.
    + intros [[|? a] [b Hb]]; [left; by exists b | discriminate].
  - rewrite IH. split.
    + intros [[r Hr]|[a [b ->]]].
      * exists EmptyString, r. exact Hr.
      * by exists (String c a), b.
    + intros [[|d a] [b Hb]].
      * left. eauto.
      * right. injection Hb as -> ->. eauto.
Qed.

Lemma includes_empty s : includes s EmptyString = true.
Proof. destruct s; reflexivity. Qed.

Lemma toLowerCase_app a b : toLowerCase (a +:+ b) = toLowerCase a +:+ toLowerCase b.
Proof. induction a as [|c a IH]; simpl; [done | by rewrite IH]. Qed.

Lemma lower_char_idem c : lower_char (lower_char c) = lower_char c.
Proof. destruct c as [[] [] [] [] [] [] [] []]; reflexivity. Qed.

Lemma toLowerCase_idem s : toLowerCase (toLowerCase s) = toLowerCase s.
Proof. induction s; simpl; [done | by rewrite lower_char_idem, IHs]. Qed.

(** Case folding keeps every exact match: what [s] contains, the lower
    case of [s] contains in lower case. *)
Lemma includes_lower s t :
  includes s t = true -> includes (toLowerCase s) (toLowerCase t) = true.
Proof.
  rewrite !includes_spec. intros (a & b & ->).
  exists (toLowerCase a), (toLowerCase b). by rewrite !toLowerCase_app.
Qed.

Lemma trim_start_empty_iff s :
  trim_start s = EmptyString <-> forall n c, String.get n s = Some c -> is_ws c = true.
Proof.
  induction s as [|c s IH]; simpl.
  - split; [done|]. intros _. done.
  - destruct (is_ws c) eqn:Hc.
    + rewrite IH. split.
      * intros H [|n] d; simpl; [intros [= <-]; done | apply H].
      * intros H n d Hd. apply (H (S n)). done.
    + split; [done|]. intros H. rewrite (H 0 c eq_refl) in Hc. done.
Qed.

Lemma trim_end_empty s : trim_end s = EmptyString -> forall n c, String.get n s = Some c -> is_ws c = true.
Proof.
  induction s as [|c s IH]; simpl; [done|].
  destruct (trim_end s) eqn:E; [|done].
  destruct (is_ws c) eqn:Hc; [|done]. intros _ [|n] d; simpl; [congruence|].
  by apply IH.
Qed.

Lemma trim_end_of_ws s : (forall n c, String.get n s = Some c -> is_ws c = true) -> trim_end s = EmptyString.
Proof.
  induction s as [|c s IH]; simpl; intros H; [done|].
  rewrite IH by (intros n d; apply (H (S n))). by rewrite (H 0 c eq_refl).
Qed.

(** [!s.trim()] holds exactly of the strings made of white space only. *)
Lemma trim_empty_iff s :
  trim s = EmptyString <-> forall n c, String.get n s = Some c -> is_ws c = true.
Proof.
  unfold trim. rewrite <- trim_start_empty_iff. split.
  - intros H. pose proof (trim_end_empty _ H) as Hws.
    destruct (trim_start s) as [|c r] eqn:E; [done|]. exfalso.
    revert E. generalize s. induction s0 as [|d s0 IH]; simpl; [done|].
    destruct (is_ws d) eqn:Hd; [done|]. intros [= -> ->].
    rewrite (Hws 0 c eq_refl) in Hd. done.
  - intros ->. done.
Qed.

(** ** Lemmas on numbers: [Number.parseInt] inverts [toString] *)

Lemma digit_char_facts d : (0 <= d < 10)%Z ->
  digit_val 10 (digit_char d) = Some d /\ is_ws (digit_char d) = false /\
  Ascii.eqb (digit_char d) "-"%char = false /\ Ascii.eqb (digit_char d) "+"%char = false /\
  Ascii.eqb (digit_char d) "x"%char = false /\ Ascii.eqb (digit_char d) "X"%char = false.
Proof.
  intros Hd.
  assert (d = 0 \/ d = 1 \/ d = 2 \/ d = 3 \/ d = 4 \/ d = 5 \/ d = 6 \/ d = 7 \/ d = 8 \/ d = 9)%Z
    as Hc by lia.
  repeat destruct Hc as [-> | Hc]; [..| subst]; vm_compute; repeat split.
Qed.

Lemma digits_rev_range f n : (0 <= n)%Z -> Forall (fun d => 0 <= d < 10)%Z (digits_rev f n).
Proof.
  revert n. induction f as [|f IH]; intros n Hn; simpl; constructor.
  - pose proof (Z.mod_pos_bound n 10). lia.
  - zcase; [constructor | apply IH; apply Z.div_pos; lia].
Qed.

Lemma digits_value_snoc r ds d :
  digits_value r (ds ++ [d]) = (digits_value r ds * r + d)%Z.
Proof. unfold digits_value. by rewrite fold_left_app. Qed.

Lemma digits_rev_value f n :
  (0 <= n < 10 ^ Z.of_nat f)%Z -> digits_value 10 (rev (digits_rev f n)) = n.
Proof.
  revert n. induction f as [|f IH]; intros n Hn.
  - simpl in Hn. cbn. lia.
  - cbn [digits_rev rev]. rewrite digits_value_snoc. zcase.
    + rewrite Z.mod_small by lia. reflexivity.
    + rewrite IH.
      * pose proof (Z.div_mod n 10). lia.
      * rewrite Nat2Z.inj_succ, Z.pow_succ_r in Hn by lia.
        split; [apply Z.div_pos; lia | apply Z.div_lt_upper_bound; lia].
Qed.

Lemma dec_fuel_enough n : (0 <= n)%Z -> (n < 10 ^ Z.of_nat (S (Z.to_nat (Z.log2 n))))%Z.
Proof.
  intros Hn. rewrite Nat2Z.inj_succ, Z2Nat.id by apply Z.log2_nonneg.
  apply Z.lt_le_trans with (2 ^ Z.succ (Z.log2 n))%Z.
  - destruct (Z.eq_dec n 0%Z) as [->|Hn0]; [reflexivity|].
    apply Z.log2_spec. lia.
  - apply Z.pow_le_mono_l. pose proof (Z.log2_nonneg n). lia.
Qed.

Lemma digit_prefix_chars ds :
  Forall (fun d => 0 <= d < 10)%Z ds ->
  digit_prefix 10 (string_of_chars (map digit_char ds)) = ds.
Proof.
  induction 1 as [|d ds Hd _ IH]; simpl; [done|].
  by rewrite (proj1 (digit_char_facts d Hd)), IH.
Qed.

(** The digits of a non-negative number: non-empty, each in 0..9, and of
    value the number itself. *)
Lemma dec_string_digits n : (0 <= n)%Z -> exists d ds,
  dec_string n = string_of_chars (map digit_char (d :: ds)) /\
  Forall (fun d => 0 <= d < 10)%Z (d :: ds) /\ digits_value 10 (d :: ds) = n.
Proof.
  intros Hn. unfold dec_string.
  set (f := S (Z.to_nat (Z.log2 n))).
  pose proof (digits_rev_range f n Hn) as Hr.
  pose proof (digits_rev_value f n (conj Hn (dec_fuel_enough n Hn))) as Hv.
  destruct (rev (digits_rev f n)) as [|d ds] eqn:E.
  - apply (f_equal (@length _)) in E. rewrite length_rev in E. simpl in E. discriminate.
  - exists d, ds. split; [done|]. split; [|done].
    rewrite <- E. by apply Forall_rev.
Qed.

Lemma parse_magnitude_dec n : (0 <= n)%Z -> parse_magnitude (dec_string n) = Some n.
Proof.
  intros Hn. destruct (dec_string_digits n Hn) as (d & ds & -> & Hall & <-).
  pose proof Hall as [Hd Hds]%Forall_cons.
  unfold parse_magnitude. destruct ds as [|d' ds'].
  - cbn -[digit_val digit_char]. by rewrite (proj1 (digit_char_facts d Hd)).
  - pose proof Hds as [Hd' Hds']%Forall_cons.
    destruct (digit_char_facts d' Hd') as (_ & _ & _ & _ & Hx' & HX').
    pose proof (digit_prefix_chars (d :: d' :: ds') Hall) as E.
    cbn [map string_of_chars] in E |- *. rewrite Hx', HX', andb_false_r.
    cbn beta iota. by rewrite E.
Qed.

Lemma length_string_of_chars cs : String.length (string_of_chars cs) = length cs.
Proof. induction cs; simpl; congruence. Qed.

(** The decimal form of a natural number: its digits, none a sign. *)
Lemma dec_string_prefix n : (0 <= n)%Z ->
  exists c r, dec_string n = String c r /\ Ascii.eqb c "-"%char = false /\ Ascii.eqb c "+"%char = false /\
  length (digit_prefix 10 (dec_string n)) = String.length (dec_string n) /\
  (0 < length (digit_prefix 10 (dec_string n)))%nat /\
  digits_value 10 (digit_prefix 10 (dec_string n)) = n.
Proof.
  intros Hn. destruct (dec_string_digits n Hn) as (d & ds & Hs & Hall & Hv).
  pose proof Hall as [Hd _]%Forall_cons. destruct (digit_char_facts d Hd) as (_ & _ & Hm & Hp & _).
  rewrite Hs, digit_prefix_chars, length_string_of_chars, length_map by done.
  exists (digit_char d), (string_of_chars (map digit_char ds)). simpl. repeat split; auto with arith.
Qed.

Lemma dec_string_head n : (0 <= n)%Z -> exists c r, dec_string n = String c r /\
  is_ws c = false /\ Ascii.eqb c "-"%char = false /\ Ascii.eqb c "+"%char = false.
Proof.
  intros Hn. destruct (dec_string_digits n Hn) as (d & ds & -> & [Hd _]%Forall_cons & _).
  destruct (digit_char_facts d Hd) as (_ & ? & ? & ? & _). by eexists _, _.
Qed.

(** [Number.parseInt] reads back what [toString] prints. *)
Lemma parseInt_toString n : parseInt (toString n) = Int n.
Proof.
  unfold toString, parseInt. zcase.
  - cbn [trim_start]. replace (is_ws "-"%char) with false by reflexivity.
    cbn -[parse_magnitude dec_string].
    rewrite parse_magnitude_dec by lia. f_equal. lia.
  - destruct (dec_string_head n H) as (c & r & Hs & Hws & Hm & Hp).
    rewrite Hs. cbn [trim_start]. rewrite Hws, Hm, Hp. cbn beta iota.
    rewrite <- Hs, parse_magnitude_dec by lia. f_equal. lia.
Qed.
