(* ===== verification/Model.v ===== *)
(** * Model: the JSON entities exchanged with the backend.

    One record per entity, with the field names of the TypeScript
    interfaces ([BookType] of BookManagement.tsx, [Member] of
    MemberManagement.tsx, [BorrowingTransaction] of
    BorrowingManagement.tsx).  The narrower interfaces [BookOption] and
    [MemberOption] of BorrowingManagement.tsx are views of the same JSON
    objects and are modelled by these records.  Number fields that a form
    fills with [Number.parseInt] hold a [num] (an integer or [NaN]); ids
    are [option Z] ([undefined] before the backend assigns one).  Dates
    are the ISO strings the backend sends. *)

From S2P Require Import Prelude Js.

Inductive MembershipStatus := ACTIVE | SUSPENDED | EXPIRED.
Inductive TxStatus := BORROWED | RETURNED | OVERDUE.

#[export] Instance MembershipStatus_eq_dec : EqDecision MembershipStatus.
Proof. solve_decision. Defined.
#[export] Instance TxStatus_eq_dec : EqDecision TxStatus.
Proof. solve_decision. Defined.

Record BookType := mkBook {
  bookId : option Z;
  title : string;
  author : string;
  genre : string;
  isbn : string;
  yearPublished : num;
  availableCopies : num;
  totalCopies : num }.

Record Member := mkMember {
  memberId : option Z;
  name : string;
  email : string;
  phone : string;
  address : string;
  membershipStatus : MembershipStatus;
  registrationDate : option string }.

Record BorrowingTransaction := mkTx {
  transactionId : option Z;
  book : BookType;
  member : Member;
  borrowDate : string;
  dueDate : string;
  returnDate : option string;
  status : TxStatus }.

(** ** Dates

    The backend sends dates as strings and the client reads them with
    [new Date(s)]; [date_parse s] is the time value in milliseconds of
    [new Date(s)], [None] for an Invalid Date.  The codec is an interface:
    the backend's [format_day] prints a day number (days since
    1970-01-01) and the client's [date_parse] reads it back at midnight
    UTC of that day, for the days of [day_in_range]. *)

Definition ms_per_day : Z := 86400000.

(** The [variant] of the [Badge] and [Button] components (components/ui). *)
Inductive UiVariant := default | secondary | destructive | outline.

#[export] Instance Variant_eq_dec : EqDecision UiVariant.
Proof. solve_decision. Defined.

Class DateCodec := {
  format_day : Z -> string;
  date_parse : string -> option Z;
  day_in_range : Z -> bool;
  date_parse_format d : day_in_range d = true -> date_parse (format_day d) = Some (d * ms_per_day)%Z }.
