(* ===== verification/IsoDate.v ===== *)
(** * IsoDate: the dates on the wire, "YYYY-MM-DD".

    The backend prints a day ([java.time.LocalDate.toString]: a four-digit
    year for the years 0 to 9999, a sign and more digits otherwise) from
    its day number by the proleptic Gregorian calendar
    ([civil_from_days], H. Hinnant's algorithm).  The client reads it with
    [new Date("YYYY-MM-DD")], which ECMA-262 (21.4.1.32) reads as the
    start of that day in UTC: [MakeDay] with [DayFromYear],
    [InLeapYear] and the month table of [DayWithinYear].  Strings of any
    other form are read as an Invalid Date ([None]); the
    implementation-specific fallback formats of browsers are not
    modelled.  [iso_codec] is the resulting [DateCodec]; its law holds
    for the years 0 to 9999. *)

From S2P Require Import Prelude Js Model.
From Stdlib Require Import Ascii.

Open Scope Z_scope.

(** ** ECMA-262 day arithmetic *)

Definition DayFromYear (y : Z) : Z :=
  365 * (y - 1970) + (y - 1969) / 4 - (y - 1901) / 100 + (y - 1601) / 400.

Definition InLeapYear (y : Z) : bool :=
  ((y mod 4 =? 0) && negb (y mod 100 =? 0)) || (y mod 400 =? 0).

(** The first day of month [mn] (0 to 11) within its year. *)
Definition month_start (leap : bool) (mn : Z) : Z :=
  let l := if leap then 1 else 0 in
  match mn with
  | 0 => 0 | 1 => 31 | 2 => 59 + l | 3 => 90 + l | 4 => 120 + l | 5 => 151 + l
  | 6 => 181 + l | 7 => 212 + l | 8 => 243 + l | 9 => 273 + l | 10 => 304 + l
  | _ => 334 + l
  end.

(** [MakeDay(year, month, date)] for a month in 0 to 11. *)
Definition MakeDay (y mn d : Z) : Z := DayFromYear y + month_start (InLeapYear y) mn + d - 1.

(** ** The backend's calendar *)

(** The year of era, month and day of the day [doe] (0 to 146096) of a
    400-year era that starts on 0000-03-01. *)
Definition civil_of_doe (doe : Z) : Z * Z * Z :=
  let yoe := (doe - doe / 1460 + doe / 36524 - doe / 146096) / 365 in
  let doy := doe - (365 * yoe + yoe / 4 - yoe / 100) in
  let mp := (5 * doy + 2) / 153 in
  let d := doy - (153 * mp + 2) / 5 + 1 in
  let m := if mp <? 10 then mp + 3 else mp - 9 in
  (yoe + (if m <=? 2 then 1 else 0), m, d).

Definition civil_from_days (z : Z) : Z * Z * Z :=
  let z' := z + 719468 in
  let era := z' / 146097 in
  let '(y, m, d) := civil_of_doe (z' - era * 146097) in
  (y + era * 400, m, d).

(** Zero-padded decimal digits. *)
Definition pad2 (n : Z) : string :=
  String (digit_char (n / 10)) (String (digit_char (n mod 10)) EmptyString).

Definition pad4 (n : Z) : string :=
  String (digit_char (n / 1000)) (String (digit_char (n / 100 mod 10))
    (String (digit_char (n / 10 mod 10)) (String (digit_char (n mod 10)) EmptyString))).

(** [LocalDate.toString()] *)
Definition format_iso (z : Z) : string :=
  let '(y, m, d) := civil_from_days z in
  let ys := if y <? 0 then String "-"%char (pad4 (- y))
            else if 9999 <? y then String "+"%char (dec_string y) else pad4 y in
  ys +:+ String "-"%char (pad2 m +:+ String "-"%char (pad2 d)).

(** ** The client's reading *)

Definition digit10 (c : Ascii.ascii) : option Z := digit_val 10 c.

(** [new Date(s).getTime()] for the date-only form "YYYY-MM-DD". *)
Definition parse_iso (s : string) : option Z :=
  match s with
  | String y1 (String y2 (String y3 (String y4 (String dash1
      (String m1 (String m2 (String dash2 (String d1 (String d2 EmptyString))))))))) =>
      if Ascii.eqb dash1 "-"%char && Ascii.eqb dash2 "-"%char then
        match digit10 y1, digit10 y2, digit10 y3, digit10 y4, digit10 m1, digit10 m2,
              digit10 d1, digit10 d2 with
        | Some a1, Some a2, Some a3, Some a4, Some b1, Some b2, Some c1, Some c2 =>
            let y := 1000 * a1 + 100 * a2 + 10 * a3 + a4 in
            let m := 10 * b1 + b2 in
            let d := 10 * c1 + c2 in
            if (1 <=? m) && (m <=? 12) && (1 <=? d) && (d <=? 31)
            then Some (MakeDay y (m - 1) d * ms_per_day)
            else None
        | _, _, _, _, _, _, _, _ => None
        end
      else None
  | _ => None
  end.

(** The days of the years 0 to 9999. *)
Definition iso_in_range (z : Z) : bool := (-719528 <=? z) && (z <=? 2932896).

(** ** The finite check over one era *)

(** What is checked of every day of the era: a month and a day in range,
    [MakeDay] inverts the calendar, and the day lies in its year. *)
Definition doe_ok (doe : Z) : bool :=
  let '(y, m, d) := civil_of_doe doe in
  (1 <=? m) && (m <=? 12) && (1 <=? d) && (d <=? 31) && (0 <=? y) && (y <=? 400) &&
  (MakeDay y (m - 1) d =? doe - 719468) && (MakeDay y (m - 1) d <? DayFromYear (y + 1)).

Fixpoint check_from (n : nat) (z : Z) : bool :=
  match n with O => true | S n' => doe_ok z && check_from n' (z + 1) end.

(** ** Lemmas *)

Lemma check_from_spec n z : check_from n z = true -> forall x, z <= x < z + Z.of_nat n -> doe_ok x = true.
Proof.
  revert z. induction n as [|n IH]; intros z Hc x Hx; [lia|].
  simpl in Hc. apply andb_true_iff in Hc as [Hz Hc].
  destruct (Z.eq_dec x z) as [->|Hne]; [done|]. apply (IH (z + 1) Hc). lia.
Qed.

Lemma era_check : check_from (Z.to_nat 146097) 0 = true.
Proof. vm_compute. reflexivity. Qed.

Lemma doe_ok_all doe : 0 <= doe < 146097 -> doe_ok doe = true.
Proof. intros H. apply (check_from_spec _ 0 era_check). lia. Qed.

Lemma InLeapYear_shift y k : InLeapYear (y + 400 * k) = InLeapYear y.
Proof.
  unfold InLeapYear.
  assert (E4 : (y + 400 * k) mod 4 = y mod 4) by (Z.div_mod_to_equations; lia).
  assert (E100 : (y + 400 * k) mod 100 = y mod 100) by (Z.div_mod_to_equations; lia).
  assert (E400 : (y + 400 * k) mod 400 = y mod 400) by (Z.div_mod_to_equations; lia).
  by rewrite E4, E100, E400.
Qed.

Lemma DayFromYear_shift y k : DayFromYear (y + 400 * k) = DayFromYear y + 146097 * k.
Proof.
  unfold DayFromYear.
  replace (y + 400 * k - 1969) with ((y - 1969) + (100 * k) * 4) by ring.
  replace (y + 400 * k - 1901) with ((y - 1901) + (4 * k) * 100) by ring.
  replace (y + 400 * k - 1601) with ((y - 1601) + k * 400) by ring.
  rewrite !Z.div_add by lia. ring.
Qed.

Lemma MakeDay_shift y k mn d : MakeDay (y + 400 * k) mn d = MakeDay y mn d + 146097 * k.
Proof. unfold MakeDay. rewrite InLeapYear_shift, DayFromYear_shift. ring. Qed.

Lemma century_gap y1 y2 : y1 <= y2 -> (y2 - 1901) / 100 - (y1 - 1901) / 100 <= y2 - y1.
Proof.
  intros. pose proof (Z.div_mod (y2 - 1901) 100). pose proof (Z.div_mod (y1 - 1901) 100).
  pose proof (Z.mod_pos_bound (y2 - 1901) 100). pose proof (Z.mod_pos_bound (y1 - 1901) 100). lia.
Qed.

Lemma DayFromYear_mono y1 y2 : y1 <= y2 -> DayFromYear y1 <= DayFromYear y2.
Proof.
  intros H. unfold DayFromYear. pose proof (century_gap y1 y2 H).
  pose proof (Z.div_le_mono (y1 - 1969) (y2 - 1969) 4 ltac:(lia) ltac:(lia)).
  pose proof (Z.div_le_mono (y1 - 1601) (y2 - 1601) 400 ltac:(lia) ltac:(lia)). lia.
Qed.

Lemma month_start_nonneg l mn : 0 <= month_start l mn.
Proof. unfold month_start. destruct l; repeat case_match; lia. Qed.

(** The calendar of the backend: every day number is a month, a day of
    at most 31 and a year, which [MakeDay] maps back to the day number,
    and the day lies within that year. *)
Lemma civil_from_days_spec z :
  let '(y, m, d) := civil_from_days z in
  1 <= m <= 12 /\ 1 <= d <= 31 /\ MakeDay y (m - 1) d = z /\
  DayFromYear y <= z < DayFromYear (y + 1).
Proof.
  unfold civil_from_days.
  set (era := (z + 719468) / 146097).
  assert (Hdoe : 0 <= z + 719468 - era * 146097 < 146097)
    by (subst era; pose proof (Z.mod_pos_bound (z + 719468) 146097); rewrite Z.mod_eq in *; lia).
  pose proof (doe_ok_all _ Hdoe) as Hok. unfold doe_ok in Hok.
  destruct (civil_of_doe _) as [[y m] d].
  repeat rewrite andb_true_iff in Hok. rewrite !Z.leb_le, Z.eqb_eq, Z.ltb_lt in Hok.
  destruct Hok as [[[[[[[H1 H2] H3] H4] H5] H6] H7] H8].
  replace (y + era * 400) with (y + 400 * era) by ring.
  replace (y + 400 * era + 1) with ((y + 1) + 400 * era) by ring.
  rewrite MakeDay_shift, !DayFromYear_shift. unfold MakeDay in *.
  pose proof (month_start_nonneg (InLeapYear y) (m - 1)). lia.
Qed.

Lemma civil_year_range z :
  iso_in_range z = true -> let '(y, m, d) := civil_from_days z in 0 <= y <= 9999.
Proof.
  unfold iso_in_range. rewrite andb_true_iff, !Z.leb_le. intros Hz.
  pose proof (civil_from_days_spec z) as Hs. destruct (civil_from_days z) as [[y m] d].
  destruct Hs as (_ & _ & _ & Hlo & Hhi).
  assert (E0 : DayFromYear 0 = -719528) by reflexivity.
  assert (E1 : DayFromYear 10000 = 2932897) by reflexivity.
  split.
  - destruct (Z.le_gt_cases 0 y) as [|Hy]; [done|].
    pose proof (DayFromYear_mono (y + 1) 0 ltac:(lia)). lia.
  - destruct (Z.le_gt_cases y 9999) as [|Hy]; [done|].
    pose proof (DayFromYear_mono 10000 y ltac:(lia)). lia.
Qed.

Lemma digit10_char k : 0 <= k < 10 -> digit10 (digit_char k) = Some k.
Proof. intros Hk. apply (digit_char_facts k Hk). Qed.

(** The client reads back every day the backend prints, for the years 0
    to 9999: [new Date(LocalDate.toString())] is the start of that day. *)
Lemma parse_iso_format z : iso_in_range z = true -> parse_iso (format_iso z) = Some (z * ms_per_day).
Proof.
  intros Hr. pose proof (civil_year_range z Hr) as Hy. pose proof (civil_from_days_spec z) as Hs.
  unfold format_iso. destruct (civil_from_days z) as [[y m] d].
  destruct Hs as (Hm & Hd & Hmk & _).
  rewrite (proj2 (Z.ltb_ge y 0)), (proj2 (Z.ltb_ge 9999 y)) by lia.
  unfold pad4, pad2. autorewrite with lms_simpl. cbv beta iota delta [parse_iso].
  rewrite !digit10_char by (Z.div_mod_to_equations; lia).
  change (Ascii.eqb "-"%char "-"%char && Ascii.eqb "-"%char "-"%char) with true. cbv beta iota.
  replace (1000 * (y / 1000) + 100 * (y / 100 mod 10) + 10 * (y / 10 mod 10) + y mod 10) with y
    by (Z.div_mod_to_equations; lia).
  replace (10 * (m / 10) + m mod 10) with m by (Z.div_mod_to_equations; lia).
  replace (10 * (d / 10) + d mod 10) with d by (Z.div_mod_to_equations; lia).
  cbv zeta.
  replace ((1 <=? m) && (m <=? 12) && (1 <=? d) && (d <=? 31)) with true
    by (symmetry; rewrite !andb_true_iff, !Z.leb_le; lia).
  by rewrite Hmk.
Qed.

(** The ten characters of a day of the years 0 to 9999. *)
Lemma format_iso_length z : iso_in_range z = true -> String.length (format_iso z) = 10%nat.
Proof.
  intros Hr. pose proof (civil_year_range z Hr) as Hy.
  unfold format_iso. destruct (civil_from_days z) as [[y m] d].
  rewrite (proj2 (Z.ltb_ge y 0)), (proj2 (Z.ltb_ge 9999 y)) by lia.
  unfold pad4, pad2. autorewrite with lms_simpl. reflexivity.
Qed.

(** The wire format of dates: for the years 0 to 9999 the backend
    prints a day as the ten characters YYYY-MM-DD, the client's
    [new Date(...)] reads it back as the start of that day (UTC), and
    distinct days print distinct strings. *)
Theorem format_iso_roundtrip z z' :
  iso_in_range z = true -> iso_in_range z' = true ->
  String.length (format_iso z) = 10%nat /\ parse_iso (format_iso z) = Some (z * ms_per_day) /\
  (format_iso z = format_iso z' -> z = z').
Proof.
  intros Hz Hz'. split; [by apply format_iso_length|]. split; [by apply parse_iso_format|].
  intros Heq. pose proof (parse_iso_format z Hz) as E. rewrite Heq, parse_iso_format in E by done.
  injection E. unfold ms_per_day. lia.
Qed.

Lemma format_iso_roundtrip_witness :
  iso_in_range 19723 = true /\ iso_in_range 19724 = true /\
  String.length (format_iso 19723) = 10%nat /\ parse_iso (format_iso 19723) = Some (19723 * ms_per_day) /\
  (format_iso 19723 = format_iso 19724 -> 19723 = 19724).
Proof.
  split; [reflexivity|]. split; [reflexivity|].
  apply format_iso_roundtrip; reflexivity.
Defined.

(** The codec of the wire format. *)
#[export] Instance iso_codec : DateCodec := {|
  format_day := format_iso;
  date_parse := parse_iso;
  day_in_range := iso_in_range;
  date_parse_format := parse_iso_format |}.
