(* ===== verification/Http.v ===== *)
(** * Http: the REST endpoints, axios and the [api] instance of
    src/services/api.ts.

    [Request R] lists every call the components make, indexed by the type
    of the JSON data the call resolves with.  A backend is anything that
    answers a request ([Backend], the interface between the client and
    the server); [settle] is axios' resolution of a reply (2xx resolves,
    anything else rejects with an [AxiosError]); [on_response_error] is
    the response interceptor of api.ts (lines 26-52) and [api_request]
    runs a request through it, re-sending once after a 500.
    [API_BASE_URL] is the base URL of line 3, a function of the value of
    [REACT_APP_API_URL] the bundle was built with. *)

From S2P Require Import Prelude Js Model.

Inductive ErrCode :=
  | ECONNREFUSED | ERR_NETWORK | ECONNABORTED | ETIMEDOUT
  | ERR_BAD_REQUEST | ERR_BAD_RESPONSE.

#[export] Instance ErrCode_eq_dec : EqDecision ErrCode.
Proof. solve_decision. Defined.

(** An [Error] as the handlers see it: [error.message], [error.code] and
    [error.response?.status]. *)
Record JsError := mkError {
  message : string;
  code : option ErrCode;
  responseStatus : option Z }.

(** [error.message || fallback] *)
Definition message_or (fallback : string) (e : JsError) : string :=
  if str_truthy (message e) then message e else fallback.

(** The calls of the components, with the URL each one requests. *)
Inductive Request : Type -> Type :=
  | GetBooks : Request (list BookType)                        (* GET /books *)
  | GetAvailableBooks : Request (list BookType)               (* GET /books/available *)
  | SearchBooks (keyword : string) : Request (list BookType)  (* GET /books/search?keyword= *)
  | PostBook (b : BookType) : Request unit                    (* POST /books *)
  | PutBook (id : Z) (b : BookType) : Request unit            (* PUT /books/{id} *)
  | DeleteBook (id : Z) : Request unit                        (* DELETE /books/{id} *)
  | GetMembers : Request (list Member)                        (* GET /members *)
  | GetActiveMembers : Request (list Member)                  (* GET /members/active *)
  | SearchMembers (name : string) : Request (list Member)     (* GET /members/search?name= *)
  | PostMember (m : Member) : Request unit                    (* POST /members *)
  | PutMember (id : Z) (m : Member) : Request unit            (* PUT /members/{id} *)
  | DeleteMember (id : Z) : Request unit                      (* DELETE /members/{id} *)
  | GetBorrowing : Request (list BorrowingTransaction)        (* GET /borrowing *)
  | GetOverdue : Request (list BorrowingTransaction)          (* GET /borrowing/overdue *)
  | PostBorrow (bookId memberId : string) : Request unit      (* POST /borrowing/borrow?bookId=&memberId= *)
  | PostReturn (transactionId : Z) : Request unit             (* POST /borrowing/return/{id} *)
  | GetHealth : Request unit.                                 (* GET /health *)

(** What comes back over the wire: a response with a status and the
    body, or no response at all (network failure, timeout).  The body of
    an error response is never read by the client, only logged. *)
Inductive Reply (R : Type) : Type :=
  | Response (status : Z) (data : R)
  | NoResponse (c : ErrCode) (msg : string).
Arguments Response {R}.
Arguments NoResponse {R}.

(** What an awaited call gives the handler: the response, or the error
    the promise rejects with. *)
Inductive Outcome (R : Type) : Type :=
  | Fulfilled (status : Z) (data : R)
  | Rejected (e : JsError).
Arguments Fulfilled {R}.
Arguments Rejected {R}.

(** axios' default [validateStatus]. *)
Definition validateStatus (s : Z) : bool := (200 <=? s)%Z && (s <? 300)%Z.

(** axios' [settle]: the error code of a rejected response is
    [ERR_BAD_REQUEST] for 4xx, [ERR_BAD_RESPONSE] for 5xx, none otherwise. *)
Definition settle {R} (r : Reply R) : Outcome R :=
  match r with
  | Response s d =>
      if validateStatus s then Fulfilled s d
      else Rejected (mkError ("Request failed with status code " +:+ toString s)
                       (match (s / 100 - 4)%Z with
                        | 0%Z => Some ERR_BAD_REQUEST
                        | 1%Z => Some ERR_BAD_RESPONSE
                        | _ => None end)
                       (Some s))
  | NoResponse c m => Rejected (mkError m (Some c) None)
  end.

(** ** The response interceptor of api.ts *)

Definition backend_unavailable : JsError :=
  mkError "Backend server is not available. Please ensure the Spring Boot application is running on port 8080." None None.

Definition is_connection_error (c : option ErrCode) : bool :=
  match c with Some ECONNREFUSED | Some ERR_NETWORK => true | _ => false end.

(** The error handler of the interceptor: [Some e'] rejects with [e'],
    [None] re-sends the request (after marking it [_retry]). *)
Definition on_response_error (retried : bool) (e : JsError) : option JsError :=
  if is_connection_error (code e) then Some backend_unavailable
  else if bool_decide (responseStatus e = Some 500%Z) && negb retried then None
  else Some e.

(** The interface a backend offers the client: it answers a request at a
    time (milliseconds since the epoch), changing its own state. *)
Class Backend := {
  srv_state : Type;
  serve : forall {R}, Z -> Request R -> srv_state -> Reply R * srv_state }.

Section Api.
Context `{Backend}.

  (** [api.get/post/put/delete(...)]: send, settle, and let the interceptor
      decide; a re-send happens 1000 ms later with [_retry] set.  The
      result counts the requests sent; [fuel] bounds them. *)
Fixpoint api_request {R} (fuel : nat) (retried : bool) (now : Z) (r : Request R)
      (s : srv_state) : option (Outcome R * srv_state * nat) :=
    match fuel with
    | O => None
    | S f =>
        let '(reply, s1) := serve now r s in
        match settle reply with
        | Fulfilled st d => Some (Fulfilled st d, s1, 1)
        | Rejected e =>
            match on_response_error retried e with
            | Some e' => Some (Rejected e', s1, 1)
            | None =>
                match api_request f true (now + 1000)%Z r s1 with
                | Some (o, s2, n) => Some (o, s2, S n)
                | None => None
                end
            end
        end
    end.

  (** A call through [api], with the two attempts it can take. *)
Definition api_call {R} (now : Z) (r : Request R) (s : srv_state) : option (Outcome R * srv_state * nat) :=
    api_request 2 false now r s.
  (** The outcome of an attempt that may not re-send. *)
Definition last_attempt {R} (reply : Reply R) : Outcome R :=
    match settle reply with
    | Fulfilled st d => Fulfilled st d
    | Rejected e => match on_response_error true e with Some e' => Rejected e' | None => Rejected e end
    end.



  (** [api_call] as a total function; the fallback branch is unreachable
      by [api_call_total]. *)
Definition api_exchange {R} (now : Z) (r : Request R) (s : srv_state) : Outcome R * srv_state * nat :=
    match api_call now r s with
    | Some x => x
    | None => (Rejected backend_unavailable, s, 0%nat)
    end.

End Api.

(** [checkBackendHealth] (api.ts 55-71): a fresh axios instance without
    interceptors; true exactly on status 200, false on any rejection. *)
Definition health_of (o : Outcome unit) : bool :=
  match o with
  | Fulfilled st _ => (st =? 200)%Z
  | Rejected _ => false
  end.

(** [res.status === "fulfilled" ? res.value.data : []] *)
Definition settled_or_empty {A} (o : Outcome (list A)) : list A :=
  match o with Fulfilled _ d => d | Rejected _ => [] end.

Definition is_rejected {A} (o : Outcome A) : bool :=
  match o with Fulfilled _ _ => false | Rejected _ => true end.

(** A property of the data a backend sends back, request by request,
    and what it says of an outcome: a rejection carries no data. *)
Definition ReplyProp := forall R, Request R -> R -> Prop.

Definition outcome_ok (Q : ReplyProp) {R} (r : Request R) (o : Outcome R) : Prop :=
  match o with Fulfilled _ d => Q R r d | Rejected _ => True end.

(** ** Lemmas on the interceptor *)

Lemma settle_ok (Q : ReplyProp) {R} (r : Request R) (reply : Reply R) :
  (forall st d, reply = Response st d -> Q R r d) -> outcome_ok Q r (settle reply).
Proof.
  intros HQ. destruct reply as [st d|c m]; simpl; [|done].
  destruct (validateStatus st); simpl; [|done]. by apply (HQ st).
Qed.

Lemma on_response_error_retried e : exists e', on_response_error true e = Some e'.
Proof.
  unfold on_response_error. destruct (is_connection_error _); [eauto|].
  rewrite andb_false_r. eauto.
Qed.

(** The interceptor asks for a re-send only for a response of status 500
    that was not re-sent already. *)
Lemma on_response_error_retry {R} (retried : bool) (reply : Reply R) e :
  settle reply = Rejected e -> on_response_error retried e = None ->
  retried = false /\ exists d, reply = Response 500 d.
Proof.
  unfold on_response_error. intros Hs.
  destruct (is_connection_error _) eqn:Hc; [done|].
  case_bool_decide as Hst; [|done]. destruct retried; [done|]. intros _.
  split; [done|]. destruct reply as [st d|c m]; simpl in Hs.
  - destruct (validateStatus st); [done|]. injection Hs as <-. simpl in Hst.
    injection Hst as ->. eauto.
  - injection Hs as <-. done.
Qed.

Section ApiLemmas.
Context `{Backend}.

Lemma api_request_step {R} f retried now (r : Request R) s :
    api_request (S f) retried now r s =
      let '(reply, s1) := serve now r s in
      match settle reply with
      | Fulfilled st d => Some (Fulfilled st d, s1, 1%nat)
      | Rejected e =>
          match on_response_error retried e with
          | Some e' => Some (Rejected e', s1, 1%nat)
          | None =>
              match api_request f true (now + 1000)%Z r s1 with
              | Some (o, s2, n) => Some (o, s2, S n)
              | None => None
              end
          end
      end.
  Proof. reflexivity. Qed.

Lemma api_request_retried {R} f now (r : Request R) s :
    api_request (S f) true now r s =
      let '(reply, s1) := serve now r s in Some (last_attempt reply, s1, 1).
  Proof.
    simpl. destruct (serve now r s) as [reply s1]. unfold last_attempt.
    destruct (settle reply) as [st d|e]; [done|].
    destruct (on_response_error_retried e) as [e' ->]. done.
  Qed.

  (** Enough fuel gives the result: any fuel from 2 on computes the same
      outcome as [api_call], and that outcome exists. *)
Lemma api_request_fuel {R} fuel now (r : Request R) s :
    (2 <= fuel)%nat -> api_request fuel false now r s = api_call now r s.
  Proof.
    intros Hf. destruct fuel as [|[|f]]; [lia|lia|].
    unfold api_call. rewrite !api_request_step.
    destruct (serve now r s) as [reply s1]. destruct (settle reply) as [|e]; [done|].
    destruct (on_response_error false e); [done|].
    rewrite !api_request_retried. done.
  Qed.

  (** [api_call] always answers, after one or two requests. *)
Lemma api_call_total {R} now (r : Request R) s :
    exists o s' n, api_call now r s = Some (o, s', n) /\ (1 <= n <= 2)%nat.
  Proof.
    unfold api_call. rewrite api_request_step.
    destruct (serve now r s) as [reply s1].
    destruct (settle reply) as [|e]; [do 3 eexists; split; [reflexivity|lia]|].
    destruct (on_response_error false e); [do 3 eexists; split; [reflexivity|lia]|].
    rewrite api_request_retried. destruct (serve _ r s1).
    do 3 eexists; split; [reflexivity|lia].
  Qed.


(** (C10) Enough fuel gives the result: from 2 on, [api_request] answers after
    one or two requests. *)
Lemma api_request_terminates {R} fuel now (r : Request R) s :
    (2 <= fuel)%nat ->
    exists o s' n, api_request fuel false now r s = Some (o, s', n) /\ (1 <= n <= 2)%nat.
  Proof. intros Hf. rewrite api_request_fuel by done. apply api_call_total. Qed.

Lemma api_exchange_call {R} now (r : Request R) s :
    api_call now r s = Some (api_exchange now r s).
  Proof.
    unfold api_exchange. destruct (api_call_total now r s) as (o & s' & n & -> & _). done.
  Qed.
(** A backend whose every response satisfies [Q], in every state. *)
Definition serves_ok (Q : ReplyProp) : Prop :=
  forall R now (r : Request R) s st d s', serve now r s = (Response st d, s') -> Q R r d.

(** The data of a call through [api] come from a response of the
    backend, the first or the re-sent one. *)
Lemma api_request_ok Q {R} fuel retried now (r : Request R) s o s' n :
    serves_ok Q -> api_request fuel retried now r s = Some (o, s', n) -> outcome_ok Q r o.
  Proof.
    intros HQ. revert retried now s o s' n. induction fuel as [|f IH]; intros retried now s o s' n; [done|].
    rewrite api_request_step. destruct (serve now r s) as [reply s1] eqn:Hs.
    pose proof (settle_ok Q r reply (fun st d E => HQ _ _ _ _ _ _ _ (eq_trans Hs (f_equal (fun x => (x, s1)) E))))
      as Hok.
    destruct (settle reply) as [st d|e]; [intros [= <- _ _]; exact Hok|].
    destruct (on_response_error retried e); [by intros [= <- _ _]|].
    destruct (api_request f true _ r s1) as [[[o' s2] m]|] eqn:Hr; [|done].
    intros [= <- _ _]. exact (IH _ _ _ _ _ _ Hr).
  Qed.
Lemma api_exchange_ok Q {R} now (r : Request R) s :
    serves_ok Q -> outcome_ok Q r (api_exchange now r s).1.1.
  Proof.
    intros HQ. pose proof (api_exchange_call now r s) as Hc.
    destruct (api_exchange now r s) as [[o s'] n]. exact (api_request_ok Q 2 false now r s o s' n HQ Hc).
  Qed.
(** A first reply that is a success decides the call: one request. *)
Lemma api_exchange_fulfilled {R} now (r : Request R) s st d s' :
    serve now r s = (Response st d, s') -> validateStatus st = true ->
    api_exchange now r s = (Fulfilled st d, s', 1%nat).
  Proof. intros Hs Hv. unfold api_exchange, api_call. rewrite api_request_step, Hs. simpl. by rewrite Hv. Qed.
End ApiLemmas.

(** ** Network failures

    The [timeout] of the [api] instance (api.ts line 7) and the
    rejection axios gives a request that got no response in time:
    code [ECONNABORTED] and the message ["timeout of <ms>ms exceeded"]
    (axios 1.x, with [transitional.clarifyTimeoutError] off).  A backend
    that does not answer within it, and one that refuses the connection,
    as the client sees them. *)
Definition api_timeout_ms : Z := 10000.

(** [API_BASE_URL] (api.ts line 3):
    [process.env.REACT_APP_API_URL || "http://localhost:8080/api"], the
    variable's value fixed when the bundle is built ([None] when it is
    not set; the empty string is falsy), and the URL of the health check
    (line 63). *)
Definition default_api_url : string := "http://localhost:8080/api".

Definition API_BASE_URL (REACT_APP_API_URL : option string) : string :=
  match REACT_APP_API_URL with
  | Some u => if str_truthy u then u else default_api_url
  | None => default_api_url
  end.

Definition health_url (REACT_APP_API_URL : option string) : string :=
  API_BASE_URL REACT_APP_API_URL +:+ "/health".

Definition timeout_reply {R} (ms : Z) : Reply R :=
  NoResponse ECONNABORTED ("timeout of " +:+ toString ms +:+ "ms exceeded").

Definition stalled (B : Backend) : Backend := {|
  srv_state := @srv_state B;
  serve := fun R now (r : Request R) s => (timeout_reply api_timeout_ms, s) |}.

Definition refusing (B : Backend) : Backend := {|
  srv_state := @srv_state B;
  serve := fun R now (r : Request R) s => (NoResponse ECONNREFUSED "connect ECONNREFUSED 127.0.0.1:8080", s) |}.

(** A call through [api] that times out is rejected with axios' own
    timeout error, once: the interceptor neither re-sends it nor reports
    the backend unavailable, which it does for a refused connection. *)
Lemma api_exchange_stalled B now {R} (r : Request R) s :
  @api_exchange (stalled B) R now r s =
    (Rejected (mkError "timeout of 10000ms exceeded" (Some ECONNABORTED) None), s, 1%nat).
Proof. reflexivity. Qed.

Lemma api_exchange_refusing B now {R} (r : Request R) s :
  @api_exchange (refusing B) R now r s = (Rejected backend_unavailable, s, 1%nat).
Proof. reflexivity. Qed.

(** ** Witnesses *)

Module HttpWitnesses.

(** A backend that answers the health check with 500 the first time and
    200 afterwards, and fails every other request on the network. *)
Definition flaky : Backend := {|
  srv_state := nat;
  serve := fun R now (r : Request R) (n : nat) =>
    (match r in Request R return Reply R with
     | GetHealth => Response (if Nat.eqb n 0 then 500 else 200)%Z tt
     | _ => NoResponse ERR_NETWORK "Network Error"
     end, S n) |}.


Lemma api_request_terminates_witness :
  (2 <= 3)%nat /\
  exists o s' n, @api_request flaky unit 3 false 0 GetHealth 0%nat = Some (o, s', n) /\ (1 <= n <= 2)%nat.
Proof. split; [lia|]. apply (@api_request_terminates flaky unit 3 0 GetHealth 0%nat). lia. Defined.
End HttpWitnesses.
