(* ===== verification/Url.v ===== *)
(** * Url: the query strings of the requests.

    Two handlers put a user's text into a URL:
    [`/books/search?keyword=${encodeURIComponent(searchTerm)}`]
    (BookManagement.tsx line 112) and [`/members/search?name=...`]
    (MemberManagement.tsx line 107); the borrow request puts the two
    selected ids in without encoding (BorrowingManagement.tsx line 94).
    This file holds [encodeURIComponent] (ECMA-262, 19.2.6.5) over
    Latin-1 strings, and the backend's reading of a query parameter
    (spec-modelled: the servlet container splits the query on [&] and
    [=], reads [+] as a space and [%XY] as a byte, and decodes the bytes
    as UTF-8).  The round trip [url_decode_encode] is what makes the
    client's [SearchBooks term] the [term] the service searches for. *)

From S2P Require Import Prelude Js.
From Stdlib Require Import Ascii.

(** ** encodeURIComponent *)

(** The characters [encodeURIComponent] keeps: letters, digits and
    [- _ . ! ~ * ' ( )]. *)
Definition is_unreserved (c : ascii) : bool :=
  let n := code c in
  ((65 <=? n) && (n <=? 90)) || ((97 <=? n) && (n <=? 122)) || ((48 <=? n) && (n <=? 57)) ||
  existsb (Ascii.eqb c) ["-"; "_"; "."; "!"; "~"; "*"; "'"; "("; ")"]%char.

(** An upper-case hexadecimal digit. *)
Definition hex_digit (n : nat) : ascii := if n <? 10 then chr (48 + n) else chr (55 + n).

(** ["%XY"] for the byte [b]. *)
Definition pct (b : nat) : string :=
  String "%" (String (hex_digit (b / 16)) (String (hex_digit (b mod 16)) EmptyString)).

(** The UTF-8 bytes of a Latin-1 code unit: one below 128, two above. *)
Definition utf8_bytes (c : ascii) : list nat :=
  let n := code c in if n <? 128 then [n] else [192 + n / 64; 128 + n mod 64].

(** The UTF-8 bytes of a string. *)
Fixpoint utf8_string (s : string) : list nat :=
  match s with
  | EmptyString => []
  | String c r => utf8_bytes c ++ utf8_string r
  end.

Definition encode_char (c : ascii) : string :=
  if is_unreserved c then String c EmptyString
  else List.fold_right (fun b s => pct b +:+ s) EmptyString (utf8_bytes c).

Fixpoint encodeURIComponent (s : string) : string :=
  match s with
  | EmptyString => EmptyString
  | String c r => encode_char c +:+ encodeURIComponent r
  end.

(** ** The backend's reading of a query (spec-modelled) *)

Definition hex_val (c : ascii) : option nat :=
  let n := code c in
  if (48 <=? n) && (n <=? 57) then Some (n - 48)
  else if (65 <=? n) && (n <=? 70) then Some (n - 55)
  else if (97 <=? n) && (n <=? 102) then Some (n - 87)
  else None.

(** The bytes of a query component: [+] is a space, [%XY] a byte, any
    other character its code; a [%] without two hex digits is an error. *)
Fixpoint url_bytes (s : string) : option (list nat) :=
  match s with
  | EmptyString => Some []
  | String c r =>
      if Ascii.eqb c "%" then
        match r with
        | String h (String l r') =>
            match hex_val h, hex_val l with
            | Some a, Some b => cons (16 * a + b) <$> url_bytes r'
            | _, _ => None
            end
        | _ => None
        end
      else if Ascii.eqb c "+" then cons 32 <$> url_bytes r
      else cons (code c) <$> url_bytes r
  end.

(** UTF-8 decoding into Latin-1: a byte below 128, or a lead byte C2 or
    C3 with a continuation byte; anything else is outside the model. *)
Fixpoint utf8_latin1 (bs : list nat) : option string :=
  match bs with
  | [] => Some EmptyString
  | b :: r =>
      if b <? 128 then String (chr b) <$> utf8_latin1 r
      else match r with
           | b2 :: r' =>
               if ((b =? 194) || (b =? 195)) && (128 <=? b2) && (b2 <? 192)
               then String (chr ((b - 192) * 64 + (b2 - 128))) <$> utf8_latin1 r'
               else None
           | [] => None
           end
  end.

Definition url_decode (s : string) : option string := bs ← url_bytes s; utf8_latin1 bs.

(** The query: what follows the first [?]. *)
Fixpoint query_of (url : string) : string :=
  match url with
  | EmptyString => EmptyString
  | String c r => if Ascii.eqb c "?" then r else query_of r
  end.

(** [s] cut at every [sep]. *)
Fixpoint split_on (sep : ascii) (s : string) : list string :=
  match s with
  | EmptyString => [EmptyString]
  | String c r =>
      if Ascii.eqb c sep then EmptyString :: split_on sep r
      else match split_on sep r with
           | w :: ws => String c w :: ws
           | [] => [String c EmptyString]
           end
  end.

(** [s] cut at its first [sep]. *)
Fixpoint split_first (sep : ascii) (s : string) : string * option string :=
  match s with
  | EmptyString => (EmptyString, None)
  | String c r =>
      if Ascii.eqb c sep then (EmptyString, Some r)
      else let '(k, v) := split_first sep r in (String c k, v)
  end.

(** One pair [k=v] of a query, read for the parameter [name]. *)
Definition query_pick (name kv : string) : option string :=
  let '(k, v) := split_first "=" kv in
  match url_decode k with
  | Some k' => if String.eqb k' name then url_decode (from_option id EmptyString v) else None
  | None => None
  end.

Fixpoint first_pick (name : string) (kvs : list string) : option string :=
  match kvs with
  | [] => None
  | kv :: r => match query_pick name kv with Some v => Some v | None => first_pick name r end
  end.

(** [request.getParameter(name)]: the value of the first pair of the
    query whose decoded name is [name]. *)
Definition query_param (url name : string) : option string :=
  first_pick name (split_on "&" (query_of url)).

(** [s] has no [x]. *)
Fixpoint no_char (x : ascii) (s : string) : bool :=
  match s with
  | EmptyString => true
  | String c r => negb (Ascii.eqb c x) && no_char x r
  end.

Fixpoint all_unreserved (s : string) : bool :=
  match s with
  | EmptyString => true
  | String c r => is_unreserved c && all_unreserved r
  end.

(** ** Lemmas *)

Lemma append_nil_l (r : string) : EmptyString +:+ r = r.
Proof. reflexivity. Qed.
Lemma append_cons (c : ascii) (s r : string) : String c s +:+ r = String c (s +:+ r).
Proof. reflexivity. Qed.
Lemma append_assoc_str (s t u : string) : s +:+ (t +:+ u) = (s +:+ t) +:+ u.
Proof. induction s as [|c s IH]; [done|]. rewrite !append_cons. by rewrite IH. Qed.

(** A query component that decodes reads the same before any other. *)
Lemma url_bytes_app s r bs : url_bytes s = Some bs -> url_bytes (s +:+ r) = app bs <$> url_bytes r.
Proof.
  remember (String.length s) as n eqn:Hn. revert s bs Hn.
  induction n as [n IH] using lt_wf_ind. intros s bs Hn Hs.
  destruct s as [|c s'].
  - injection Hs as <-. rewrite append_nil_l. by destruct (url_bytes r).
  - rewrite append_cons. simpl in Hs |- *. destruct (Ascii.eqb c "%") eqn:Hc.
    + destruct s' as [|h [|l s'']]; try done. rewrite !append_cons. simpl in Hs |- *.
      destruct (hex_val h) as [a|], (hex_val l) as [b|]; try done.
      destruct (url_bytes s'') as [bs'|] eqn:E; [|done]. injection Hs as <-.
      rewrite (IH (String.length s'') ltac:(simpl in Hn; lia) s'' bs' eq_refl E). by destruct (url_bytes r).
    + destruct (Ascii.eqb c "+");
        (destruct (url_bytes s') as [bs'|] eqn:E; [|done]); injection Hs as <-;
        rewrite (IH (String.length s') ltac:(simpl in Hn; lia) s' bs' eq_refl E); by destruct (url_bytes r).
Qed.

(** The encoding of one code unit reads back as its UTF-8 bytes. *)
Lemma url_bytes_encode_char c : url_bytes (encode_char c) = Some (utf8_bytes c).
Proof. destruct c as [[] [] [] [] [] [] [] []]; reflexivity. Qed.

Lemma utf8_latin1_bytes c bs : utf8_latin1 (utf8_bytes c ++ bs) = String c <$> utf8_latin1 bs.
Proof. destruct c as [[] [] [] [] [] [] [] []]; reflexivity. Qed.

(** [decodeURIComponent] in the backend undoes [encodeURIComponent]. *)
Theorem url_decode_encode s : url_decode (encodeURIComponent s) = Some s.
Proof.
  unfold url_decode.
  assert (Hb : url_bytes (encodeURIComponent s) = Some (utf8_string s)).
  { induction s as [|c s IH]; [done|]. cbn [encodeURIComponent]. by rewrite (url_bytes_app _ _ _ (url_bytes_encode_char c)), IH. }
  rewrite Hb. simpl. clear Hb. induction s as [|c s IH]; [done|]. simpl.
  by rewrite utf8_latin1_bytes, IH.
Qed.

(** ** Splitting a query *)

Lemma no_char_app x s t : no_char x (s +:+ t) = no_char x s && no_char x t.
Proof. induction s as [|c s IH]; [done|]. simpl. by rewrite IH, andb_assoc. Qed.

(** The separators never occur in an encoded component. *)
Lemma no_char_encode_char c : no_char "&" (encode_char c) = true /\ no_char "=" (encode_char c) = true.
Proof. destruct c as [[] [] [] [] [] [] [] []]; split; reflexivity. Qed.

Lemma no_char_encode s : no_char "&" (encodeURIComponent s) = true /\ no_char "=" (encodeURIComponent s) = true.
Proof.
  induction s as [|c s [IH1 IH2]]; [done|]. cbn [encodeURIComponent].
  rewrite !no_char_app, IH1, IH2. destruct (no_char_encode_char c) as [-> ->]. done.
Qed.

(** An unreserved character is its own encoding and no separator. *)
Lemma unreserved_char c : is_unreserved c = true ->
  encode_char c = String c EmptyString /\
  Ascii.eqb c "&" = false /\ Ascii.eqb c "=" = false /\ Ascii.eqb c "?" = false.
Proof. intros Hc. unfold encode_char. rewrite Hc. destruct c as [[] [] [] [] [] [] [] []]; done. Qed.

Lemma unreserved_decode s : all_unreserved s = true ->
  url_decode s = Some s /\ no_char "&" s = true /\ no_char "=" s = true /\ no_char "?" s = true.
Proof.
  intros Hs. assert (He : encodeURIComponent s = s).
  { induction s as [|c s IH]; [done|]. simpl in Hs. apply andb_true_iff in Hs as [Hc Hs].
    cbn [encodeURIComponent]. rewrite IH by done. by rewrite (proj1 (unreserved_char c Hc)). }
  split; [rewrite <- He at 1; apply url_decode_encode|].
  clear He. induction s as [|c s IH]; [done|]. simpl in Hs |- *. apply andb_true_iff in Hs as [Hc Hs].
  destruct (unreserved_char c Hc) as (_ & -> & -> & ->). simpl. by apply IH.
Qed.

Lemma split_on_none sep s : no_char sep s = true -> split_on sep s = [s].
Proof.
  induction s as [|c s IH]; [done|]. simpl. intros [Hc Hs]%andb_true_iff.
  apply negb_true_iff in Hc. rewrite Hc, IH by done. done.
Qed.

Lemma split_on_sep sep s t : no_char sep s = true -> split_on sep (s +:+ String sep t) = s :: split_on sep t.
Proof.
  induction s as [|c s IH]; simpl.
  - by rewrite Ascii.eqb_refl.
  - intros [Hc Hs]%andb_true_iff. apply negb_true_iff in Hc. by rewrite Hc, IH.
Qed.

Lemma split_first_sep sep s t : no_char sep s = true -> split_first sep (s +:+ String sep t) = (s, Some t).
Proof.
  induction s as [|c s IH]; simpl.
  - by rewrite Ascii.eqb_refl.
  - intros [Hc Hs]%andb_true_iff. apply negb_true_iff in Hc. by rewrite Hc, IH.
Qed.

Lemma query_of_sep path q : no_char "?" path = true -> query_of (path +:+ String "?" q) = q.
Proof.
  induction path as [|c path IH]; simpl.
  - done.
  - intros [Hc Hs]%andb_true_iff. apply negb_true_iff in Hc. by rewrite Hc, IH.
Qed.

(** One pair [name=v] of a query: read when [name] is asked for,
    skipped otherwise. *)
Lemma query_pick_pair name v x asked :
  all_unreserved name = true -> url_decode v = Some x ->
  query_pick asked (name +:+ String "=" v) = if String.eqb name asked then Some x else None.
Proof.
  intros Hn Hv. destruct (unreserved_decode name Hn) as (Hd & _ & Heq & _). unfold query_pick.
  rewrite split_first_sep, Hd by done. simpl. destruct (String.eqb name asked); [exact Hv|done].
Qed.

(** ** Reading a parameter back *)

(** A URL with one parameter [name=v]. *)
Lemma query_param_single path name v x :
  no_char "?" path = true -> all_unreserved name = true -> no_char "&" v = true -> url_decode v = Some x ->
  query_param (path +:+ String "?" (name +:+ String "=" v)) name = Some x.
Proof.
  intros Hp Hn Hv Hx. destruct (unreserved_decode name Hn) as (_ & Ha & _).
  unfold query_param. rewrite query_of_sep by exact Hp.
  rewrite split_on_none by (rewrite no_char_app; simpl; by rewrite Ha, Hv).
  simpl. rewrite (query_pick_pair name v x name Hn Hx), String.eqb_refl. done.
Qed.

(** A URL with two parameters [n1=v1&n2=v2] of different names. *)
Lemma query_param_pair path n1 v1 x1 n2 v2 x2 :
  no_char "?" path = true -> all_unreserved n1 = true -> all_unreserved n2 = true -> n1 <> n2 ->
  no_char "&" v1 = true -> no_char "&" v2 = true -> url_decode v1 = Some x1 -> url_decode v2 = Some x2 ->
  query_param (path +:+ String "?" (n1 +:+ String "=" (v1 +:+ String "&" (n2 +:+ String "=" v2)))) n1 = Some x1 /\
  query_param (path +:+ String "?" (n1 +:+ String "=" (v1 +:+ String "&" (n2 +:+ String "=" v2)))) n2 = Some x2.
Proof.
  intros Hp Hn1 Hn2 Hne Hv1 Hv2 Hx1 Hx2.
  destruct (unreserved_decode n1 Hn1) as (_ & Ha1 & _). destruct (unreserved_decode n2 Hn2) as (_ & Ha2 & _).
  unfold query_param. rewrite query_of_sep by done.
  assert (Hs : n1 +:+ String "=" (v1 +:+ String "&" (n2 +:+ String "=" v2)) =
               (n1 +:+ String "=" v1) +:+ String "&" (n2 +:+ String "=" v2)).
  { rewrite <- append_assoc_str. done. }
  rewrite Hs, split_on_sep, split_on_none by (rewrite ?no_char_app; simpl; by rewrite ?Ha1, ?Ha2, ?Hv1, ?Hv2).
  simpl. rewrite !(query_pick_pair n1 v1 x1 _ Hn1 Hx1), !(query_pick_pair n2 v2 x2 _ Hn2 Hx2).
  rewrite String.eqb_refl. split; [done|].
  apply String.eqb_neq in Hne. rewrite Hne, String.eqb_refl. done.
Qed.

(** The digits of a number and its sign are unreserved. *)
Lemma all_unreserved_toString n : all_unreserved (toString n) = true.
Proof.
  assert (Hd : forall m, (0 <= m)%Z -> all_unreserved (dec_string m) = true).
  { intros m Hm. destruct (dec_string_digits m Hm) as (d & ds & -> & Hall & _).
    induction (d :: ds) as [|e es IH]; [done|]. apply Forall_cons in Hall as [He Hes].
    simpl. rewrite IH by done.
    assert (e = 0 \/ e = 1 \/ e = 2 \/ e = 3 \/ e = 4 \/ e = 5 \/ e = 6 \/ e = 7 \/ e = 8 \/ e = 9)%Z
      as Hc by lia.
    repeat destruct Hc as [-> | Hc]; [..| subst]; reflexivity. }
  unfold toString. destruct (n <? 0)%Z eqn:Hn; [simpl; apply Hd; lia|apply Hd; lia].
Qed.

(** What a browser gives for [encodeURIComponent("Café & co+1%")]. *)
Example encodeURIComponent_example :
  encodeURIComponent ("Caf" +:+ String (Ascii.ascii_of_nat 233) " & co+1%") = "Caf%C3%A9%20%26%20co%2B1%25".
Proof. reflexivity. Qed.
