(* ===== verification/StartupGuide.v ===== *)
(** * StartupGuide: the getting-started card
    (src/src/components/StartupGuide.tsx).

    A component without state or handler: the Dashboard shows it (its
    [guide] flag) when the health check failed.  Its render is the card's
    text: a title, the two services to start with their ports and
    commands, and a note.  [guide_backend_port] checks it against the
    client built without [REACT_APP_API_URL]: the port it tells the user
    to run the backend on is the port of [API_BASE_URL], and the one the
    interceptor's "not available" message names; [guide_port_overridden]
    shows that the card's port does not follow the variable. *)

From S2P Require Import Prelude Js Http Url.
From Stdlib Require Import Ascii.

Module StartupGuideComponent.

(** A service of the card (lines 22-42): its name, the port badge and
    the command to run. *)
Record ServiceCard := mkServiceCard {
  svc_name : string;
  svc_port : string;
  svc_command : string }.

Record GuideView := mkGuideView {
  guide_title : string;
  guide_intro : string;
  guide_services : list ServiceCard;
  guide_note : string }.

(** [StartupGuide()] (lines 7-52). *)
Definition render : GuideView :=
  mkGuideView "Getting Started"
    "To use the Library Management System, please ensure both frontend and backend are running:"
    [mkServiceCard "Backend (Spring Boot)" "Port 8080" "mvn spring-boot:run";
     mkServiceCard "Frontend (React)" "Port 3000" "npm start"]
    "Once both services are running, the connection status will show as connected above.".

End StartupGuideComponent.

(** The port of a URL [scheme://host:port/path]. *)
Definition url_port (url : string) : option string :=
  match split_first ":"%char url with
  | (_, Some rest) =>
      match split_first ":"%char rest with
      | (_, Some p) => Some (fst (split_first "/"%char p))
      | _ => None
      end
  | _ => None
  end.

Module StartupGuideFacts.
Import StartupGuideComponent.

(** Built without [REACT_APP_API_URL] (or with it empty), the card tells
    the user to run the backend on the port the client calls
    ([API_BASE_URL], and so the health check), and the one the
    interceptor's "Backend server is not available" message names. *)
Lemma guide_backend_port env :
  env = None \/ env = Some EmptyString ->
  exists p backend,
    url_port (API_BASE_URL env) = Some p /\ url_port (health_url env) = Some p /\
    guide_services render !! 0 = Some backend /\ svc_port backend = "Port " +:+ p /\
    includes (message backend_unavailable) ("port " +:+ p) = true.
Proof. intros [-> | ->]; do 2 eexists; by_compute. Qed.

(** The card's port is text: built with [REACT_APP_API_URL] naming
    another port, the client calls that port while the card still says
    8080. *)
Lemma guide_port_overridden :
  url_port (health_url (Some "http://localhost:9090/api")) = Some "9090" /\
  svc_port <$> guide_services render !! 0 = Some "Port 8080".
Proof. by_compute. Qed.

End StartupGuideFacts.
