(* ===== verification/Runtime.v ===== *)
(** * Runtime: the asynchronous handlers of the components as programs.

    A React component keeps its state in [useState] hooks and changes it
    in async handlers.  A handler is a program of [Eff S A] over the
    component's state [S]: [Upd] is a call of a state setter, [Await] an
    awaited request (through the [api] instance, or through the fresh
    instance of [checkBackendHealth]), [Spawn] the call of an async
    function whose promise is not awaited ([fetchData()]), [Sleep] an
    awaited [setTimeout], [Alert] a [window.alert], [Now] a [new Date()].
    [console.*] calls have no effect on state and are not modelled.

    [run] executes a program to the end against a [Backend], one request
    at a time; an [Eff] program is a finite tree, so every handler
    terminates ([run] is structural). *)

From S2P Require Import Prelude Js Model Http.

Inductive Client := ApiClient | HealthClient.

Inductive Eff (S A : Type) : Type :=
  | Ret (a : A)
  | Upd (f : S -> S) (k : Eff S A)
  | Await {R : Type} (c : Client) (r : Request R) (k : Outcome R -> Eff S A)
  | Spawn (p : Eff S unit) (k : Eff S A)
  | Sleep (ms : Z) (k : Eff S A)
  | Alert (msg : string) (k : Eff S A)
  | Now (k : Z -> Eff S A).
Arguments Ret {S A}.
Arguments Upd {S A}.
Arguments Await {S A R}.
Arguments Spawn {S A}.
Arguments Sleep {S A}.
Arguments Alert {S A}.
Arguments Now {S A}.

Fixpoint bind {S A B : Type} (m : Eff S A) (f : A -> Eff S B) : Eff S B :=
  match m with
  | Ret a => f a
  | Upd g k => Upd g (bind k f)
  | Await c r k => Await c r (fun o => bind (k o) f)
  | Spawn p k => Spawn p (bind k f)
  | Sleep ms k => Sleep ms (bind k f)
  | Alert msg k => Alert msg (bind k f)
  | Now k => Now (fun t => bind (k t) f)
  end.

Declare Scope eff_scope.
Delimit Scope eff_scope with eff.
Notation "x <- m ;; k" := (bind m (fun x => k))
  (at level 100, m at next level, right associativity) : eff_scope.
Notation "m ;; k" := (bind m (fun _ => k))
  (at level 100, right associativity) : eff_scope.

(** [setX(v)] for a state field: a functional update of the state. *)
Definition set {S} (f : S -> S) : Eff S unit := Upd f (Ret tt).
(** [await api.xxx(...)] *)
Definition await {S R} (r : Request R) : Eff S (Outcome R) := Await ApiClient r Ret.
(** [fetchData()] without [await] *)
Definition spawn {S} (p : Eff S unit) : Eff S unit := Spawn p (Ret tt).
Definition alert {S} (msg : string) : Eff S unit := Alert msg (Ret tt).
Definition now {S} : Eff S Z := Now Ret.
(** [await checkBackendHealth()] (api.ts 55-71): one GET /health through
    the instance without interceptors; the function catches every
    rejection, so the promise never rejects. *)
Definition checkBackendHealth {S} : Eff S bool := Await HealthClient GetHealth (fun o => Ret (health_of o)).

(** A state property that every state update of a program keeps, on
    every path of the program (every outcome of every request, every
    time read). *)
Fixpoint upds_ok {S A : Type} (P : S -> Prop) (m : Eff S A) : Prop :=
  match m with
  | Ret _ => True
  | Upd f k => (forall s, P s -> P (f s)) /\ upds_ok P k
  | Await _ _ k => forall o, upds_ok P (k o)
  | Spawn p k => upds_ok P p /\ upds_ok P k
  | Sleep _ k => upds_ok P k
  | Alert _ k => upds_ok P k
  | Now k => forall t, upds_ok P (k t)
  end.

(** The same on the paths where every request is answered with data
    satisfying [Q]. *)
Fixpoint upds_ok_on {S A : Type} (Q : ReplyProp) (P : S -> Prop) (m : Eff S A) : Prop :=
  match m with
  | Ret _ => True
  | Upd f k => (forall s, P s -> P (f s)) /\ upds_ok_on Q P k
  | Await _ r k => forall o, outcome_ok Q r o -> upds_ok_on Q P (k o)
  | Spawn p k => upds_ok_on Q P p /\ upds_ok_on Q P k
  | Sleep _ k => upds_ok_on Q P k
  | Alert _ k => upds_ok_on Q P k
  | Now k => forall t, upds_ok_on Q P (k t)
  end.

Lemma upds_ok_on_bind {S A B} Q (P : S -> Prop) (m : Eff S A) (f : A -> Eff S B) :
  upds_ok_on Q P m -> (forall a, upds_ok_on Q P (f a)) -> upds_ok_on Q P (bind m f).
Proof.
  induction m as [B' a|B' g k IH|B' R c r k IH|B' p IHp k IH|B' ms k IH|B' msg k IH|B' k IH];
    simpl; intros Hm Hf; try done; try (destruct Hm; split; auto); auto.
Qed.

(** Prove [upds_ok_on Q P m] for a handler [m]: split on its requests'
    outcomes and its conditions; a setter either leaves the property's
    fields alone, or sets them to the data of a reply that [Q]
    allowed, or to the empty list (for a property that is a conjunction,
    each side so). *)
Ltac upds_on_solve :=
  repeat match goal with
  | |- _ /\ _ => split
  | |- True => exact I
  | |- forall o : Outcome _, _ =>
      let st := fresh "st" in let d := fresh "d" in intros [st d|?] ?; simpl in *
  | |- forall t : Z, _ => intros ?
  | |- forall s : ?S, ?P s -> ?P _ =>
      let Hs := fresh "Hs" in intros ? Hs;
      first [exact Hs | eassumption | solve [constructor] |
             destruct Hs; split; first [eassumption | solve [constructor]]]
  | |- upds_ok_on _ _ (if ?b then _ else _) => destruct b
  | |- upds_ok_on _ _ (match ?x with _ => _ end) => destruct x
  | |- _ => progress simpl
  end.

(** ** Sequential execution *)

(** The world a program runs in: the component's state, the backend's
    state, the clock, the alerts shown so far and the number of requests
    sent. *)
Record World (Srv S : Type) := mkWorld {
  w_state : S;
  w_srv : Srv;
  w_clock : Z;
  w_alerts : list string;
  w_sent : nat }.
Arguments mkWorld {Srv S}.
Arguments w_state {Srv S}.
Arguments w_srv {Srv S}.
Arguments w_clock {Srv S}.
Arguments w_alerts {Srv S}.
Arguments w_sent {Srv S}.

Section Run.
Context `{Backend}.

(** An awaited request: through [api] (with its interceptor; a re-send
      comes 1000 ms later) or through the health-check instance (one
      request, plain axios). *)
Definition exchange {S R : Type} (c : Client) (r : Request R) (w : World srv_state S)
    : Outcome R * World srv_state S :=
    match c with
    | ApiClient =>
        let '(o, s', n) := api_exchange (w_clock w) r (w_srv w) in
        (o, mkWorld (w_state w) s' (w_clock w + 1000 * (Z.of_nat n - 1))%Z (w_alerts w) (w_sent w + n))
    | HealthClient =>
        let '(reply, s') := serve (w_clock w) r (w_srv w) in
        (settle reply, mkWorld (w_state w) s' (w_clock w) (w_alerts w) (Nat.succ (w_sent w)))
    end.

  (** A spawned call runs to its end before the caller continues; in the
      components a spawned call is always the last statement of its
      caller, so this is the order of their state updates. *)
Fixpoint run {S A : Type} (m : Eff S A) (w : World srv_state S) : A * World srv_state S :=
    match m with
    | Ret a => (a, w)
    | Upd f k => run k (mkWorld (f (w_state w)) (w_srv w) (w_clock w) (w_alerts w) (w_sent w))
    | Await c r k => let '(o, w1) := exchange c r w in run (k o) w1
    | Spawn p k => let '(_, w1) := run p w in run k w1
    | Sleep ms k => run k (mkWorld (w_state w) (w_srv w) (w_clock w + ms)%Z (w_alerts w) (w_sent w))
    | Alert msg k => run k (mkWorld (w_state w) (w_srv w) (w_clock w) (w_alerts w ++ [msg]) (w_sent w))
    | Now k => run (k (w_clock w)) w
    end.

Lemma run_bind {S A B : Type} (m : Eff S A) (f : A -> Eff S B) w :
    run (bind m f) w = let '(a, w1) := run m w in run (f a) w1.
  Proof.
    revert w. induction m; intros w; simpl; try done;
      first [destruct (exchange _ _ w) | destruct (run _ w)]; auto.
  Qed.
(** A setter call. *)
Lemma run_set {S A} (f : S -> S) (k : Eff S A) w :
    run (bind (set f) (fun _ => k)) w =
    run k (mkWorld (f (w_state w)) (w_srv w) (w_clock w) (w_alerts w) (w_sent w)).
  Proof. reflexivity. Qed.

  (** A request through [api] whose first reply is a success: one
      request, no delay, the state unchanged. *)
Lemma exchange_fulfilled {S R} (r : Request R) (w : World srv_state S) st d s' :
    serve (w_clock w) r (w_srv w) = (Response st d, s') -> validateStatus st = true ->
    exchange ApiClient r w =
      (Fulfilled st d, mkWorld (w_state w) s' (w_clock w) (w_alerts w) (Nat.succ (w_sent w))).
  Proof.
    intros Hs Hv. unfold exchange, api_exchange, api_call. rewrite api_request_step, Hs.
    simpl. rewrite Hv. simpl. rewrite Z.sub_diag, Z.mul_0_r, Z.add_0_r, Nat.add_1_r. reflexivity.
  Qed.
Lemma exchange_state {S R} c (r : Request R) (w : World srv_state S) :
    w_state (snd (exchange c r w)) = w_state w.
  Proof.
    destruct c; unfold exchange; [destruct (api_exchange _ _ _) as [[? ?] ?] | destruct (serve _ _ _)]; done.
  Qed.

Lemma exchange_api_outcome {S R} (r : Request R) (w : World srv_state S) :
    (exchange ApiClient r w).1 = (api_exchange (w_clock w) r (w_srv w)).1.1.
  Proof. unfold exchange. by destruct (api_exchange _ _ _) as [[? ?] ?]. Qed.
Lemma exchange_alerts {S R} c (r : Request R) (w : World srv_state S) :
    w_alerts (snd (exchange c r w)) = w_alerts w.
  Proof.
    destruct c; unfold exchange; [destruct (api_exchange _ _ _) as [[? ?] ?] | destruct (serve _ _ _)]; done.
  Qed.

  (** An awaited request that is rejected, when the handler stops there:
      nothing of the state changes, and nothing is shown. *)
Lemma await_rejected_silent {S R} c (r : Request R) (k : Outcome R -> Eff S unit) w e :
    (exchange c r w).1 = Rejected e -> k (Rejected e) = Ret tt ->
    w_state (snd (run (Await c r k) w)) = w_state w /\ w_alerts (snd (run (Await c r k) w)) = w_alerts w.
  Proof.
    intros He Hk. pose proof (exchange_state c r w) as Hs. pose proof (exchange_alerts c r w) as Ha.
    simpl. destruct (exchange c r w) as [o w1]. simpl in He, Hs, Ha. subst o. by rewrite Hk.
  Qed.

  (** An invariant of every state update is an invariant of the run. *)
Lemma run_preserves {S A} (P : S -> Prop) (m : Eff S A) w :
    upds_ok P m -> P (w_state w) -> P (w_state (snd (run m w))).
  Proof.
    revert w. induction m as [B a|B f k IH|B R c r k IH|B p IHp k IH|B ms k IH|B msg k IH|B k IH]; intros w Hm Hw; simpl in *.
    - done.
    - apply IH; [apply Hm|]. simpl. by apply Hm.
    - destruct (exchange c r w) as [o w1] eqn:Ex. apply IH; [apply Hm|].
      pose proof (exchange_state c r w) as Hs. rewrite Ex in Hs. simpl in Hs. by rewrite Hs.
    - destruct (run p w) as [u w1] eqn:Ep. apply IH; [apply Hm|].
      pose proof (IHp w (proj1 Hm) Hw) as Hp. by rewrite Ep in Hp.
    - by apply IH.
    - by apply IH.
    - by apply IH.
  Qed.
(** An exchange answers with the data of a response of the backend. *)
Lemma exchange_ok Q {S R} c (r : Request R) (w : World srv_state S) :
    serves_ok Q -> outcome_ok Q r (exchange c r w).1.
  Proof.
    intros HQ. destruct c; unfold exchange.
    - pose proof (api_exchange_ok Q (w_clock w) r (w_srv w) HQ) as Hok.
      destruct (api_exchange _ _ _) as [[o s'] n]. exact Hok.
    - destruct (serve (w_clock w) r (w_srv w)) as [reply s'] eqn:Hs. apply settle_ok.
      intros st d ->. exact (HQ _ _ _ _ _ _ _ Hs).
  Qed.

  (** Against a backend whose responses satisfy [Q], an invariant of the
      state updates on the paths [Q] allows is an invariant of the run. *)
Lemma run_preserves_on Q {S A} (P : S -> Prop) (m : Eff S A) w :
    serves_ok Q -> upds_ok_on Q P m -> P (w_state w) -> P (w_state (snd (run m w))).
  Proof.
    intros HQ. revert w.
    induction m as [B a|B f k IH|B R c r k IH|B p IHp k IH|B ms k IH|B msg k IH|B k IH];
      intros w Hm Hw; simpl in *.
    - done.
    - apply IH; [apply Hm|]. simpl. by apply Hm.
    - pose proof (exchange_ok Q c r w HQ) as Hok. pose proof (exchange_state c r w) as Hs.
      destruct (exchange c r w) as [o w1]. simpl in Hok, Hs.
      apply IH; [by apply Hm|]. by rewrite Hs.
    - destruct (run p w) as [u w1] eqn:Ep. apply IH; [apply Hm|].
      pose proof (IHp w (proj1 Hm) Hw) as Hp. by rewrite Ep in Hp.
    - by apply IH.
    - by apply IH.
    - by apply IH.
  Qed.
End Run.

(** ** The worlds of a mounted page

    A component mounted at time [now] with the state [init now]; its
    mount effect; any of its event handlers (events [E]), run to the end
    for the state shown; and the world going on meanwhile (other clients
    change the backend's state, time passes). *)
Section Page.
Context `{Backend} {S E : Type} (init : Z -> S) (mount : Eff S unit) (handler : E -> S -> Eff S unit).

Inductive page_reach : World srv_state S -> Prop :=
  | page_init now st a n : page_reach (mkWorld (init now) st now a n)
  | page_mount w : page_reach w -> page_reach (snd (run mount w))
  | page_event e w : page_reach w -> page_reach (snd (run (handler e (w_state w)) w))
  | page_env w st t : page_reach w -> (w_clock w <= t)%Z ->
      page_reach (mkWorld (w_state w) st t (w_alerts w) (w_sent w)).

(** User events one after the other, each handler run to its end for the
    state shown when it fires. *)
Fixpoint run_events (es : list E) (w : World srv_state S) : World srv_state S :=
  match es with
  | [] => w
  | e :: es => run_events es (snd (run (handler e (w_state w)) w))
  end.

Lemma run_events_app es1 es2 w : run_events (es1 ++ es2) w = run_events es2 (run_events es1 w).
Proof. revert w. induction es1 as [|e es1 IH]; intros w; simpl; [done|apply IH]. Qed.

Lemma page_reach_events es w : page_reach w -> page_reach (run_events es w).
Proof. revert w. induction es as [|e es IH]; intros w Hw; simpl; [done|]. apply IH. by constructor. Qed.

(** A state property of the initial state that the mount effect and
    every handler keep, on the paths the backend's replies allow, holds
    in every world of the page. *)
Lemma page_reach_preserves Q (P : S -> Prop) :
  serves_ok Q -> (forall now, P (init now)) -> upds_ok_on Q P mount ->
  (forall e s, upds_ok_on Q P (handler e s)) ->
  forall w, page_reach w -> P (w_state w).
Proof.
  intros HQ Hi Hm He w Hr.
  induction Hr as [now st a n|w Hr IH|e w Hr IH|w st t Hr IH Ht]; [apply Hi| | |exact IH];
    (apply (run_preserves_on Q P); [exact HQ| |exact IH]); [exact Hm|apply He].
Qed.

End Page.
