(* ===== verification/Conc.v ===== *)
(** * Conc: the handlers of a component interleaved.

    In the browser, an [async] handler runs until its next [await]; while
    its request is in flight, other handlers run: a later user event, or
    a call the handler spawned.  A [Pool] holds the component's world
    and its threads: a thread is a program still to run ([TRun]) or a
    program waiting for the outcome of a request it sent ([TWait]).  The
    backend answers a request when it is sent; the outcome reaches the
    thread at a later step, in any order with the other threads' steps.
    An [event] is a step of a thread or a user action, which starts the
    handler of the state the page shows.  [run] of [Runtime] is one of
    these schedules ([run_schedule]). *)

From S2P Require Import Prelude Js Model Http Runtime.

Inductive Thread (S : Type) : Type :=
  | TRun (m : Eff S unit)
  | TWait {R : Type} (o : Outcome R) (k : Outcome R -> Eff S unit).
Arguments TRun {S}.
Arguments TWait {S R}.

Record Pool (Srv S : Type) := mkPool {
  p_world : World Srv S;
  p_threads : list (Thread S) }.
Arguments mkPool {Srv S}.
Arguments p_world {Srv S}.
Arguments p_threads {Srv S}.

Inductive event (S : Type) :=
  | Step (i : nat)
  | Fire (h : S -> Eff S unit).
Arguments Step {S}.
Arguments Fire {S}.

Section Conc.
Context `{Backend}.

(** The world after one effect of a thread that does not wait. *)
Definition with_state {S} (f : S -> S) (w : World srv_state S) : World srv_state S :=
  mkWorld (f (w_state w)) (w_srv w) (w_clock w) (w_alerts w) (w_sent w).

(** One step of thread [i]. *)
Definition tstep {S} (i : nat) (p : Pool srv_state S) : option (Pool srv_state S) :=
  let w := p_world p in
  let ts := p_threads p in
  match ts !! i with
  | None => None
  | Some (TWait o k) => Some (mkPool w (<[i := TRun (k o)]> ts))
  | Some (TRun m) =>
      match m with
      | Ret _ => Some (mkPool w (delete i ts))
      | Upd f k => Some (mkPool (with_state f w) (<[i := TRun k]> ts))
      | Await c r k => let '(o, w1) := exchange c r w in Some (mkPool w1 (<[i := TWait o k]> ts))
      | Spawn q k => Some (mkPool w (<[i := TRun k]> ts ++ [TRun q]))
      | Sleep ms k =>
          Some (mkPool (mkWorld (w_state w) (w_srv w) (w_clock w + ms)%Z (w_alerts w) (w_sent w))
                       (<[i := TRun k]> ts))
      | Alert msg k =>
          Some (mkPool (mkWorld (w_state w) (w_srv w) (w_clock w) (w_alerts w ++ [msg]) (w_sent w))
                       (<[i := TRun k]> ts))
      | Now k => Some (mkPool w (<[i := TRun (k (w_clock w))]> ts))
      end
  end.

(** A user action starts the handler of the state shown now. *)
Definition estep {S} (e : event S) (p : Pool srv_state S) : option (Pool srv_state S) :=
  match e with
  | Step i => tstep i p
  | Fire h => Some (mkPool (p_world p) (p_threads p ++ [TRun (h (w_state (p_world p)))]))
  end.

Fixpoint esteps {S} (es : list (event S)) (p : Pool srv_state S) : option (Pool srv_state S) :=
  match es with
  | [] => Some p
  | e :: es => p' ← estep e p; esteps es p'
  end.

Lemma esteps_app {S} (es1 es2 : list (event S)) p :
  esteps (es1 ++ es2) p = p' ← esteps es1 p; esteps es2 p'.
Proof.
  revert p. induction es1 as [|e es1 IH]; intros p; simpl; [done|].
  destruct (estep e p); simpl; [apply IH|done].
Qed.

(** Thread [length ts] is the last one. *)
Lemma lookup_last {S} (ts : list (Thread S)) x : (ts ++ [x]) !! length ts = Some x.
Proof. by rewrite lookup_app_r, Nat.sub_diag by lia. Qed.

Lemma insert_last {S} (ts : list (Thread S)) x y : <[length ts := y]> (ts ++ [x]) = ts ++ [y].
Proof. by rewrite insert_app_r_alt, Nat.sub_diag by lia. Qed.

Lemma delete_last {S} (ts : list (Thread S)) x : delete (length ts) (ts ++ [x]) = ts.
Proof. by rewrite delete_middle, app_nil_r. Qed.

(** A step of the last thread. *)
Ltac tstep_last :=
  cbn [esteps estep mbind option_bind p_threads p_world]; unfold tstep;
  cbn [p_threads p_world]; rewrite lookup_last.

(** The sequential [run] of a program is a schedule of the interleaved
    semantics; the result type of the program is kept general for the
    induction. *)
Lemma run_schedule_gen {S A} (m : Eff S A) (e : A = unit) (w : World srv_state S)
    (ts : list (Thread S)) :
  exists es, esteps es (mkPool w (ts ++ [TRun (eq_rect A (Eff S) m unit e)]))
             = Some (mkPool (snd (run m w)) ts).
Proof.
  revert w ts. induction m as [B a|B f k IH|B R c r k IH|B q IHq k IH|B ms k IH|B msg k IH|B k IH];
    intros w ts; subst; cbn [eq_rect run].
  - exists [Step (length ts)]. tstep_last. by rewrite delete_last.
  - destruct (IH eq_refl (with_state f w) ts) as [es Hes].
    exists (Step (length ts) :: es). tstep_last. rewrite insert_last. exact Hes.
  - destruct (exchange c r w) as [o w1] eqn:Ex. destruct (IH o eq_refl w1 ts) as [es Hes].
    exists (Step (length ts) :: Step (length ts) :: es). tstep_last. rewrite Ex, insert_last.
    tstep_last. rewrite insert_last. exact Hes.
  - destruct (IHq eq_refl w (ts ++ [TRun k])) as [es1 H1].
    destruct (run q w) as [u w1]. destruct (IH eq_refl w1 ts) as [es2 H2].
    exists (Step (length ts) :: es1 ++ es2). tstep_last. rewrite insert_last.
    cbn [mbind option_bind]. rewrite esteps_app. cbn [eq_rect] in H1. rewrite H1. exact H2.
  - destruct (IH eq_refl (mkWorld (w_state w) (w_srv w) (w_clock w + ms)%Z (w_alerts w) (w_sent w)) ts)
      as [es Hes].
    exists (Step (length ts) :: es). tstep_last. rewrite insert_last. exact Hes.
  - destruct (IH eq_refl (mkWorld (w_state w) (w_srv w) (w_clock w) (w_alerts w ++ [msg]) (w_sent w)) ts)
      as [es Hes].
    exists (Step (length ts) :: es). tstep_last. rewrite insert_last. exact Hes.
  - destruct (IH (w_clock w) eq_refl w ts) as [es Hes].
    exists (Step (length ts) :: es). tstep_last. rewrite insert_last. exact Hes.
Qed.

(** The sequential [run] of a handler is one schedule of the
    interleaved semantics: stepping the handler's thread, and a spawned
    call before its caller, takes the handler from the top of any pool
    of threads to the world [run] computes, and leaves the other
    threads as they were. *)
Theorem run_schedule {S} (m : Eff S unit) (w : World srv_state S) (ts : list (Thread S)) :
  exists es, esteps es (mkPool w (ts ++ [TRun m])) = Some (mkPool (snd (run m w)) ts).
Proof. exact (run_schedule_gen m eq_refl w ts). Qed.

(** ** Invariants of every interleaving

    As [run_preserves_on] for one handler: a pool keeps [P] when its
    state has it, every running thread's remaining updates keep it on the
    paths [Q] allows, and every waiting thread's continuation, applied to
    the outcome it received, does too. *)
Definition thread_ok (Q : ReplyProp) {S} (P : S -> Prop) (t : Thread S) : Prop :=
  match t with
  | TRun m => upds_ok_on Q P m
  | TWait o k => upds_ok_on Q P (k o)
  end.

Definition pool_ok (Q : ReplyProp) {S} (P : S -> Prop) (p : Pool srv_state S) : Prop :=
  P (w_state (p_world p)) /\ Forall (thread_ok Q P) (p_threads p).

(** The handlers a user action may start. *)
Definition event_ok (Q : ReplyProp) {S} (P : S -> Prop) (e : event S) : Prop :=
  match e with
  | Step _ => True
  | Fire h => forall s, upds_ok_on Q P (h s)
  end.

Section Preserve.
Context (Q : ReplyProp) (HQ : serves_ok Q) {S : Type} (P : S -> Prop).

Lemma tstep_preserves i p p' : pool_ok Q P p -> tstep i p = Some p' -> pool_ok Q P p'.
Proof.
  intros [Hs Ht]. unfold tstep, pool_ok.
  destruct (p_threads p !! i) as [t|] eqn:Hi; [|done].
  pose proof (proj1 (Forall_lookup _ _) Ht i t Hi) as Hok.
  destruct t as [m|R o k]; simpl in Hok.
  - destruct m as [a|f k|R c r k|q k|ms k|msg k|k]; simpl in Hok |- *; intros Hp; try injection Hp as <-.
    + split; [done|]. by apply Forall_delete.
    + split; [by apply Hok|]. apply Forall_insert; [done|apply Hok].
    + pose proof (exchange_ok Q c r (p_world p) HQ) as Ho. pose proof (exchange_state c r (p_world p)) as Hw.
      destruct (exchange c r (p_world p)) as [o w1]. injection Hp as <-. simpl in Ho, Hw |- *.
      split; [by rewrite Hw|]. apply Forall_insert; [done|]. by apply Hok.
    + split; [done|]. apply Forall_app; split; [apply Forall_insert; [done|apply Hok]|].
      constructor; [apply Hok|constructor].
    + split; [done|]. apply Forall_insert; [done|apply Hok].
    + split; [done|]. apply Forall_insert; [done|apply Hok].
    + split; [done|]. apply Forall_insert; [done|apply Hok].
  - intros [= <-]. split; [done|]. simpl. by apply Forall_insert.
Qed.

(** Every schedule of thread steps and of the handlers the user may
    start keeps the invariant. *)
Lemma esteps_preserves es p p' :
  Forall (event_ok Q P) es -> pool_ok Q P p -> esteps es p = Some p' -> pool_ok Q P p'.
Proof.
  revert p. induction es as [|e es IH]; intros p Hes Hp; simpl; [by intros [= <-]|].
  apply Forall_cons in Hes as [He Hes].
  destruct (estep e p) as [p1|] eqn:E; simpl; [|done]. apply IH; [done|].
  destruct e as [i|h]; simpl in E.
  - by apply (tstep_preserves i p).
  - injection E as <-. destruct Hp as [Hs Ht]. split; [done|]. simpl.
    apply Forall_app; split; [done|]. constructor; [apply He|constructor].
Qed.

End Preserve.

End Conc.
