(* ===== verification/Service.v ===== *)
(** * Service: the backend the client talks to, modelled from spec.md.

    The Spring Boot backend is not part of this repository; spec.md
    (sections 3, 4.1, 6 and 7) describes it, and this file models that
    description.  Module [Lifecycle] is the spec's Borrowing Lifecycle
    Evaluator over stored entities ([attemptBorrow], [attemptReturn],
    [classify], [daysOverdue]); [Store] and [serve_store] are the REST
    endpoints of section 6 over a store of books, members and loans; the
    instance [service] makes the store a [Backend] for the client.
    Choices the spec leaves open are fixed here and listed in the header
    of the root file. *)

From S2P Require Import Prelude Js Model IsoDate Http.
From Stdlib Require Import Ascii.

(** ** Configuration and errors *)

Record Config := mkConfig { loanPeriodDays : Z; borrowLimit : nat }.

(** The defaults spec.md section 9 suggests: a 14-day loan, 5 open loans. *)
Definition default_config : Config := mkConfig 14 5.

Inductive LibError :=
  | MemberNotEligible | BookUnavailable | BorrowLimitExceeded
  | AlreadyReturned | NotFound | ValidationError.

#[export] Instance LibError_eq_dec : EqDecision LibError.
Proof. solve_decision. Defined.

(** ** Stored entities; dates are day numbers (days since 1970-01-01). *)

Record BookRec := mkBookRec {
  b_title : string; b_author : string; b_genre : string; b_isbn : string;
  b_year : Z; b_available : Z; b_total : Z }.

Record MemberRec := mkMemberRec {
  m_name : string; m_email : string; m_phone : string; m_address : string;
  m_status : MembershipStatus; m_registered : Z }.

(** A transaction as stored: its status is [BORROWED] or [RETURNED];
    [OVERDUE] is derived on read ([classify]). *)
Record Loan := mkLoan {
  l_book : Z; l_member : Z; l_borrow : Z; l_due : Z;
  l_return : option Z; l_status : TxStatus }.

Definition with_available (b : BookRec) (a : Z) : BookRec :=
  mkBookRec (b_title b) (b_author b) (b_genre b) (b_isbn b) (b_year b) a (b_total b).

(** The day of a time value, in UTC. *)
Definition day_of (now : Z) : Z := (now / ms_per_day)%Z.

Module Lifecycle.
Section Evaluator.
Context (cfg : Config).

Definition is_open (t : Loan) : bool := bool_decide (l_status t = BORROWED).

    (** The open loans of a member. *)
Definition open_loans (mid : Z) (txs : list Loan) : nat :=
      count_if (fun t => bool_decide (l_member t = mid) && is_open t) txs.

    (** [attemptBorrow(book, member, transactions, now)]: the member must
        be active, a copy available and the member under the limit; the
        result is the new loan and the book with one copy fewer. *)
Definition attemptBorrow (bid : Z) (b : BookRec) (mid : Z) (m : MemberRec)
        (txs : list Loan) (today : Z) : LibError + (Loan * BookRec) :=
      if negb (bool_decide (m_status m = ACTIVE)) then inl MemberNotEligible
      else if negb (0 <? b_available b)%Z then inl BookUnavailable
      else if (borrowLimit cfg <=? open_loans mid txs)%nat then inl BorrowLimitExceeded
      else inr (mkLoan bid mid today (today + loanPeriodDays cfg)%Z None BORROWED,
                with_available b (b_available b - 1)%Z).

    (** [attemptReturn(transaction, now)]: only an open loan returns. *)
Definition attemptReturn (t : Loan) (today : Z) : LibError + Loan :=
      if is_open t
      then inr (mkLoan (l_book t) (l_member t) (l_borrow t) (l_due t) (Some today) RETURNED)
      else inl AlreadyReturned.

    (** [classify(transaction, now)], [now] in milliseconds; the due date
        is the start of the due day. *)
Definition classify (t : Loan) (now : Z) : TxStatus :=
      match l_return t with
      | Some _ => RETURNED
      | None =>
          if is_open t && (l_due t * ms_per_day <? now)%Z then OVERDUE else BORROWED
      end.

    (** [daysOverdue(transaction, now)] = max(0, ceil((now - dueDate) / 1 day))
        for a transaction [classify] finds [Overdue]; 0 otherwise. *)
Definition daysOverdue (t : Loan) (now : Z) : Z :=
      if bool_decide (classify t now = OVERDUE)
      then Z.max 0 (ceil_div (now - l_due t * ms_per_day) ms_per_day)
      else 0%Z.
End Evaluator.
End Lifecycle.

(** ** The store and the REST endpoints *)

Record Store := mkStore {
  books : gmap Z BookRec;
  members : gmap Z MemberRec;
  loans : gmap Z Loan;
  next_book : Z; next_member : Z; next_loan : Z }.

Definition loan_list (st : Store) : list Loan := snd <$> map_to_list (loans st).

(** The loans of a book that are still open. *)
Definition open_for_book (bid : Z) (st : Store) : nat :=
  map_count (fun t => bool_decide (l_book t = bid) && Lifecycle.is_open t) (loans st).

(** [Long.parseLong] of a request parameter: an optional sign, then only
    decimal digits, within the range of a signed 64-bit integer. *)
Definition parse_long (s : string) : option Z :=
  let '(sign, body) :=
    match s with
    | String c r =>
        if Ascii.eqb c "-"%char then ((-1)%Z, r)
        else if Ascii.eqb c "+"%char then (1%Z, r) else (1%Z, s)
    | EmptyString => (1%Z, s)
    end in
  let ds := digit_prefix 10 body in
  if (length ds =? String.length body)%nat && (0 <? length ds)%nat then
    let v := (sign * digits_value 10 ds)%Z in
    if (- 2 ^ 63 <=? v)%Z && (v <? 2 ^ 63)%Z then Some v else None
  else None.

(** A book as the client sends it: copies must be numbers with
    [0 < totalCopies] and [0 <= availableCopies <= totalCopies]. *)
Definition book_of_json (bj : BookType) : option BookRec :=
  match yearPublished bj, availableCopies bj, totalCopies bj with
  | Int y, Int a, Int t =>
      if (0 <? t)%Z && (0 <=? a)%Z && (a <=? t)%Z
      then Some (mkBookRec (title bj) (author bj) (genre bj) (isbn bj) y a t)
      else None
  | _, _, _ => None
  end.

Definition member_of_json (mj : Member) (registered : Z) : MemberRec :=
  mkMemberRec (name mj) (email mj) (phone mj) (address mj) (membershipStatus mj) registered.

Definition book_json (id : Z) (b : BookRec) : BookType :=
  mkBook (Some id) (b_title b) (b_author b) (b_genre b) (b_isbn b)
    (Int (b_year b)) (Int (b_available b)) (Int (b_total b)).

(** Search as spec.md section 4.1 describes it: a case-insensitive
    substring match. *)
Definition matches (term field : string) : bool :=
  includes (toLowerCase field) (toLowerCase term).

Definition list_books (st : Store) : list BookType :=
  (fun '(id, b) => book_json id b) <$> map_to_list (books st).

Definition available_books (st : Store) : list BookType :=
  (fun '(id, b) => book_json id b) <$>
    List.filter (fun '(_, b) => (0 <? b_available b)%Z) (map_to_list (books st)).

Definition search_books (kw : string) (st : Store) : list BookType :=
  (fun '(id, b) => book_json id b) <$>
    List.filter (fun '(_, b) => matches kw (b_title b) || matches kw (b_author b) || matches kw (b_genre b))
      (map_to_list (books st)).

Definition create_book (bj : BookType) (st : Store) : LibError + Store :=
  match book_of_json bj with
  | None => inl ValidationError
  | Some b => inr (mkStore (<[next_book st := b]> (books st)) (members st) (loans st)
                     (next_book st + 1) (next_member st) (next_loan st))
  end.

Definition update_book (id : Z) (bj : BookType) (st : Store) : LibError + Store :=
  match books st !! id, book_of_json bj with
  | None, _ => inl NotFound
  | _, None => inl ValidationError
  | Some _, Some b => inr (mkStore (<[id := b]> (books st)) (members st) (loans st)
                            (next_book st) (next_member st) (next_loan st))
  end.

(** Deleting a book or a member that a transaction refers to is refused,
    as the foreign key of a transaction would refuse it. *)
Definition delete_book (id : Z) (st : Store) : LibError + Store :=
  match books st !! id with
  | None => inl NotFound
  | Some _ =>
      if existsb (fun t => bool_decide (l_book t = id)) (loan_list st) then inl ValidationError
      else inr (mkStore (delete id (books st)) (members st) (loans st)
                  (next_book st) (next_member st) (next_loan st))
  end.

Definition list_members_of (p : MemberRec -> bool) (st : Store) `{DateCodec} : list Member :=
  (fun '(id, m) => mkMember (Some id) (m_name m) (m_email m) (m_phone m) (m_address m)
                     (m_status m) (Some (format_day (m_registered m)))) <$>
    List.filter (fun '(_, m) => p m) (map_to_list (members st)).

Definition list_members (st : Store) `{DateCodec} : list Member :=
  list_members_of (fun _ => true) st.

(** GET /members/search?name=: the search of spec.md section 4.1 over a
    member's name and email. *)
Definition search_members (nm : string) (st : Store) `{DateCodec} : list Member :=
  list_members_of (fun m => matches nm (m_name m) || matches nm (m_email m)) st.

Definition create_member (mj : Member) (today : Z) (st : Store) : Store :=
  mkStore (books st) (<[next_member st := member_of_json mj today]> (members st)) (loans st)
    (next_book st) (next_member st + 1) (next_loan st).

Definition update_member (id : Z) (mj : Member) (st : Store) : LibError + Store :=
  match members st !! id with
  | None => inl NotFound
  | Some m => inr (mkStore (books st) (<[id := member_of_json mj (m_registered m)]> (members st))
                     (loans st) (next_book st) (next_member st) (next_loan st))
  end.

Definition delete_member (id : Z) (st : Store) : LibError + Store :=
  match members st !! id with
  | None => inl NotFound
  | Some _ =>
      if existsb (fun t => bool_decide (l_member t = id)) (loan_list st) then inl ValidationError
      else inr (mkStore (books st) (delete id (members st)) (loans st)
                  (next_book st) (next_member st) (next_loan st))
  end.

(** A transaction as the client receives it, its status recomputed on
    read by [classify]. *)
Definition tx_json `{DateCodec} (cfg : Config) (now : Z) (st : Store) (id : Z) (t : Loan)
    : option BorrowingTransaction :=
  b ← books st !! l_book t;
  m ← members st !! l_member t;
  Some (mkTx (Some id) (book_json (l_book t) b)
          (mkMember (Some (l_member t)) (m_name m) (m_email m) (m_phone m) (m_address m)
             (m_status m) (Some (format_day (m_registered m))))
          (format_day (l_borrow t)) (format_day (l_due t)) (format_day <$> l_return t)
          (Lifecycle.classify t now)).

Definition list_loans `{DateCodec} (cfg : Config) (now : Z) (st : Store) : list BorrowingTransaction :=
  omap (fun '(id, t) => tx_json cfg now st id t) (map_to_list (loans st)).

Definition overdue_loans `{DateCodec} (cfg : Config) (now : Z) (st : Store) : list BorrowingTransaction :=
  List.filter (fun tx => bool_decide (status tx = OVERDUE)) (list_loans cfg now st).

(** POST /borrowing/borrow?bookId=&memberId= *)
Definition borrow (cfg : Config) (bid_s mid_s : string) (now : Z) (st : Store) : LibError + Store :=
  match parse_long bid_s, parse_long mid_s with
  | Some bid, Some mid =>
      match members st !! mid, books st !! bid with
      | Some m, Some b =>
          match Lifecycle.attemptBorrow cfg bid b mid m (loan_list st) (day_of now) with
          | inl e => inl e
          | inr (t, b') => inr (mkStore (<[bid := b']> (books st)) (members st)
                                  (<[next_loan st := t]> (loans st))
                                  (next_book st) (next_member st) (next_loan st + 1))
          end
      | _, _ => inl NotFound
      end
  | _, _ => inl ValidationError
  end.

(** POST /borrowing/return/{id}: the loan is closed and its book gets the
    copy back. *)
Definition return_loan (tid : Z) (now : Z) (st : Store) : LibError + Store :=
  match loans st !! tid with
  | None => inl NotFound
  | Some t =>
      match Lifecycle.attemptReturn t (day_of now) with
      | inl e => inl e
      | inr t' => inr (mkStore
                         (alter (fun b => with_available b (b_available b + 1)%Z) (l_book t) (books st))
                         (members st) (<[tid := t']> (loans st))
                         (next_book st) (next_member st) (next_loan st))
      end
  end.

Definition err_status (e : LibError) : Z := match e with NotFound => 404 | _ => 400 end.

Definition reply_of (ok : Z) (r : LibError + Store) (st : Store) : Reply unit * Store :=
  match r with
  | inl e => (Response (err_status e) tt, st)
  | inr st' => (Response ok tt, st')
  end.

Definition serve_store `{DateCodec} (cfg : Config) {R} (now : Z) (r : Request R) (st : Store)
    : Reply R * Store :=
  match r in Request R return Reply R * Store with
  | GetBooks => (Response 200 (list_books st), st)
  | GetAvailableBooks => (Response 200 (available_books st), st)
  | SearchBooks kw => (Response 200 (search_books kw st), st)
  | PostBook bj => reply_of 201 (create_book bj st) st
  | PutBook id bj => reply_of 200 (update_book id bj st) st
  | DeleteBook id => reply_of 204 (delete_book id st) st
  | GetMembers => (Response 200 (list_members st), st)
  | GetActiveMembers => (Response 200 (list_members_of (fun m => bool_decide (m_status m = ACTIVE)) st), st)
  | SearchMembers nm => (Response 200 (search_members nm st), st)
  | PostMember mj => (Response 201 tt, create_member mj (day_of now) st)
  | PutMember id mj => reply_of 200 (update_member id mj st) st
  | DeleteMember id => reply_of 204 (delete_member id st) st
  | GetBorrowing => (Response 200 (list_loans cfg now st), st)
  | GetOverdue => (Response 200 (overdue_loans cfg now st), st)
  | PostBorrow b m => reply_of 200 (borrow cfg b m now st) st
  | PostReturn id => reply_of 200 (return_loan id now st) st
  | GetHealth => (Response 200 tt, st)
  end.

(** The service as a [Backend] for the client. *)
Definition service `{DateCodec} (cfg : Config) : Backend :=
  {| srv_state := Store; serve := @serve_store _ cfg |}.

(** ** The store invariant

    Every loan refers to a stored book and member; for every book,
    [0 <= availableCopies] and the available copies plus the open loans of
    the book are at most [totalCopies] (so [availableCopies <= totalCopies],
    spec.md section 3); no member is over the loan limit; the next ids are
    fresh. *)

Definition book_ok (st : Store) (bid : Z) (b : BookRec) : Prop :=
  (0 <= b_available b)%Z /\ (b_available b + Z.of_nat (open_for_book bid st) <= b_total b)%Z.

Record store_wf (cfg : Config) (st : Store) : Prop := {
  wf_refs : forall id t, loans st !! id = Some t ->
    is_Some (books st !! l_book t) /\ is_Some (members st !! l_member t);
  wf_books : forall bid b, books st !! bid = Some b -> book_ok st bid b;
  wf_limit : forall mid, (Lifecycle.open_loans mid (loan_list st) <= borrowLimit cfg)%nat;
  wf_fresh_loan : forall id, (next_loan st <= id)%Z -> loans st !! id = None;
  wf_fresh_book : forall id, (next_book st <= id)%Z -> books st !! id = None;
  wf_fresh_member : forall id, (next_member st <= id)%Z -> members st !! id = None }.

Definition empty_store : Store := mkStore ∅ ∅ ∅ 1 1 1.

(** The requests that change a book record: PUT /books/{id}. *)
Definition is_put_book {R} (r : Request R) : bool :=
  match r with PutBook _ _ => true | _ => false end.

(** The stores the service reaches from the empty store by requests other
    than PUT /books/{id}. *)
Inductive reachable `{DateCodec} (cfg : Config) : Store -> Prop :=
  | reach_init : reachable cfg empty_store
  | reach_step {R} now (r : Request R) st :
      reachable cfg st -> is_put_book r = false ->
      reachable cfg (snd (serve_store cfg now r st)).

(** ** Lemmas on the request parameters *)

(** [Long.parseLong] reads back the decimal form [toString] prints, for
    every value of the range of a [long]. *)
Lemma parse_long_toString n : (- 2 ^ 63 <= n < 2 ^ 63)%Z -> parse_long (toString n) = Some n.
Proof.
  intros Hn. unfold toString, parse_long. destruct (Z.ltb_spec n 0) as [Hneg|Hpos].
  - destruct (dec_string_prefix (- n) ltac:(lia)) as (c & r & Hs & Hm & Hp & Hl & Hl0 & Hv).
    cbn -[dec_string digit_prefix digits_value Z.pow]. rewrite Hl in *. rewrite Nat.eqb_refl, Hv.
    destruct (String.length (dec_string (- n))) as [|k]; [lia|]. cbn [andb].
    replace (-1 * - n)%Z with n by lia. zcase; simpl; first [done | lia].
  - destruct (dec_string_prefix n Hpos) as (c & r & Hs & Hm & Hp & Hl & Hl0 & Hv).
    rewrite Hs. cbn -[digit_prefix digits_value Z.pow String.length]. rewrite Hm, Hp. rewrite <- Hs.
    rewrite Hl in *. rewrite Nat.eqb_refl, Hv.
    destruct (String.length (dec_string n)) as [|k]; [lia|]. cbn [andb].
    rewrite Z.mul_1_l. zcase; simpl; first [done | lia].
Qed.

(** ** Lemmas on the lifecycle evaluator *)

Module LifecycleFacts.
Import Lifecycle.

Section Facts.
Context (cfg : Config).

(** [attemptBorrow] on every branch: the checks in the order of the spec,
    and on success the new open loan and one copy fewer. *)
Lemma attemptBorrow_cases bid b mid m txs today :
  attemptBorrow cfg bid b mid m txs today =
    if bool_decide (m_status m <> ACTIVE) then inl MemberNotEligible
    else if bool_decide (b_available b <= 0)%Z then inl BookUnavailable
    else if bool_decide (borrowLimit cfg <= open_loans mid txs)%nat then inl BorrowLimitExceeded
    else inr (mkLoan bid mid today (today + loanPeriodDays cfg)%Z None BORROWED,
              with_available b (b_available b - 1)%Z).
Proof.
  unfold attemptBorrow.
  destruct (decide (m_status m = ACTIVE)) as [Hm|Hm].
  - rewrite (bool_decide_true (m_status m = ACTIVE)), (bool_decide_false (m_status m <> ACTIVE)) by naive_solver.
    simpl. destruct (Z.ltb_spec 0 (b_available b)), (Nat.leb_spec (borrowLimit cfg) (open_loans mid txs));
      simpl; repeat case_bool_decide; try lia; done.
  - by rewrite (bool_decide_false (m_status m = ACTIVE)), (bool_decide_true (m_status m <> ACTIVE)).
Qed.

(** A successful borrow never drives the copy count below zero. *)
Lemma attemptBorrow_available bid b mid m txs today t b' :
  attemptBorrow cfg bid b mid m txs today = inr (t, b') ->
  b_available b' = (b_available b - 1)%Z /\ (0 <= b_available b')%Z.
Proof.
  rewrite attemptBorrow_cases. repeat case_bool_decide; try done.
  intros [= <- <-]. simpl. lia.
Qed.

(** [classify] of an open loan due on day [D]: [OVERDUE] exactly after
    the start of day [D], [BORROWED] up to it. *)
Lemma classify_open t now :
  l_return t = None -> l_status t = BORROWED ->
  classify t now = if (l_due t * ms_per_day <? now)%Z then OVERDUE else BORROWED.
Proof.
  intros Hr Hs. unfold classify, is_open. rewrite Hr, Hs, bool_decide_true by done. done.
Qed.

(** [classify] stays [OVERDUE] as time passes. *)
Lemma classify_overdue_mono t now1 now2 :
  (now1 <= now2)%Z -> classify t now1 = OVERDUE -> classify t now2 = OVERDUE.
Proof.
  intros H. unfold classify. destruct (l_return t); [done|].
  destruct (is_open t); simpl; [|done]. zcase; done || lia.
Qed.

Lemma daysOverdue_nonneg t now : (0 <= daysOverdue t now)%Z.
Proof. unfold daysOverdue. case_bool_decide; lia. Qed.

Lemma daysOverdue_mono t now1 now2 :
  (now1 <= now2)%Z -> (daysOverdue t now1 <= daysOverdue t now2)%Z.
Proof.
  intros H. destruct (decide (classify t now1 = OVERDUE)) as [H1|H1];
    [|unfold daysOverdue at 1; rewrite bool_decide_false by done; apply daysOverdue_nonneg].
  unfold daysOverdue. rewrite !bool_decide_true by eauto using classify_overdue_mono.
  pose proof (ceil_div_mono ms_per_day ltac:(done) (now1 - l_due t * ms_per_day) (now2 - l_due t * ms_per_day)).
  lia.
Qed.

(** The number of days an open loan is overdue, [k] whole days and [x]
    milliseconds after the start of the due day: [k] at the start of a
    day, [k + 1] after it. *)
Lemma daysOverdue_at t k x :
  l_return t = None -> l_status t = BORROWED ->
  (0 <= k)%Z -> (0 <= x < ms_per_day)%Z ->
  daysOverdue t ((l_due t + k) * ms_per_day + x) = if (x =? 0)%Z then k else (k + 1)%Z.
Proof.
  intros Hr Hs Hk Hx. unfold daysOverdue. rewrite classify_open by done.
  replace ((l_due t + k) * ms_per_day + x - l_due t * ms_per_day)%Z with (k * ms_per_day + x)%Z by lia.
  rewrite ceil_div_at by done. zcase; simpl; unfold ms_per_day in *; lia.
Qed.

Lemma attemptReturn_twice t today t' today' :
  attemptReturn t today = inr t' -> attemptReturn t' today' = inl AlreadyReturned.
Proof. unfold attemptReturn. destruct (is_open t); [intros [= <-]; done | done]. Qed.
End Facts.
End LifecycleFacts.

(** ** Lemmas on the store *)

Module StoreFacts.
Import Lifecycle.

Section Facts.
Context (cfg : Config).

Lemma is_open_mk a b c d e x : is_open (mkLoan a b c d e x) = bool_decide (x = BORROWED).
Proof. reflexivity. Qed.

Lemma open_loans_count mid st :
  open_loans mid (loan_list st) = map_count (fun t => bool_decide (l_member t = mid) && is_open t) (loans st).
Proof. reflexivity. Qed.

Lemma borrow_inv bs ms now st st' :
  borrow cfg bs ms now st = inr st' ->
  exists bid mid b m,
    parse_long bs = Some bid /\ parse_long ms = Some mid /\
    members st !! mid = Some m /\ books st !! bid = Some b /\
    m_status m = ACTIVE /\ (0 < b_available b)%Z /\ (open_loans mid (loan_list st) < borrowLimit cfg)%nat /\
    st' = mkStore (<[bid := with_available b (b_available b - 1)]> (books st)) (members st)
            (<[next_loan st := mkLoan bid mid (day_of now) (day_of now + loanPeriodDays cfg) None BORROWED]> (loans st))
            (next_book st) (next_member st) (next_loan st + 1).
Proof.
  unfold borrow. destruct (parse_long bs) as [bid|] eqn:Hbs, (parse_long ms) as [mid|] eqn:Hms; try done.
  destruct (members st !! mid) as [m|] eqn:Hm, (books st !! bid) as [b|] eqn:Hb; try done.
  rewrite LifecycleFacts.attemptBorrow_cases. repeat case_bool_decide; try done.
  intros [= <-]. exists bid, mid, b, m. repeat split; auto; try lia; by apply dec_stable.
Qed.

Lemma borrow_wf bs ms now st st' :
  store_wf cfg st -> borrow cfg bs ms now st = inr st' -> store_wf cfg st'.
Proof.
  intros Hwf (bid & mid & b & m & _ & _ & Hm & Hb & Hact & Hav & Hlim & ->)%borrow_inv.
  assert (Hfresh : loans st !! next_loan st = None) by (apply (wf_fresh_loan _ _ Hwf); lia).
  constructor; simpl.
  - intros id t Ht. rewrite lookup_insert in Ht. case_decide as Hid.
    + injection Ht as <-. simpl. rewrite lookup_insert, decide_True by done. split; eauto.
    + destruct (wf_refs _ _ Hwf id t Ht) as [[b1 Hb1] Hm1]. split; [|done].
      rewrite lookup_insert. case_decide; eauto.
  - intros bid' b' Hb'. unfold book_ok, open_for_book. simpl.
    rewrite map_count_insert_fresh by done. simpl.
    rewrite lookup_insert in Hb'. case_decide as Hbid.
    + subst bid'. injection Hb' as <-. simpl. rewrite is_open_mk, !bool_decide_true by done.
      destruct (wf_books _ _ Hwf bid b Hb) as [H1 H2]. unfold open_for_book in H2. simpl. lia.
    + rewrite bool_decide_false by done. simpl. apply (wf_books _ _ Hwf bid' b' Hb').
  - intros mid'. rewrite open_loans_count. simpl. rewrite map_count_insert_fresh by done. simpl.
    pose proof (wf_limit _ _ Hwf mid') as H1. rewrite open_loans_count in H1, Hlim.
    rewrite is_open_mk, (bool_decide_true (BORROWED = BORROWED)), andb_true_r by done.
    case_bool_decide; simpl; subst; lia.
  - intros id Hid. rewrite lookup_insert_ne by lia. apply (wf_fresh_loan _ _ Hwf). lia.
  - intros id Hid. rewrite lookup_insert_ne; [by apply (wf_fresh_book _ _ Hwf)|].
    intros ->. rewrite (wf_fresh_book _ _ Hwf id Hid) in Hb. done.
  - apply (wf_fresh_member _ _ Hwf).
Qed.

Lemma return_inv tid now st st' :
  return_loan tid now st = inr st' ->
  exists t, loans st !! tid = Some t /\ l_status t = BORROWED /\
    st' = mkStore (alter (fun b => with_available b (b_available b + 1)%Z) (l_book t) (books st))
            (members st) (<[tid := mkLoan (l_book t) (l_member t) (l_borrow t) (l_due t) (Some (day_of now)) RETURNED]> (loans st))
            (next_book st) (next_member st) (next_loan st).
Proof.
  unfold return_loan. destruct (loans st !! tid) as [t|] eqn:Ht; [|done].
  unfold attemptReturn, is_open. case_bool_decide; [|done]. intros [= <-]. eauto.
Qed.

Lemma return_wf tid now st st' :
  store_wf cfg st -> return_loan tid now st = inr st' -> store_wf cfg st'.
Proof.
  intros Hwf (t & Ht & Hopen & ->)%return_inv.
  set (t' := mkLoan (l_book t) (l_member t) (l_borrow t) (l_due t) (Some (day_of now)) RETURNED).
  assert (Ho : is_open t = true) by (unfold is_open; by rewrite bool_decide_true).
  assert (Ho' : is_open t' = false) by (subst t'; by rewrite is_open_mk, bool_decide_false).
  constructor; simpl.
  - intros id u Hu. rewrite lookup_insert in Hu. case_decide as Hid.
    + injection Hu as <-. simpl. destruct (wf_refs _ _ Hwf tid t Ht) as [Hb Hm].
      split; [|done]. by rewrite lookup_alter_is_Some.
    + destruct (wf_refs _ _ Hwf id u Hu) as [Hb Hm]. split; [|done].
      by rewrite lookup_alter_is_Some.
  - intros bid b' Hb'. unfold book_ok, open_for_book. simpl.
    pose proof (map_count_insert_over (fun u => bool_decide (l_book u = bid) && is_open u) (loans st) tid t' t Ht) as Hc.
    cbv beta in Hc. rewrite Ho, Ho', andb_true_r, andb_false_r in Hc.
    rewrite lookup_alter in Hb'. case_decide as Hbid.
    + subst bid. destruct (books st !! l_book t) as [b|] eqn:Hb; [|done]. injection Hb' as <-.
      destruct (wf_books _ _ Hwf _ b Hb) as [H1 H2]. unfold open_for_book in H2.
      rewrite bool_decide_true in Hc by done. simpl. lia.
    + destruct (wf_books _ _ Hwf bid b' Hb') as [H1 H2]. unfold open_for_book in H2.
      rewrite bool_decide_false in Hc by done. lia.
  - intros mid. rewrite open_loans_count. simpl.
    pose proof (map_count_insert_over (fun u => bool_decide (l_member u = mid) && is_open u) (loans st) tid t' t Ht) as Hc.
    pose proof (wf_limit _ _ Hwf mid) as H1. rewrite open_loans_count in H1.
    cbv beta in Hc. rewrite Ho, Ho', andb_true_r, andb_false_r in Hc.
    destruct (bool_decide _); lia.
  - intros id Hid. rewrite lookup_insert_ne; [by apply (wf_fresh_loan _ _ Hwf)|].
    intros <-. rewrite (wf_fresh_loan _ _ Hwf tid Hid) in Ht. done.
  - intros id Hid. apply eq_None_not_Some. rewrite lookup_alter_is_Some.
    apply eq_None_not_Some. by apply (wf_fresh_book _ _ Hwf).
  - apply (wf_fresh_member _ _ Hwf).
Qed.
(** A map of loans none of which refers to [bid] counts no open loan of [bid]. *)
Lemma existsb_loans_false (p : Loan -> bool) st :
  existsb p (loan_list st) = false -> forall id t, loans st !! id = Some t -> p t = false.
Proof.
  intros He id t Ht. apply not_true_is_false. intros Hp.
  assert (existsb p (loan_list st) = true) as Hc; [|congruence].
  apply existsb_exists. exists t. split; [|done].
  apply in_map_iff. exists (id, t). split; [done|].
  apply list_elem_of_In, elem_of_map_to_list. done.
Qed.

Lemma create_book_wf bj st st' :
  store_wf cfg st -> create_book bj st = inr st' -> store_wf cfg st'.
Proof.
  unfold create_book. intros Hwf. destruct (book_of_json bj) as [b|] eqn:Hb; [|done].
  intros [= <-]. unfold book_of_json in Hb.
  destruct (yearPublished bj), (availableCopies bj) as [a|], (totalCopies bj) as [n|]; try done.
  destruct (Z.ltb_spec 0 n), (Z.leb_spec 0 a), (Z.leb_spec a n); try done. injection Hb as <-.
  assert (Hfresh : books st !! next_book st = None) by (apply (wf_fresh_book _ _ Hwf); lia).
  constructor; simpl.
  - intros id t Ht. destruct (wf_refs _ _ Hwf id t Ht) as [[b Hb] Hm]. split; [|done].
    rewrite lookup_insert. case_decide; eauto.
  - intros bid b' Hb'. unfold book_ok, open_for_book. simpl. rewrite lookup_insert in Hb'. case_decide as Hbid.
    + subst bid. injection Hb' as <-. simpl. rewrite map_count_zero; [lia|].
      intros id t Ht. destruct (wf_refs _ _ Hwf id t Ht) as [[b Hb] _].
      rewrite bool_decide_false; [done|]. intros Heq. rewrite Heq, Hfresh in Hb. done.
    + apply (wf_books _ _ Hwf _ _ Hb').
  - apply (wf_limit _ _ Hwf).
  - apply (wf_fresh_loan _ _ Hwf).
  - intros id Hid. rewrite lookup_insert_ne by lia. apply (wf_fresh_book _ _ Hwf). lia.
  - apply (wf_fresh_member _ _ Hwf).
Qed.

Lemma delete_book_wf id st st' :
  store_wf cfg st -> delete_book id st = inr st' -> store_wf cfg st'.
Proof.
  unfold delete_book. intros Hwf. destruct (books st !! id) as [b|] eqn:Hb; [|done].
  destruct (existsb _ _) eqn:He; [done|]. intros [= <-].
  pose proof (existsb_loans_false _ st He) as Hno.
  constructor; simpl.
  - intros i t Ht. destruct (wf_refs _ _ Hwf i t Ht) as [Hb' Hm]. split; [|done].
    rewrite lookup_delete_ne; [done|]. intros Heq. pose proof (Hno i t Ht) as Hf.
    cbv beta in Hf. rewrite bool_decide_true in Hf by done. done.
  - intros bid b' Hb'. rewrite lookup_delete_Some in Hb'. destruct Hb' as [_ Hb'].
    apply (wf_books _ _ Hwf _ _ Hb').
  - apply (wf_limit _ _ Hwf).
  - apply (wf_fresh_loan _ _ Hwf).
  - intros i Hi. rewrite lookup_delete_None. right. by apply (wf_fresh_book _ _ Hwf).
  - apply (wf_fresh_member _ _ Hwf).
Qed.

Lemma create_member_wf mj today st : store_wf cfg st -> store_wf cfg (create_member mj today st).
Proof.
  intros Hwf. constructor; simpl.
  - intros id t Ht. destruct (wf_refs _ _ Hwf id t Ht) as [Hb [m Hm]]. split; [done|].
    rewrite lookup_insert. case_decide; eauto.
  - apply (wf_books _ _ Hwf).
  - apply (wf_limit _ _ Hwf).
  - apply (wf_fresh_loan _ _ Hwf).
  - apply (wf_fresh_book _ _ Hwf).
  - intros id Hid. rewrite lookup_insert_ne by lia. apply (wf_fresh_member _ _ Hwf). lia.
Qed.

Lemma update_member_wf id mj st st' :
  store_wf cfg st -> update_member id mj st = inr st' -> store_wf cfg st'.
Proof.
  unfold update_member. intros Hwf. destruct (members st !! id) as [m|] eqn:Hm; [|done].
  intros [= <-]. constructor; simpl.
  - intros i t Ht. destruct (wf_refs _ _ Hwf i t Ht) as [Hb [m' Hm']]. split; [done|].
    rewrite lookup_insert. case_decide; eauto.
  - apply (wf_books _ _ Hwf).
  - apply (wf_limit _ _ Hwf).
  - apply (wf_fresh_loan _ _ Hwf).
  - apply (wf_fresh_book _ _ Hwf).
  - intros i Hi. rewrite lookup_insert_ne; [by apply (wf_fresh_member _ _ Hwf)|].
    intros <-. rewrite (wf_fresh_member _ _ Hwf id Hi) in Hm. done.
Qed.

Lemma delete_member_wf id st st' :
  store_wf cfg st -> delete_member id st = inr st' -> store_wf cfg st'.
Proof.
  unfold delete_member. intros Hwf. destruct (members st !! id) as [m|] eqn:Hm; [|done].
  destruct (existsb _ _) eqn:He; [done|]. intros [= <-].
  pose proof (existsb_loans_false _ st He) as Hno.
  constructor; simpl.
  - intros i t Ht. destruct (wf_refs _ _ Hwf i t Ht) as [Hb Hm']. split; [done|].
    rewrite lookup_delete_ne; [done|]. intros Heq. pose proof (Hno i t Ht) as Hf.
    cbv beta in Hf. rewrite bool_decide_true in Hf by done. done.
  - apply (wf_books _ _ Hwf).
  - apply (wf_limit _ _ Hwf).
  - apply (wf_fresh_loan _ _ Hwf).
  - apply (wf_fresh_book _ _ Hwf).
  - intros i Hi. rewrite lookup_delete_None. right. by apply (wf_fresh_member _ _ Hwf).
Qed.

Lemma reply_of_wf ok (r : LibError + Store) st :
  store_wf cfg st -> (forall st', r = inr st' -> store_wf cfg st') -> store_wf cfg (snd (reply_of ok r st)).
Proof. intros Hwf Hr. destruct r as [e|st']; simpl; [done | by apply Hr]. Qed.

Lemma empty_store_wf : store_wf cfg empty_store.
Proof.
  constructor; unfold empty_store; cbn [books members loans next_book next_member next_loan];
    try (intros; apply lookup_empty).
  - intros ? ? H. by rewrite lookup_empty in H.
  - intros ? ? H. by rewrite lookup_empty in H.
  - intros mid. rewrite open_loans_count. cbn [loans]. rewrite map_count_empty. lia.
Qed.
End Facts.
End StoreFacts.

(** ** The service's guarantees *)

Module ServiceTheorems.
Import Lifecycle StoreFacts.

Section Theorems.
Context `{DateCodec} (cfg : Config).

(** Every request other than PUT /books/{id} keeps the store well formed. *)
Lemma serve_store_wf {R} now (r : Request R) st :
  store_wf cfg st -> is_put_book r = false -> store_wf cfg (snd (serve_store cfg now r st)).
Proof.
  intros Hwf Hr. destruct r; simpl; try done; try apply reply_of_wf; try done;
    eauto using create_book_wf, delete_book_wf, create_member_wf, update_member_wf,
      delete_member_wf, borrow_wf, return_wf.
Qed.

(** Every store the service reaches without PUT /books/{id} is well
    formed. *)
Lemma reachable_store_wf st : reachable cfg st -> store_wf cfg st.
Proof. induction 1; [apply empty_store_wf | by apply serve_store_wf]. Qed.

(** In such a store every book has [0 <= availableCopies <= totalCopies]
    (spec.md section 3). *)
Theorem reachable_copies_bounded st bid b :
  reachable cfg st -> books st !! bid = Some b ->
  (0 <= b_available b <= b_total b)%Z /\ store_wf cfg st.
Proof.
  intros Hr Hb. pose proof (reachable_store_wf st Hr) as Hwf.
  destruct (wf_books _ _ Hwf bid b Hb). split; [lia | done].
Qed.

(** Borrowing a copy and returning that loan gives every book its
    record back, whatever happened to the clock in between. *)
Theorem borrow_return_roundtrip bs ms now now' st st1 :
  borrow cfg bs ms now st = inr st1 ->
  exists st2, return_loan (next_loan st) now' st1 = inr st2 /\ books st2 = books st.
Proof.
  intros (bid & mid & b & m & _ & _ & Hm & Hb & _ & _ & _ & ->)%borrow_inv.
  unfold return_loan. simpl. rewrite lookup_insert_eq. simpl.
  eexists. split; [reflexivity|]. simpl.
  rewrite alter_insert_eq. rewrite <- (insert_id (books st) bid b Hb) at 2.
  f_equal. destruct b. unfold with_available. simpl. f_equal. lia.
Qed.
End Theorems.
End ServiceTheorems.

(** ** Witnesses: the theorems at a concrete store *)

Module ServiceWitnesses.
Import Lifecycle LifecycleFacts ServiceTheorems.

Definition demo_book : BookType :=
  mkBook None "Dune" "Frank Herbert" "Science Fiction" "9780441013593" (Int 1965) (Int 1) (Int 1).
Definition demo_member : Member :=
  mkMember None "Ada" "ada@example.org" "555-0100" "1 Main St" ACTIVE None.

Definition two_copies : BookType :=
  mkBook None "Dune" "Frank Herbert" "Science Fiction" "9780441013593" (Int 1965) (Int 2) (Int 2).

(** A store with one book of one copy (id 1) and one active member (id 1). *)
Definition demo_store : Store :=
  snd (serve_store default_config 0 (PostMember demo_member)
         (snd (serve_store default_config 0 (PostBook demo_book) empty_store))).

Lemma reachable_copies_bounded_witness :
  exists b, books demo_store !! 1 = Some b /\ (0 <= b_available b <= b_total b)%Z /\
            store_wf default_config demo_store.
Proof.
  eexists. split; [vm_compute; reflexivity|].
  apply (reachable_copies_bounded default_config demo_store 1).
  - unfold demo_store. apply reach_step; [apply reach_step; [apply reach_init | reflexivity] | reflexivity].
  - vm_compute. reflexivity.
Defined.

Lemma borrow_return_roundtrip_witness :
  exists st1, borrow default_config "1" "1" 0 demo_store = inr st1 /\
  exists st2, return_loan (next_loan demo_store) 86400000 st1 = inr st2 /\ books st2 = books demo_store.
Proof.
  eexists. split; [vm_compute; reflexivity|].
  apply (borrow_return_roundtrip default_config "1" "1" 0 86400000 demo_store).
  vm_compute. reflexivity.
Defined.

Definition demo_loan : Loan := mkLoan 1 1 19723 19737 None BORROWED.

Lemma classify_open_witness :
  l_return demo_loan = None /\ l_status demo_loan = BORROWED /\
  classify demo_loan (19740 * ms_per_day) =
    if (l_due demo_loan * ms_per_day <? 19740 * ms_per_day)%Z then OVERDUE else BORROWED.
Proof.
  split; [reflexivity|]. split; [reflexivity|].
  apply classify_open; reflexivity.
Defined.

Lemma daysOverdue_at_witness :
  l_return demo_loan = None /\ l_status demo_loan = BORROWED /\
  (0 <= 6)%Z /\ (0 <= 43200000 < ms_per_day)%Z /\
  daysOverdue demo_loan ((l_due demo_loan + 6) * ms_per_day + 43200000) = 7%Z.
Proof.
  split; [reflexivity|]. split; [reflexivity|]. split; [lia|]. split; [unfold ms_per_day; lia|].
  rewrite (daysOverdue_at demo_loan 6 43200000); [reflexivity | reflexivity | reflexivity | lia | unfold ms_per_day; lia].
Defined.

Lemma attemptReturn_twice_witness :
  attemptReturn demo_loan 19730 = inr (mkLoan 1 1 19723 19737 (Some 19730) RETURNED) /\
  attemptReturn (mkLoan 1 1 19723 19737 (Some 19730) RETURNED) 19731 = inl AlreadyReturned.
Proof.
  split; [reflexivity|].
  apply (attemptReturn_twice demo_loan 19730). reflexivity.
Defined.
End ServiceWitnesses.
