(* ===== verification/Borrowing.v ===== *)
(** * Borrowing: the BorrowingManagement component
    (src/src/components/BorrowingManagement.tsx).

    The component's [useState] hooks are the fields of [State]; its async
    handlers [fetchData], [handleBorrowBook] and [handleReturnBook] are
    [Eff] programs; [isOverdue], [getDaysOverdue] and
    [getStatusBadgeVariant] are pure functions of their arguments and of
    the current time [now] (the code's [new Date()]); [render] is what the
    component shows for a state at a time.  A handler is given the state
    of the render that created it (its closure).  [UiEvent] and
    [handler] list the page's event handlers; [borrow_url] is the URL of
    the borrow request.  BorrowingFacts proves what a transaction card
    shows for a loan served at one time and rendered at a later one
    against the spec's [classify] and [daysOverdue], the handlers on
    every branch, what the borrow form offers
    in every world of the page ([page_borrow_offers]) and that the
    borrow URL carries the selected ids ([borrow_url_ids]). *)

From S2P Require Import Prelude Js Model IsoDate Http Url Runtime Conc Service.

Module BorrowingManagement.

Record State := mkState {
  transactions : list BorrowingTransaction;
  books : list BookType;
  members : list Member;
  showBorrowForm : bool;
  loading : bool;
  selectedBookId : string;
  selectedMemberId : string;
  error : option string }.

Definition initial : State := mkState [] [] [] false true "" "" None.

(** The state setters. *)
Definition setTransactions v s := mkState v (books s) (members s) (showBorrowForm s) (loading s) (selectedBookId s) (selectedMemberId s) (error s).
Definition setBooks v s := mkState (transactions s) v (members s) (showBorrowForm s) (loading s) (selectedBookId s) (selectedMemberId s) (error s).
Definition setMembers v s := mkState (transactions s) (books s) v (showBorrowForm s) (loading s) (selectedBookId s) (selectedMemberId s) (error s).
Definition setShowBorrowForm v s := mkState (transactions s) (books s) (members s) v (loading s) (selectedBookId s) (selectedMemberId s) (error s).
Definition setLoading v s := mkState (transactions s) (books s) (members s) (showBorrowForm s) v (selectedBookId s) (selectedMemberId s) (error s).
Definition setSelectedBookId v s := mkState (transactions s) (books s) (members s) (showBorrowForm s) (loading s) v (selectedMemberId s) (error s).
Definition setSelectedMemberId v s := mkState (transactions s) (books s) (members s) (showBorrowForm s) (loading s) (selectedBookId s) v (error s).
Definition setError v s := mkState (transactions s) (books s) (members s) (showBorrowForm s) (loading s) (selectedBookId s) (selectedMemberId s) v.

Definition load_error_message : string :=
  "Some data could not be loaded. Please check your connection.".

Definition borrow_error_message : string :=
  "Error borrowing book. Please check if the member has reached the borrowing limit or if the book is available.".

Local Open Scope eff_scope.

(** [fetchData] (lines 59-87): the three requests of [Promise.allSettled]
    are sent in array order and the state is set once all have settled;
    [allSettled] never rejects, so the [catch] branch is unreachable. *)
Definition fetchData : Eff State unit :=
  set (setError None) ;;
  transactionsRes <- await GetBorrowing ;;
  booksRes <- await GetAvailableBooks ;;
  membersRes <- await GetActiveMembers ;;
  set (setTransactions (settled_or_empty transactionsRes)) ;;
  set (setBooks (settled_or_empty booksRes)) ;;
  set (setMembers (settled_or_empty membersRes)) ;;
  (if is_rejected transactionsRes || is_rejected booksRes || is_rejected membersRes
   then set (setError (Some load_error_message)) else Ret tt) ;;
  set (setLoading false).

(** The URL of [handleBorrowBook]'s request (line 94): the selected ids
    go into the query as they are, without [encodeURIComponent]. *)
Definition borrow_url (bookId memberId : string) : string :=
  "/borrowing/borrow?bookId=" +:+ bookId +:+ "&memberId=" +:+ memberId.

(** [handleBorrowBook] (lines 89-105), for the state [s] of its render. *)
Definition handleBorrowBook (s : State) : Eff State unit :=
  if negb (str_truthy (selectedBookId s)) || negb (str_truthy (selectedMemberId s)) then Ret tt
  else
    o <- await (PostBorrow (selectedBookId s) (selectedMemberId s)) ;;
    match o with
    | Fulfilled _ _ =>
        set (setSelectedBookId "") ;;
        set (setSelectedMemberId "") ;;
        set (setShowBorrowForm false) ;;
        spawn fetchData
    | Rejected _ => alert borrow_error_message
    end.

(** [handleReturnBook] (lines 107-114): a failure is only logged. *)
Definition handleReturnBook (transactionId : Z) : Eff State unit :=
  o <- await (PostReturn transactionId) ;;
  match o with
  | Fulfilled _ _ => spawn fetchData
  | Rejected _ => Ret tt
  end.

(** The Return button's [onClick] (line 249):
    [transaction.transactionId && handleReturnBook(transaction.transactionId)]. *)
Definition onReturnClick (t : BorrowingTransaction) : Eff State unit :=
  match transactionId t with
  | Some id => if (id =? 0)%Z then Ret tt else handleReturnBook id
  | None => Ret tt
  end.

(** The other handlers: the Borrow Book button (line 156), the error
    card's Retry (line 170), the two selects' [onValueChange] (lines 187
    and 202) and the form's Cancel (line 220). *)
Definition onBorrowClick : Eff State unit := set (setShowBorrowForm true).
Definition onRetryClick : Eff State unit := fetchData.
Definition onBookSelect (v : string) : Eff State unit := set (setSelectedBookId v).
Definition onMemberSelect (v : string) : Eff State unit := set (setSelectedMemberId v).
Definition onCancelBorrow : Eff State unit := set (setShowBorrowForm false).

(** Every event handler of the page, for the state of its render. *)
Inductive UiEvent :=
  | ClickBorrow | ClickRetry | SubmitBorrow | CancelBorrow
  | SelectBook (v : string) | SelectMember (v : string)
  | ClickReturn (t : BorrowingTransaction).

Definition handler (e : UiEvent) (s : State) : Eff State unit :=
  match e with
  | ClickBorrow => onBorrowClick
  | ClickRetry => onRetryClick
  | SubmitBorrow => handleBorrowBook s
  | CancelBorrow => onCancelBorrow
  | SelectBook v => onBookSelect v
  | SelectMember v => onMemberSelect v
  | ClickReturn t => onReturnClick t
  end.

Local Close Scope eff_scope.

(** [getStatusBadgeVariant] (lines 116-127); the [default] branch of the
    switch is unreachable for a status of the declared type. *)
Definition getStatusBadgeVariant (st : TxStatus) : UiVariant :=
  match st with BORROWED => default | RETURNED => secondary | OVERDUE => destructive end.

Section Time.
Context `{DateCodec}.

(** [isOverdue] (lines 129-131): [new Date(dueDate) < new Date()]; an
    Invalid Date compares false. *)
Definition isOverdue (dueDate : string) (st : TxStatus) (now : Z) : bool :=
  bool_decide (st = BORROWED) &&
  match date_parse dueDate with Some due => (due <? now)%Z | None => false end.

(** [getDaysOverdue] (lines 133-139):
    [Math.ceil((today - due) / 86400000)], and 0 unless positive. *)
Definition getDaysOverdue (dueDate : string) (now : Z) : Z :=
  match date_parse dueDate with
  | Some due =>
      let diffDays := ceil_div (now - due) ms_per_day in
      if (0 <? diffDays)%Z then diffDays else 0%Z
  | None => 0%Z
  end.

(** ** What the component shows (lines 141-309) *)

(** A transaction's card: the alert icon and the red due date when
    overdue, the status badge, the Return button for a [BORROWED] status,
    the member, the dates (as time values: [toLocaleDateString] is not
    modelled) and the days overdue. *)
Record TxCard := mkTxCard {
  card_key : option Z;
  card_title : string;
  card_author : string;
  card_alert_icon : bool;
  card_badge : UiVariant;
  card_badge_text : TxStatus;
  card_return_button : bool;
  card_member_name : string;
  card_member_email : string;
  card_borrow_date : option Z;
  card_due_date : option Z;
  card_due_red : bool;
  card_days_overdue : option Z;
  card_return_date : option (option Z) }.

Definition render_card (now : Z) (t : BorrowingTransaction) : TxCard :=
  let od := isOverdue (dueDate t) (status t) now in
  mkTxCard (transactionId t) (title (book t)) (author (book t)) od
    (getStatusBadgeVariant (status t)) (status t) (bool_decide (status t = BORROWED))
    (name (member t)) (email (member t)) (date_parse (borrowDate t)) (date_parse (dueDate t)) od
    (if od then Some (getDaysOverdue (dueDate t) now) else None)
    (date_parse <$> returnDate t).

(** An option of the borrow form's selects: the value [id.toString()] and
    the label's parts. *)
Definition book_item (b : BookType) : option string * string * string * num :=
  (toString <$> bookId b, title b, author b, availableCopies b).

Definition member_item (m : Member) : option string * string * string :=
  (toString <$> memberId m, name m, email m).

Record BorrowForm := mkBorrowForm {
  form_books : list (option string * string * string * num);
  form_members : list (option string * string * string);
  form_submit_enabled : bool }.

Inductive View :=
  | Spinner
  | Page (error_banner : option string) (form : option BorrowForm) (cards : list TxCard)
         (empty_message : bool).

Definition render (now : Z) (s : State) : View :=
  if loading s then Spinner
  else Page (str_guard (error s))
         (if showBorrowForm s
          then Some (mkBorrowForm (book_item <$> books s) (member_item <$> members s)
                       (str_truthy (selectedBookId s) && str_truthy (selectedMemberId s)))
          else None)
         (render_card now <$> transactions s)
         (bool_decide (transactions s = [])).
End Time.

End BorrowingManagement.

(** ** Lemmas on the component *)

Module BorrowingFacts.
Import BorrowingManagement.

Section Days.
Context `{DateCodec}.

Lemma getDaysOverdue_nonneg dueDate now : (0 <= getDaysOverdue dueDate now)%Z.
Proof. unfold getDaysOverdue. destruct (date_parse dueDate); [zcase|]; lia. Qed.

(** (C9) The days overdue the client shows [k] whole days and [x] ms
    after the start of a served due date: [k] at the start of a day and
    [k + 1] at any later moment of it.  The loan of spec.md section 8
    borrowed 20 days ago with a 14-day period shows 6 days overdue only
    at midnight UTC, 7 for the rest of the day. *)
Theorem getDaysOverdue_at d k x :
  day_in_range d = true -> (0 <= k)%Z -> (0 <= x < ms_per_day)%Z ->
  getDaysOverdue (format_day d) ((d + k) * ms_per_day + x) = if (x =? 0)%Z then k else (k + 1)%Z.
Proof.
  intros Hd Hk Hx. unfold getDaysOverdue. rewrite date_parse_format by done.
  replace ((d + k) * ms_per_day + x - d * ms_per_day)%Z with (k * ms_per_day + x)%Z by lia.
  rewrite ceil_div_at by done. zcase; lia.
Qed.

(** (C32) The days overdue never decrease as time passes (spec.md section
    8, for the client's count). *)
Lemma getDaysOverdue_mono dueDate now1 now2 :
  (now1 <= now2)%Z -> (getDaysOverdue dueDate now1 <= getDaysOverdue dueDate now2)%Z.
Proof.
  intros Hn. unfold getDaysOverdue. destruct (date_parse dueDate) as [due|]; [|lia].
  pose proof (ceil_div_mono ms_per_day ltac:(done) (now1 - due) (now2 - due) ltac:(lia)).
  zcase; lia.
Qed.

(** (C29) An overdue transaction is overdue by at least one day. *)
Lemma isOverdue_days dueDate st now :
  isOverdue dueDate st now = true -> (1 <= getDaysOverdue dueDate now)%Z.
Proof.
  unfold isOverdue, getDaysOverdue. rewrite andb_true_iff. intros [_ Hd].
  destruct (date_parse dueDate) as [due|]; [|done]. apply Z.ltb_lt in Hd.
  pose proof (proj1 (ceil_div_pos ms_per_day ltac:(done) (now - due)) ltac:(lia)).
  zcase; lia.
Qed.
End Days.

Section Handlers.
Context `{Backend}.

(** (C33) With a book or a member not selected, [handleBorrowBook] does
    nothing: no request, no state change. *)
Lemma handleBorrowBook_unselected s w :
  (selectedBookId s = EmptyString \/ selectedMemberId s = EmptyString) ->
  run (handleBorrowBook s) w = (tt, w).
Proof. intros [Hb|Hm]; unfold handleBorrowBook; [rewrite Hb | rewrite Hm, orb_true_r]; done. Qed.
End Handlers.

Section Served.
Context `{DateCodec} (cfg : Config).

Lemma tx_json_fields now st id t j :
  tx_json cfg now st id t = Some j ->
  dueDate j = format_day (l_due t) /\ status j = Lifecycle.classify t now /\ transactionId j = Some id.
Proof.
  unfold tx_json. destruct (Service.books st !! l_book t), (Service.members st !! l_member t); try done.
  intros [= <-]. done.
Qed.

(** (C2) A loan the service reports [OVERDUE] (spec.md sections 3 and
    4.1: the status is derived on read) is never flagged by the page: at
    every later render its card has no alert icon, no red due date, no
    days-overdue count and no Return button, since [isOverdue] and the
    button test [status === "BORROWED"]. *)
Theorem served_overdue_unflagged ts now st id t j :
  tx_json cfg ts st id t = Some j -> Lifecycle.classify t ts = OVERDUE ->
  let c := render_card now j in
  card_badge_text c = OVERDUE /\ card_alert_icon c = false /\ card_due_red c = false /\
  card_days_overdue c = None /\ card_return_button c = false.
Proof.
  intros Hj Hc. destruct (tx_json_fields ts st id t j Hj) as (_ & Hs & _).
  unfold render_card, isOverdue. rewrite Hs, Hc. done.
Qed.

(** (C8) The days-overdue count of a card, for the loan the service
    served at time [ts] and the page rendered at [now]: the card shows
    a count exactly for a loan served [BORROWED] that [classify] finds
    [OVERDUE] at [now], and the count is the spec's [daysOverdue] then.
    The spec's [now > dueDate] is read with the due date at the start of
    its day in UTC, where the client's [new Date(dueDate)] puts it. *)
Theorem card_days_overdue_spec ts now st id t j :
  day_in_range (l_due t) = true -> (l_return t = None -> l_status t = BORROWED) ->
  tx_json cfg ts st id t = Some j ->
  card_days_overdue (render_card now j) =
    if bool_decide (Lifecycle.classify t ts = BORROWED) && bool_decide (Lifecycle.classify t now = OVERDUE)
    then Some (Lifecycle.daysOverdue t now) else None.
Proof.
  intros Hr Hopen Hj. destruct (tx_json_fields ts st id t j Hj) as (Hd & Hs & _).
  unfold render_card, isOverdue, getDaysOverdue, Lifecycle.daysOverdue. simpl.
  rewrite Hd, Hs, date_parse_format by done.
  destruct (l_return t) eqn:Hret; [unfold Lifecycle.classify; rewrite Hret; done|].
  rewrite !LifecycleFacts.classify_open by auto. zcase; simpl; try done; f_equal; zcase; lia.
Qed.
End Served.

(** (C22) The borrow form's options carry ids the service reads back: the
    value [id.toString()] of the option of a book or a member whose id is
    a safe integer (every id a JSON reply can carry exactly) is parsed by
    POST /borrowing/borrow to that id. *)
Theorem borrow_form_ids bj mj id mid bv mv :
  bookId bj = Some id -> memberId mj = Some mid ->
  safe_integer id -> safe_integer mid ->
  fst (fst (fst (book_item bj))) = Some bv -> fst (fst (member_item mj)) = Some mv ->
  parse_long bv = Some id /\ parse_long mv = Some mid.
Proof.
  unfold book_item, member_item, safe_integer, MAX_SAFE_INTEGER. intros -> -> Hid Hmid [= <-] [= <-].
  split; apply parse_long_toString; lia.
Qed.

Section Handlers2.
Context `{Backend}.

(** (C27) A successful borrow clears the selection, hides the form and
    refetches. *)
Lemma handleBorrowBook_fulfilled s w st d w1 :
  str_truthy (selectedBookId s) = true -> str_truthy (selectedMemberId s) = true ->
  exchange ApiClient (PostBorrow (selectedBookId s) (selectedMemberId s)) w = (Fulfilled st d, w1) ->
  run (handleBorrowBook s) w =
    run fetchData (mkWorld (setShowBorrowForm false (setSelectedMemberId EmptyString
                              (setSelectedBookId EmptyString (w_state w1))))
                           (w_srv w1) (w_clock w1) (w_alerts w1) (w_sent w1)).
Proof.
  intros Hb Hm Hx. unfold handleBorrowBook. rewrite Hb, Hm. cbn -[exchange fetchData]. rewrite Hx.
  cbn -[fetchData]. destruct (run fetchData _) as [[] w2]. done.
Qed.

(** (C28) A failed borrow only alerts. *)
Lemma handleBorrowBook_rejected s w e w1 :
  str_truthy (selectedBookId s) = true -> str_truthy (selectedMemberId s) = true ->
  exchange ApiClient (PostBorrow (selectedBookId s) (selectedMemberId s)) w = (Rejected e, w1) ->
  run (handleBorrowBook s) w =
    (tt, mkWorld (w_state w1) (w_srv w1) (w_clock w1) (w_alerts w1 ++ [borrow_error_message]) (w_sent w1)).
Proof. intros Hb Hm Hx. unfold handleBorrowBook. rewrite Hb, Hm. cbn -[exchange]. by rewrite Hx. Qed.

End Handlers2.

Section ServedRuns.
Context `{DateCodec} (cfg : Config).
#[local] Instance borrow_backend : Backend := service cfg.

(** [fetchData] against the service: three reads, the lists of
    GET /borrowing, GET /books/available and GET /members/active shown,
    no error, loading over, the store unchanged. *)
Lemma fetchData_run (w : World Store State) :
  run fetchData w =
    (tt, mkWorld (setLoading false
                   (setMembers (list_members_of (fun m => bool_decide (m_status m = ACTIVE)) (w_srv w))
                     (setBooks (available_books (w_srv w))
                       (setTransactions (list_loans cfg (w_clock w) (w_srv w)) (setError None (w_state w))))))
                 (w_srv w) (w_clock w) (w_alerts w) (3 + w_sent w)).
Proof.
  unfold fetchData. cbn -[exchange].
  repeat (erewrite (@exchange_fulfilled borrow_backend State); [|reflexivity|reflexivity]; cbn -[exchange]).
  reflexivity.
Qed.

Lemma borrow_selected bs ms now st st1 :
  borrow cfg bs ms now st = inr st1 -> str_truthy bs = true /\ str_truthy ms = true.
Proof.
  unfold borrow. destruct (parse_long bs) eqn:E1; [|done]. destruct (parse_long ms) eqn:E2; [|done].
  intros _. destruct bs; [by vm_compute in E1|]. destruct ms; [by vm_compute in E2|]. done.
Qed.

(** (C3) Borrowing through the form and returning that loan with its
    Return button gives every book its record back in the store (the
    round trip of spec.md section 8, through the client). *)
Theorem borrow_then_return s (w : World Store State) st1 :
  borrow cfg (selectedBookId s) (selectedMemberId s) (w_clock w) (w_srv w) = inr st1 ->
  let '(_, w1) := run (handleBorrowBook s) w in
  let '(_, w2) := run (handleReturnBook (next_loan (w_srv w))) w1 in
  Service.books (w_srv w2) = Service.books (w_srv w).
Proof.
  intros Hb. destruct (borrow_selected _ _ _ _ _ Hb) as [Hbs Hms].
  destruct (ServiceTheorems.borrow_return_roundtrip cfg _ _ _ (w_clock w) _ _ Hb) as (st2 & Hr & Hbooks).
  unfold handleBorrowBook. rewrite Hbs, Hms. cbn -[exchange fetchData].
  erewrite (@exchange_fulfilled borrow_backend State);
    [| cbn; unfold reply_of; rewrite Hb; reflexivity | reflexivity].
  cbn -[fetchData]. rewrite fetchData_run. unfold handleReturnBook. cbn -[api_exchange fetchData].
  erewrite (@api_exchange_fulfilled borrow_backend);
    [| cbn; unfold reply_of; rewrite Hr; reflexivity | reflexivity].
  cbn -[fetchData]. rewrite fetchData_run. exact Hbooks.
Qed.
End ServedRuns.

(** ** The borrow request's URL *)

(** (C16) The borrow request puts the selected ids into its URL without
    encoding them.  The form's options are ids printed by [toString]
    (digits and a sign), so the service reads back exactly the ids the
    user selected, the book's as [bookId] and the member's as
    [memberId]. *)
Theorem borrow_url_ids i j :
  query_param (borrow_url (toString i) (toString j)) "bookId" = Some (toString i) /\
  query_param (borrow_url (toString i) (toString j)) "memberId" = Some (toString j).
Proof.
  destruct (unreserved_decode (toString i) (all_unreserved_toString i)) as (Hi & Hai & _).
  destruct (unreserved_decode (toString j) (all_unreserved_toString j)) as (Hj & Haj & _).
  exact (query_param_pair "/borrowing/borrow" "bookId" _ _ "memberId" _ _ eq_refl eq_refl eq_refl
           ltac:(discriminate) Hai Haj Hi Hj).
Qed.

(** Without the encoding, a value with [&] would carry a parameter of
    its own: the ids are safe only because they are printed numbers. *)
Example borrow_url_unencoded : query_param (borrow_url "1&memberId=2" "3") "memberId" = Some "2".
Proof. reflexivity. Qed.

(** ** What the borrow form offers *)

Section Page.
Context `{DateCodec} (cfg : Config).
#[local] Instance borrowing_page_backend : Backend := service cfg.

(** A book the form may offer: a stored record with a copy available;
    a member: one with an id, ACTIVE. *)
Definition offered_book (b : BookType) : Prop :=
  exists id r, b = book_json id r /\ (0 < b_available r)%Z.
Definition offered_member (m : Member) : Prop := is_Some (memberId m) /\ membershipStatus m = ACTIVE.

(** What the service sends for GET /books/available and
    GET /members/active. *)
Definition borrow_lists_ok : ReplyProp := fun R r =>
  match r in Request R return R -> Prop with
  | GetAvailableBooks => Forall offered_book
  | GetActiveMembers => Forall offered_member
  | _ => fun _ => True
  end.

Definition form_inv (s : State) : Prop := Forall offered_book (books s) /\ Forall offered_member (members s).

Lemma service_borrow_lists : serves_ok borrow_lists_ok.
Proof.
  intros R now r st code d st' Hs. destruct r; simpl in Hs |- *; try done; injection Hs as _ <- _.
  - apply Forall_fmap, List.Forall_forall. intros [id b] [_ Hb]%filter_In.
    exists id, b. split; [done|]. simpl in Hb. lia.
  - apply Forall_fmap, List.Forall_forall. intros [id m] [_ Hm]%filter_In. simpl in Hm |- *.
    split; [by eexists|]. by case_bool_decide.
Qed.

Lemma fetchData_on : upds_ok_on borrow_lists_ok form_inv fetchData.
Proof. unfold fetchData. upds_on_solve. Qed.

Lemma borrow_handler_on e s : upds_ok_on borrow_lists_ok form_inv (handler e s).
Proof.
  destruct e; simpl;
    unfold onBorrowClick, onRetryClick, handleBorrowBook, onCancelBorrow, onBookSelect, onMemberSelect,
      onReturnClick, handleReturnBook, alert;
    upds_on_solve; apply fetchData_on.
Qed.

(** The worlds of a mounted borrowing page (Runtime's [page_reach]). *)
Definition borrowing_page : World Store State -> Prop := page_reach (fun _ => initial) fetchData handler.

(** (C12) Whatever the borrowing page did and whatever happened to the
    store, the borrow form offers only books that had a copy available
    and only ACTIVE members, as GET /books/available and
    GET /members/active last served them; so every option the form
    renders has a value ([bookId.toString()] and [memberId.toString()]
    never meet an undefined id) and each book option shows a positive
    number of copies. *)
Theorem page_borrow_offers w now :
  borrowing_page w ->
  form_inv (w_state w) /\
  forall err f cards empty, render now (w_state w) = Page err (Some f) cards empty ->
    Forall (fun '(v, _, _, n) => is_Some v /\ exists a, n = Int a /\ (0 < a)%Z) (form_books f) /\
    Forall (fun '(v, _, _) => is_Some v) (form_members f).
Proof.
  intros Hr.
  assert (Hinv : form_inv (w_state w)).
  { refine (page_reach_preserves (fun _ => initial) fetchData handler borrow_lists_ok form_inv
              service_borrow_lists _ fetchData_on borrow_handler_on w Hr).
    intros _. split; by apply Forall_nil. }
  split; [exact Hinv|]. intros err f cards empty. unfold render.
  destruct (loading _); [done|]. destruct (showBorrowForm _); [|done]. intros [= _ <- _ _]. simpl.
  destruct Hinv as [Hb Hm]. split.
  - apply Forall_fmap. eapply Forall_impl; [exact Hb|]. intros b (id & r & -> & Ha). simpl.
    split; [by eexists|]. by eexists.
  - apply Forall_fmap. eapply Forall_impl; [exact Hm|]. intros m [[id Hid] _]. simpl. rewrite Hid. by eexists.
Qed.

(** The user actions of the page: its mount effect and its event
    handlers, in any order with the steps of the handlers in flight. *)
Definition page_action (e : event State) : Prop :=
  match e with
  | Step _ => True
  | Fire h => h = (fun _ => fetchData) \/ exists u, h = handler u
  end.

Lemma page_action_ok e : page_action e -> event_ok borrow_lists_ok form_inv e.
Proof.
  destruct e as [i|h]; simpl; [done|]. intros [-> | [u ->]] s; [apply fetchData_on|apply borrow_handler_on].
Qed.

(** (C13) The borrow form's guarantee holds in every interleaving: however
    the mount effect, the Refresh, Borrow and Return handlers and the
    replies to their requests interleave, the form offers only books
    that had a copy available and ACTIVE members. *)
Theorem page_borrow_offers_conc es p st now a n :
  Forall page_action es ->
  esteps es (mkPool (mkWorld initial st now a n) []) = Some p ->
  form_inv (w_state (p_world p)).
Proof.
  intros Hes Hp.
  assert (Hok : pool_ok borrow_lists_ok form_inv (mkPool (mkWorld initial st now a n) [])).
  { split; [split; by apply Forall_nil|constructor]. }
  exact (proj1 (esteps_preserves borrow_lists_ok service_borrow_lists form_inv es _ p
                  (Forall_impl _ _ _ Hes page_action_ok) Hok Hp)).
Qed.

End Page.

End BorrowingFacts.

(** ** Witnesses: the component against the modelled service *)

Module BorrowingWitnesses.
Import BorrowingManagement BorrowingFacts ServiceWitnesses.

#[local] Instance demo_backend : Backend := service default_config.

Definition demo_world (s : State) : World srv_state State := mkWorld (Srv := Store) s demo_store 0 [] 0.

Definition now_0107 : Z := (19740 * ms_per_day)%Z.

(** The loan of spec.md section 8 (due on day 19737), served on day
    19740, when it is already overdue. *)
Lemma served_overdue_unflagged_witness :
  exists j, tx_json default_config now_0107 demo_store 1 demo_loan = Some j /\
  Lifecycle.classify demo_loan now_0107 = OVERDUE /\
  let c := render_card (now_0107 + ms_per_day) j in
  card_badge_text c = OVERDUE /\ card_alert_icon c = false /\ card_due_red c = false /\
  card_days_overdue c = None /\ card_return_button c = false.
Proof.
  destruct (tx_json default_config now_0107 demo_store 1 demo_loan) as [j|] eqn:Hj;
    [|vm_compute in Hj; discriminate].
  assert (Hc : Lifecycle.classify demo_loan now_0107 = OVERDUE) by (vm_compute; reflexivity).
  exists j. split; [done|]. split; [exact Hc|].
  pose proof (served_overdue_unflagged default_config now_0107 (now_0107 + ms_per_day) demo_store 1 demo_loan j Hj Hc) as X.
  exact X.
Defined.

(** The same loan served on day 19730, still [BORROWED], and rendered at
    noon on day 19740: 4 days overdue. *)
Lemma card_days_overdue_spec_witness :
  exists j, day_in_range (l_due demo_loan) = true /\
  (l_return demo_loan = None -> l_status demo_loan = BORROWED) /\
  tx_json default_config (19730 * ms_per_day) demo_store 1 demo_loan = Some j /\
  card_days_overdue (render_card (now_0107 + 43200000) j) = Some 4%Z /\
  card_days_overdue (render_card (now_0107 + 43200000) j) =
    if bool_decide (Lifecycle.classify demo_loan (19730 * ms_per_day) = BORROWED) &&
       bool_decide (Lifecycle.classify demo_loan (now_0107 + 43200000) = OVERDUE)
    then Some (Lifecycle.daysOverdue demo_loan (now_0107 + 43200000)) else None.
Proof.
  destruct (tx_json default_config (19730 * ms_per_day) demo_store 1 demo_loan) as [j|] eqn:Hj;
    [|vm_compute in Hj; discriminate].
  assert (Hr : day_in_range (l_due demo_loan) = true) by reflexivity.
  assert (Ho : l_return demo_loan = None -> l_status demo_loan = BORROWED) by reflexivity.
  pose proof (card_days_overdue_spec default_config (19730 * ms_per_day) (now_0107 + 43200000)
                demo_store 1 demo_loan j Hr Ho Hj) as X.
  exists j. split; [exact Hr|]. split; [exact Ho|]. split; [done|]. split; [|exact X].
  rewrite X. vm_compute. reflexivity.
Defined.

Lemma isOverdue_days_witness :
  isOverdue "2024-01-15" BORROWED now_0107 = true /\ (1 <= getDaysOverdue "2024-01-15" now_0107)%Z.
Proof. split; [vm_compute; reflexivity|]. apply (isOverdue_days _ BORROWED). vm_compute. reflexivity. Defined.

Lemma handleBorrowBook_unselected_witness :
  (selectedBookId initial = EmptyString \/ selectedMemberId initial = EmptyString) /\
  run (handleBorrowBook initial) (demo_world initial) = (tt, demo_world initial).
Proof. split; [left; reflexivity|]. apply handleBorrowBook_unselected. left. reflexivity. Defined.

Definition unknown_book_selected : State := setSelectedMemberId "1" (setSelectedBookId "9" initial).

Lemma handleBorrowBook_rejected_witness :
  exists e w1, str_truthy (selectedBookId unknown_book_selected) = true /\
  str_truthy (selectedMemberId unknown_book_selected) = true /\
  exchange ApiClient (PostBorrow (selectedBookId unknown_book_selected) (selectedMemberId unknown_book_selected))
    (demo_world unknown_book_selected) = (Rejected e, w1) /\
  run (handleBorrowBook unknown_book_selected) (demo_world unknown_book_selected) =
    (tt, mkWorld (w_state w1) (w_srv w1) (w_clock w1) (w_alerts w1 ++ [borrow_error_message]) (w_sent w1)).
Proof.
  do 2 eexists. split; [reflexivity|]. split; [reflexivity|]. split; [vm_compute; reflexivity|].
  eapply handleBorrowBook_rejected; [reflexivity | reflexivity | vm_compute; reflexivity].
Defined.
Lemma getDaysOverdue_at_witness :
  day_in_range 19737 = true /\ (0 <= 6)%Z /\ (0 <= 43200000 < ms_per_day)%Z /\
  getDaysOverdue (format_day 19737) ((19737 + 6) * ms_per_day + 43200000) = 7%Z.
Proof.
  split; [reflexivity|]. split; [lia|]. split; [unfold ms_per_day; lia|].
  apply (getDaysOverdue_at 19737 6 43200000); [reflexivity | lia | unfold ms_per_day; lia].
Defined.

Lemma getDaysOverdue_mono_witness :
  (now_0107 <= now_0107 + ms_per_day)%Z /\
  (getDaysOverdue "2024-01-15" now_0107 <= getDaysOverdue "2024-01-15" (now_0107 + ms_per_day))%Z.
Proof.
  split; [unfold now_0107, ms_per_day; lia|].
  apply getDaysOverdue_mono. unfold now_0107, ms_per_day. lia.
Defined.

Definition dune_json : BookType := book_json 1 (mkBookRec "Dune" "Frank Herbert" "Science Fiction" "9780441013593" 1965 1 1).
Definition ada_json : Member := mkMember (Some 1) "Ada" "ada@example.org" "555-0100" "1 Main St" ACTIVE None.

Lemma borrow_form_ids_witness :
  bookId dune_json = Some 1 /\ memberId ada_json = Some 1 /\
  safe_integer 1 /\ safe_integer 1 /\
  fst (fst (fst (book_item dune_json))) = Some "1" /\ fst (fst (member_item ada_json)) = Some "1" /\
  parse_long "1" = Some 1 /\ parse_long "1" = Some 1.
Proof.
  assert (Hs : safe_integer 1) by (unfold safe_integer, MAX_SAFE_INTEGER; lia).
  split; [reflexivity|]. split; [reflexivity|]. split; [exact Hs|]. split; [exact Hs|].
  split; [reflexivity|]. split; [reflexivity|].
  apply (borrow_form_ids dune_json ada_json 1 1 "1" "1"); first [reflexivity | exact Hs].
Defined.

Definition both_selected : State := setSelectedMemberId "1" (setSelectedBookId "1" initial).

Lemma handleBorrowBook_fulfilled_witness :
  exists st d w1,
  exchange ApiClient (PostBorrow (selectedBookId both_selected) (selectedMemberId both_selected))
    (demo_world both_selected) = (Fulfilled st d, w1) /\
  run (handleBorrowBook both_selected) (demo_world both_selected) =
    run fetchData (mkWorld (setShowBorrowForm false (setSelectedMemberId EmptyString
                              (setSelectedBookId EmptyString (w_state w1))))
                           (w_srv w1) (w_clock w1) (w_alerts w1) (w_sent w1)).
Proof.
  do 3 eexists. split; [vm_compute; reflexivity|].
  eapply handleBorrowBook_fulfilled; [reflexivity | reflexivity | vm_compute; reflexivity].
Defined.
Definition both_world : World Store State := mkWorld (Srv := Store) both_selected demo_store 0 [] 0.

Lemma borrow_then_return_witness :
  exists st1,
  borrow default_config (selectedBookId both_selected) (selectedMemberId both_selected)
    (w_clock both_world) (w_srv both_world) = inr st1 /\
  let '(_, w1) := @run (borrow_backend default_config) _ _ (handleBorrowBook both_selected) both_world in
  let '(_, w2) := @run (borrow_backend default_config) _ _ (handleReturnBook (next_loan (w_srv both_world))) w1 in
  Service.books (w_srv w2) = Service.books (w_srv both_world).
Proof.
  eexists. split; [vm_compute; reflexivity|].
  pose proof (borrow_then_return default_config both_selected both_world _ ltac:(vm_compute; reflexivity)) as X.
  exact X.
Defined.
(** The borrowing page mounted over the demo store, then the Borrow Book
    button: the form is open with Dune and Ada to choose. *)
Definition mounted_borrowing : World Store State :=
  snd (@run (borrowing_page_backend default_config) _ _ fetchData (mkWorld (Srv := Store) initial demo_store 0 [] 0)).
Definition form_open : World Store State :=
  snd (@run (borrowing_page_backend default_config) _ _ (handler ClickBorrow (w_state mounted_borrowing))
         mounted_borrowing).

Lemma page_borrow_offers_witness :
  borrowing_page default_config form_open /\
  (form_inv (w_state form_open) /\
   forall err f cards empty, render 0 (w_state form_open) = Page err (Some f) cards empty ->
     Forall (fun '(v, _, _, n) => is_Some v /\ exists a, n = Int a /\ (0 < a)%Z) (form_books f) /\
     Forall (fun '(v, _, _) => is_Some v) (form_members f)).
Proof.
  assert (Hr : borrowing_page default_config form_open).
  { exact (@page_event (borrowing_page_backend default_config) _ _ (fun _ => initial) fetchData handler
             ClickBorrow _
             (@page_mount (borrowing_page_backend default_config) _ _ (fun _ => initial) fetchData handler _
                (@page_init (borrowing_page_backend default_config) _ _ (fun _ => initial) fetchData handler
                   0 demo_store [] 0))). }
  split; [exact Hr|]. pose proof (page_borrow_offers default_config form_open 0 Hr) as X. exact X.
Defined.

(** The mount effect sends its first request; the user opens the form
    while it is in flight; then the mount effect runs to its end. *)
Definition mount_and_open : list (event State) :=
  [Fire (fun _ => fetchData); Step 0; Step 0; Fire (handler ClickBorrow); Step 1; Step 1] ++
  repeat (Step 0) 10.

Definition mount_and_open_pool : Pool Store State :=
  from_option id (mkPool (mkWorld (Srv := Store) initial demo_store 0 [] 0) [])
    (@esteps (borrowing_page_backend default_config) _ mount_and_open
       (mkPool (mkWorld (Srv := Store) initial demo_store 0 [] 0) [])).

Lemma page_borrow_offers_conc_witness :
  Forall page_action mount_and_open /\
  @esteps (borrowing_page_backend default_config) _ mount_and_open
    (mkPool (mkWorld (Srv := Store) initial demo_store 0 [] 0) []) = Some mount_and_open_pool /\
  form_inv (w_state (p_world mount_and_open_pool)).
Proof.
  assert (Ha : Forall page_action mount_and_open).
  { cbn [mount_and_open repeat app].
    repeat (apply Forall_cons_2; [first [exact I | left; reflexivity | right; exists ClickBorrow; reflexivity]|]).
    apply Forall_nil_2. }
  assert (He : @esteps (borrowing_page_backend default_config) _ mount_and_open
                 (mkPool (mkWorld (Srv := Store) initial demo_store 0 [] 0) []) = Some mount_and_open_pool).
  { vm_compute. reflexivity. }
  split; [exact Ha|]. split; [exact He|].
  pose proof (page_borrow_offers_conc default_config mount_and_open mount_and_open_pool demo_store 0 [] 0 Ha He)
    as X. exact X.
Defined.

(** In [mount_and_open_pool] every thread has ended, the form is open and
    offers Dune and Ada. *)
Lemma mount_and_open_done :
  p_threads mount_and_open_pool = [] /\ showBorrowForm (w_state (p_world mount_and_open_pool)) = true /\
  length (books (w_state (p_world mount_and_open_pool))) = 1%nat.
Proof. by_compute. Qed.

(** The form of [form_open] offers one book and one member. *)
Lemma form_open_offers :
  exists f, render 0 (w_state form_open) = Page None (Some f) [] true /\
    form_books f = [(Some "1", "Dune", "Frank Herbert", Int 1)] /\ form_members f = [(Some "1", "Ada", "ada@example.org")].
Proof. eexists. by_compute. Qed.

End BorrowingWitnesses.

(** ** The re-send of a POST *)

Module BorrowingCounterexamples.
Import BorrowingManagement ServiceWitnesses.

(** A backend that carries out every request but loses the reply to the
    first one, which reaches the client as a 500 (a gateway giving up
    after the service committed). *)
Definition lossy_first (B : Backend) : Backend := {|
  srv_state := (@srv_state B * bool)%type;
  serve := fun R now (r : Request R) sa =>
    let '(reply, s') := @serve B R now r (fst sa) in
    (if snd sa then reply
     else match reply with Response _ d => Response 500 d | NoResponse c m => NoResponse c m end,
     (s', true)) |}.

(** A book of two copies (id 1) and an active member (id 1). *)
Definition two_copy_store : Store :=
  snd (serve_store default_config 0 (PostMember demo_member)
    (snd (serve_store default_config 0 (PostBook two_copies) empty_store))).

Definition book1_member1 : State := setSelectedMemberId "1" (setSelectedBookId "1" initial).

(** (C5) The interceptor re-sends a POST answered 500: one click on
    Borrow Book, whose first reply was lost after the service lent the
    copy, lends both copies to the member, and the page reports
    success. *)
Theorem retry_borrows_twice :
  exists w',
    @run (lossy_first (service default_config)) _ _ (handleBorrowBook book1_member1)
      (mkWorld (Srv := Store * bool) book1_member1 (two_copy_store, false) 0 [] 0) = (tt, w') /\
    map_count (fun t => bool_decide (l_member t = 1 /\ l_book t = 1)) (loans (fst (w_srv w'))) = 2%nat /\
    w_alerts w' = [] /\ selectedBookId (w_state w') = "".
Proof. eexists. split; [vm_compute; reflexivity|]. vm_compute. repeat split. Qed.

(** ** A second click while the first borrow is in flight *)

(** The loaded page with the form open and the book and the member
    selected. *)
Definition form_filled : State := setLoading false (setShowBorrowForm true book1_member1).

Definition submit_enabled (now : Z) (s : State) : bool :=
  match render now s with Page _ (Some f) _ _ => form_submit_enabled f | _ => false end.

(** (C6) [handleBorrowBook] does not disable the form while its request
    is in flight: after a first click on Borrow Book the form is still
    filled and its submit button enabled, and a second click lends the
    member a second copy of the same book, two loans for one intent. *)
Theorem double_submit_borrows_twice :
  exists p1 p2,
    @esteps (service default_config) _ [Fire (handler SubmitBorrow); Step 0]
      (mkPool (mkWorld (Srv := Store) form_filled two_copy_store 0 [] 0) []) = Some p1 /\
    submit_enabled 0 (w_state (p_world p1)) = true /\
    @esteps (service default_config) _ [Fire (handler SubmitBorrow); Step 1] p1 = Some p2 /\
    map_count (fun t => bool_decide (l_member t = 1 /\ l_book t = 1)) (loans (w_srv (p_world p2))) = 2%nat.
Proof. do 2 eexists. split; [vm_compute; reflexivity|]. by_compute. Qed.

End BorrowingCounterexamples.

(** ** The scenarios of spec.md section 8, through the page *)

