(* ===== verification/Books.v ===== *)
(** * Books: the BookManagement component
    (src/src/components/BookManagement.tsx).

    The [useState] hooks are the fields of [State]; [fetchBooks],
    [handleAddBook], [handleUpdateBook], [handleDeleteBook] and
    [handleSearch] are [Eff] programs over it; the [onChange] handlers of
    the two forms are [onNewBookChange] and [onEditingBookChange];
    [filteredBooks] and [render] are what the component computes for a
    state.  [window.confirm] is the user's answer, an argument of
    [handleDeleteBook]; [new Date().getFullYear()] is read in UTC.
    [UiEvent] and [handler] list every event handler the page renders.
    BookFacts proves what the handlers do against the service, what the
    edit form's PUT carries ([edit_copies_overflow]), that the
    page only ever holds the service's Book JSON ([page_books_served],
    over the worlds [page_reach]), and, through the interleaved
    semantics of Conc, that two searches in flight can leave a stale
    list ([search_last_reply_wins]). *)

From S2P Require Import Prelude Js Model IsoDate Http Url Runtime Conc Service.

Module BookManagement.

Record State := mkState {
  books : list BookType;
  searchTerm : string;
  showAddForm : bool;
  editingBook : option BookType;
  loading : bool;
  newBook : BookType;
  error : option string }.

(** [new Date().getFullYear()] at the time [now] (ms since the epoch). *)
Definition getFullYear (now : Z) : Z := fst (fst (civil_from_days (now / ms_per_day)%Z)).

(** The empty add form (lines 30-38 and 65-73). *)
Definition blankBook (year : Z) : BookType :=
  mkBook None "" "" "" "" (Int year) (Int 1) (Int 1).

Definition initial (now : Z) : State :=
  mkState [] "" false None true (blankBook (getFullYear now)) None.

Definition setBooks v s := mkState v (searchTerm s) (showAddForm s) (editingBook s) (loading s) (newBook s) (error s).
Definition setSearchTerm v s := mkState (books s) v (showAddForm s) (editingBook s) (loading s) (newBook s) (error s).
Definition setShowAddForm v s := mkState (books s) (searchTerm s) v (editingBook s) (loading s) (newBook s) (error s).
Definition setEditingBook v s := mkState (books s) (searchTerm s) (showAddForm s) v (loading s) (newBook s) (error s).
Definition setLoading v s := mkState (books s) (searchTerm s) (showAddForm s) (editingBook s) v (newBook s) (error s).
Definition setNewBook v s := mkState (books s) (searchTerm s) (showAddForm s) (editingBook s) (loading s) v (error s).
Definition setError v s := mkState (books s) (searchTerm s) (showAddForm s) (editingBook s) (loading s) (newBook s) v.

Definition fetch_error_fallback : string :=
  "Failed to fetch books. Please check if the backend server is running.".

Local Open Scope eff_scope.

(** [fetchBooks] (lines 47-59). *)
Definition fetchBooks : Eff State unit :=
  set (setError None) ;;
  response <- await GetBooks ;;
  match response with
  | Fulfilled _ data => set (setBooks data)
  | Rejected e => set (setError (Some (message_or fetch_error_fallback e))) ;; set (setBooks [])
  end ;;
  set (setLoading false).

(** [handleAddBook] (lines 61-79), for the state [s] of its render: the
    form is posted, then reset with the year of the moment of the reset. *)
Definition handleAddBook (s : State) : Eff State unit :=
  o <- await (PostBook (newBook s)) ;;
  match o with
  | Fulfilled _ _ =>
      t <- now ;;
      set (setNewBook (blankBook (getFullYear t))) ;;
      set (setShowAddForm false) ;;
      spawn fetchBooks
  | Rejected _ => Ret tt
  end.

(** [handleUpdateBook] (lines 81-92): [!editingBook?.bookId] also stops
    on the id 0. *)
Definition handleUpdateBook (s : State) : Eff State unit :=
  match editingBook s with
  | Some b =>
      match bookId b with
      | Some id =>
          if (id =? 0)%Z then Ret tt
          else
            o <- await (PutBook id b) ;;
            match o with
            | Fulfilled _ _ => set (setEditingBook None) ;; spawn fetchBooks
            | Rejected _ => Ret tt
            end
      | None => Ret tt
      end
  | None => Ret tt
  end.

(** [handleDeleteBook] (lines 94-103); [confirmed] is what
    [window.confirm] returned. *)
Definition handleDeleteBook (confirmed : bool) (bookId : Z) : Eff State unit :=
  if confirmed then
    o <- await (DeleteBook bookId) ;;
    match o with
    | Fulfilled _ _ => spawn fetchBooks
    | Rejected _ => Ret tt
    end
  else Ret tt.

(** The URL of [handleSearch]'s request (line 112). *)
Definition search_url (term : string) : string := "/books/search?keyword=" +:+ encodeURIComponent term.

(** [handleSearch] (lines 105-117).  [encodeURIComponent] and the
    server's decoding of the query cancel out: the server reads back
    [searchTerm]. *)
Definition handleSearch (s : State) : Eff State unit :=
  if negb (str_truthy (trim (searchTerm s))) then spawn fetchBooks
  else
    response <- await (SearchBooks (searchTerm s)) ;;
    match response with
    | Fulfilled _ data => set (setBooks data)
    | Rejected _ => Ret tt
    end.

Local Close Scope eff_scope.

(** [filteredBooks] (lines 119-124). *)
Definition book_matches (term : string) (b : BookType) : bool :=
  includes (toLowerCase (title b)) (toLowerCase term) ||
  includes (toLowerCase (author b)) (toLowerCase term) ||
  includes (toLowerCase (genre b)) (toLowerCase term).

Definition filteredBooks (s : State) : list BookType :=
  List.filter (book_matches (searchTerm s)) (books s).

(** ** The forms' [onChange] handlers *)

(** The inputs of a book form, with the text typed in. *)
Inductive BookField :=
  | FTitle (v : string)
  | FAuthor (v : string)
  | FGenre (v : string)
  | FIsbn (v : string)
  | FYear (v : string)
  | FCopies (v : string).

(** The add form (lines 189, 198, 207, 216, 226 and 237-244): the copies
    input sets both [totalCopies] and [availableCopies]. *)
Definition new_book_field (f : BookField) (b : BookType) : BookType :=
  match f with
  | FTitle v => mkBook (bookId b) v (author b) (genre b) (isbn b) (yearPublished b) (availableCopies b) (totalCopies b)
  | FAuthor v => mkBook (bookId b) (title b) v (genre b) (isbn b) (yearPublished b) (availableCopies b) (totalCopies b)
  | FGenre v => mkBook (bookId b) (title b) (author b) v (isbn b) (yearPublished b) (availableCopies b) (totalCopies b)
  | FIsbn v => mkBook (bookId b) (title b) (author b) (genre b) v (yearPublished b) (availableCopies b) (totalCopies b)
  | FYear v => mkBook (bookId b) (title b) (author b) (genre b) (isbn b) (parseInt v) (availableCopies b) (totalCopies b)
  | FCopies v =>
      let copies := parseInt v in
      mkBook (bookId b) (title b) (author b) (genre b) (isbn b) (yearPublished b) copies copies
  end.

(** The edit form (lines 273, 282, 291, 300, 310 and 321): the copies
    input sets [totalCopies] only. *)
Definition editing_book_field (f : BookField) (b : BookType) : BookType :=
  match f with
  | FCopies v => mkBook (bookId b) (title b) (author b) (genre b) (isbn b) (yearPublished b) (availableCopies b) (parseInt v)
  | _ => new_book_field f b
  end.

(** [setNewBook({ ...newBook, ... })] with the [newBook] of the render. *)
Definition onNewBookChange (f : BookField) (s : State) : Eff State unit :=
  set (setNewBook (new_book_field f (newBook s))).

Definition onEditingBookChange (f : BookField) (s : State) : Eff State unit :=
  match editingBook s with
  | Some b => set (setEditingBook (Some (editing_book_field f b)))
  | None => Ret tt
  end.

(** The card's buttons (lines 347 and 350). *)
Definition onEditClick (b : BookType) : Eff State unit := set (setEditingBook (Some b)).

Definition onDeleteClick (confirmed : bool) (b : BookType) : Eff State unit :=
  match bookId b with
  | Some id => if (id =? 0)%Z then Ret tt else handleDeleteBook confirmed id
  | None => Ret tt
  end.

(** The search box (lines 149-158): [onChange] sets the term;
    [onKeyPress] with Enter, like the button, starts the [handleSearch]
    of the render. *)
Definition onSearchChange (v : string) : Eff State unit := set (setSearchTerm v).

Definition onSearchKeyPress (key : string) (s : State) : Eff State unit :=
  if String.eqb key "Enter" then handleSearch s else Ret tt.

(** The other buttons: Add Book (line 141), the error card's Retry
    (line 169), and the Cancel buttons of the two forms (lines 251 and
    328). *)
Definition onAddClick : Eff State unit := set (setShowAddForm true).
Definition onRetryClick : Eff State unit := fetchBooks.
Definition onCancelAdd : Eff State unit := set (setShowAddForm false).
Definition onCancelEdit : Eff State unit := set (setEditingBook None).

(** Every event handler of the page, for the state of its render. *)
Inductive UiEvent :=
  | ClickAdd | ClickRetry | CancelAdd | CancelEdit
  | SubmitAdd | SubmitUpdate | ClickSearch
  | ChangeNew (f : BookField) | ChangeEdit (f : BookField)
  | ClickEdit (b : BookType) | ClickDelete (confirmed : bool) (b : BookType)
  | ChangeSearch (v : string) | KeyPress (key : string).

Definition handler (e : UiEvent) (s : State) : Eff State unit :=
  match e with
  | ClickAdd => onAddClick
  | ClickRetry => onRetryClick
  | CancelAdd => onCancelAdd
  | CancelEdit => onCancelEdit
  | SubmitAdd => handleAddBook s
  | SubmitUpdate => handleUpdateBook s
  | ClickSearch => handleSearch s
  | ChangeNew f => onNewBookChange f s
  | ChangeEdit f => onEditingBookChange f s
  | ClickEdit b => onEditClick b
  | ClickDelete c b => onDeleteClick c b
  | ChangeSearch v => onSearchChange v
  | KeyPress k => onSearchKeyPress k s
  end.

(** ** What the component shows (lines 126-389) *)

Record BookCard := mkBookCard {
  card_key : option Z;
  card_title : string;
  card_author : string;
  card_genre : string;
  card_isbn : string;
  card_year : num;
  card_badge : UiVariant;
  card_available : num;
  card_total : num }.

Definition render_card (b : BookType) : BookCard :=
  mkBookCard (bookId b) (title b) (author b) (genre b) (isbn b) (yearPublished b)
    (if num_gt (availableCopies b) 0 then default else destructive)
    (availableCopies b) (totalCopies b).

Inductive View :=
  | Spinner
  | Page (error_banner : option string) (add_form : option BookType) (edit_form : option BookType)
         (cards : list BookCard) (empty_message : bool).

Definition render (s : State) : View :=
  if loading s then Spinner
  else Page (str_guard (error s))
         (if showAddForm s then Some (newBook s) else None)
         (editingBook s)
         (render_card <$> filteredBooks s)
         (bool_decide (filteredBooks s = [])).

End BookManagement.

(** ** Lemmas on the component *)

Module BookFacts.
Import BookManagement.

(** With an empty search box, the page lists every book it holds. *)
Lemma filteredBooks_blank s : searchTerm s = "" -> filteredBooks s = books s.
Proof.
  intros Hs. unfold filteredBooks. rewrite Hs. apply filter_all. intros b.
  unfold book_matches. by rewrite !includes_empty.
Qed.

(** The client's filter on a book the service serves is the service's
    search test on the record. *)
Lemma book_matches_json term id b :
  book_matches term (book_json id b) =
    matches term (b_title b) || matches term (b_author b) || matches term (b_genre b).
Proof. reflexivity. Qed.

(** Filtering the full list of books in the client shows exactly what
    the service's search for the same term returns (spec.md section
    4.1: a case-insensitive substring match on title, author or
    genre). *)
Theorem filter_list_books_search term st :
  List.filter (book_matches term) (list_books st) = search_books term st.
Proof.
  unfold list_books, search_books. apply filter_fmap_comm. intros [id b]. apply book_matches_json.
Qed.

(** Filtering the service's search result again by the same term, as
    the component does after [handleSearch], changes nothing. *)
Corollary filter_search_books term st :
  List.filter (book_matches term) (search_books term st) = search_books term st.
Proof. rewrite <- filter_list_books_search. apply filter_idem. Qed.

(** (C30) The add form's copies input: the book it posts is accepted
    exactly when the text reads as a positive integer [n], and then it
    has [n] copies, all available. *)
Lemma new_book_copies b v y :
  yearPublished b = Int y ->
  book_of_json (new_book_field (FCopies v) b) =
    match parseInt v with
    | Int n => if (0 <? n)%Z then Some (mkBookRec (title b) (author b) (genre b) (isbn b) y n n) else None
    | NaN => None
    end.
Proof.
  intros Hy. unfold book_of_json. simpl. rewrite Hy. destruct (parseInt v) as [n|]; [|done].
  zcase; simpl; first [done | lia].
Qed.

Section Served.
Context `{DateCodec} (cfg : Config).
#[local] Instance book_backend : Backend := service cfg.

(** [fetchBooks] against the service: one request, the error cleared,
    the full list shown, loading over. *)
Lemma fetchBooks_service (w : World Store State) :
  run fetchBooks w =
    (tt, mkWorld (setLoading false (setBooks (list_books (w_srv w)) (setError None (w_state w))))
                 (w_srv w) (w_clock w) (w_alerts w) (Nat.succ (w_sent w))).
Proof.
  unfold fetchBooks. cbn -[exchange].
  erewrite (@exchange_fulfilled book_backend State); reflexivity.
Qed.

(** (C11) After [fetchBooks] against the service, the cards the component
    shows are the service's search for the term in the search box. *)
Theorem fetchBooks_shows_search (w : World Store State) :
  let '(_, w') := run fetchBooks w in
  loading (w_state w') = false /\
  filteredBooks (w_state w') = search_books (searchTerm (w_state w)) (w_srv w').
Proof. rewrite fetchBooks_service. split; [done|]. apply filter_list_books_search. Qed.

(** [handleSearch] with a term that is not blank: one request, and
    the list is the service's search result, which the component's own
    filter then leaves as it is. *)
Theorem handleSearch_service s (w : World Store State) :
  str_truthy (trim (searchTerm s)) = true ->
  run (handleSearch s) w =
    (tt, mkWorld (setBooks (search_books (searchTerm s) (w_srv w)) (w_state w))
                 (w_srv w) (w_clock w) (w_alerts w) (Nat.succ (w_sent w))) /\
  List.filter (book_matches (searchTerm s)) (search_books (searchTerm s) (w_srv w)) =
    search_books (searchTerm s) (w_srv w).
Proof.
  intros Ht. split; [|apply filter_search_books].
  unfold handleSearch. rewrite Ht. cbn -[exchange].
  erewrite (@exchange_fulfilled book_backend State); reflexivity.
Qed.
(** Two searches from the search box: Enter on the term the box shows,
    whose request is sent; the user types [t2] and presses Enter; that
    search is answered and shown; then the reply to the first arrives. *)
Definition search_twice (t2 : string) : list (event State) :=
  [Fire (onSearchKeyPress "Enter"); Step 0;
   Fire (fun _ => onSearchChange t2); Step 1; Step 1;
   Fire (onSearchKeyPress "Enter"); Step 1; Step 1; Step 1; Step 1;
   Step 0; Step 0; Step 0].

(** (C7) [handleSearch] neither cancels nor orders its requests: when
    two searches are in flight and the earlier one is answered last, the
    page ends with the box showing the later term and the list holding
    the earlier term's result, both requests answered. *)
Theorem search_last_reply_wins (t2 : string) (w : World Store State) :
  str_truthy (trim (searchTerm (w_state w))) = true -> str_truthy (trim t2) = true ->
  esteps (search_twice t2) (mkPool w []) =
    Some (mkPool (mkWorld (setBooks (search_books (searchTerm (w_state w)) (w_srv w))
                                    (setSearchTerm t2 (w_state w)))
                          (w_srv w) (w_clock w) (w_alerts w) (S (S (w_sent w)))) []).
Proof.
  intros H1 H2. destruct w as [s st c a n]. simpl in H1 |- *.
  unfold search_twice, onSearchKeyPress, handleSearch.
  repeat (cbn -[exchange search_books str_truthy trim];
          first [rewrite H1 | rewrite H2 |
                 erewrite (@exchange_fulfilled book_backend State) by reflexivity]).
  reflexivity.
Qed.
End Served.

(** ** The shape of the books the page holds *)

(** A book as the service sends it: a stored record under its id. *)
Definition served_book (b : BookType) : Prop := exists id r, b = book_json id r.

(** What the service sends for the requests that return books. *)
Definition book_lists_ok : ReplyProp := fun R r =>
  match r in Request R return R -> Prop with
  | GetBooks => Forall served_book
  | GetAvailableBooks => Forall served_book
  | SearchBooks _ => Forall served_book
  | _ => fun _ => True
  end.

Definition book_list_inv (s : State) : Prop := Forall served_book (books s).

Lemma served_book_of id r : served_book (book_json id r).
Proof. by exists id, r. Qed.

Lemma served_books_of (l : list (Z * BookRec)) :
  Forall served_book ((fun '(id, b) => book_json id b) <$> l).
Proof. apply Forall_fmap, Forall_forall. intros [id r] _. apply served_book_of. Qed.

Lemma service_book_lists `{DateCodec} cfg : @serves_ok (service cfg) book_lists_ok.
Proof.
  intros R now r st code d st' Hs. destruct r; simpl in Hs |- *; try done;
    injection Hs as _ <- _; apply served_books_of.
Qed.

(** Every handler of the page, on every path where the books it
    receives have the service's shape, keeps the books it holds so. *)
Lemma fetchBooks_on : upds_ok_on book_lists_ok book_list_inv fetchBooks.
Proof. unfold fetchBooks. upds_on_solve. Qed.

Lemma handler_on e s : upds_ok_on book_lists_ok book_list_inv (handler e s).
Proof.
  destruct e; simpl;
    unfold onAddClick, onRetryClick, onCancelAdd, onCancelEdit, handleAddBook, handleUpdateBook,
      handleSearch, onNewBookChange, onEditingBookChange, onEditClick, onDeleteClick, handleDeleteBook,
      onSearchChange, onSearchKeyPress, handleSearch;
    upds_on_solve; apply fetchBooks_on.
Qed.

(** (C15) The keyword the service reads from the URL of [handleSearch]'s
    request is the search term, whatever the user typed: [&], [=], [+],
    [%], [#], spaces and accented letters included.  This is what makes
    the request [SearchBooks term] of the model the request the code
    sends. *)
Theorem search_url_roundtrip term : query_param (search_url term) "keyword" = Some term.
Proof.
  destruct (no_char_encode term) as [Ha _].
  exact (query_param_single "/books/search" "keyword" _ term eq_refl eq_refl Ha (url_decode_encode term)).
Qed.

(** (C24) A backend that does not answer GET /books within the [api]
    instance's 10 s timeout is not reported as unavailable: the page
    shows axios' own message, the list empty, after one request (no
    re-send); a backend that refuses the connection gets the
    interceptor's "Backend server is not available" message.  spec.md
    section 7 puts timeouts with the unreachable backend. *)
Theorem fetchBooks_timeout B (w : World (@srv_state B) State) :
  let wt := snd (@run (stalled B) _ _ fetchBooks w) in
  let wr := snd (@run (refusing B) _ _ fetchBooks w) in
  error (w_state wt) = Some "timeout of 10000ms exceeded" /\ books (w_state wt) = [] /\
  loading (w_state wt) = false /\ w_sent wt = S (w_sent w) /\
  error (w_state wr) = Some (message backend_unavailable) /\ w_sent wr = S (w_sent w).
Proof.
  unfold fetchBooks. cbn -[api_exchange]. rewrite api_exchange_stalled, api_exchange_refusing.
  cbn. rewrite !Nat.add_1_r. split_and!; reflexivity.
Qed.

Section Failures.
Context `{Backend}.

(** A backend where every request through [api] fails: refused, timed
    out, or answered with an error status. *)
Definition all_rejected : Prop :=
  forall R now (r : Request R) st, exists e, (api_exchange now r st).1.1 = Rejected e.

(** (C25) The add, update and delete handlers of the book page swallow a
    failed request: the page's state, its error banner included, and the
    alerts are as before, so the user is told nothing (the code only
    logs to the console).  spec.md section 7 reports every failure to
    the caller, never as a silent no-op. *)
Theorem silent_failures (w : World srv_state State) s confirmed id :
  all_rejected ->
  let unchanged m := w_state (snd (run m w)) = w_state w /\ w_alerts (snd (run m w)) = w_alerts w in
  unchanged (handleAddBook s) /\ unchanged (handleUpdateBook s) /\ unchanged (handleDeleteBook confirmed id).
Proof.
  intros Hrej unchanged.
  assert (Haw : forall R (r : Request R) k, (forall e, k (Rejected e) = Ret tt) -> unchanged (Await ApiClient r k)).
  { intros R r k Hk. destruct (Hrej R (w_clock w) r (w_srv w)) as [e He].
    apply (await_rejected_silent ApiClient r k w e); [by rewrite exchange_api_outcome|]. exact (Hk e). }
  unfold handleAddBook, handleUpdateBook, handleDeleteBook. cbn [bind await]. split; [|split].
  - by apply Haw.
  - destruct (editingBook s) as [b|]; [|done]. destruct (bookId b) as [i|]; [|done].
    destruct (i =? 0)%Z; [done|]. by apply Haw.
  - destruct confirmed; [|done]. by apply Haw.
Qed.

End Failures.

Section Edit.
Context `{Backend}.

(** The edit form's inputs applied in turn to the book being edited. *)
Definition edit_inputs (fs : list BookField) (b : BookType) : BookType :=
  fold_left (fun b f => editing_book_field f b) fs b.

Lemma edit_inputs_keep fs b :
  bookId (edit_inputs fs b) = bookId b /\ availableCopies (edit_inputs fs b) = availableCopies b.
Proof.
  revert b. induction fs as [|f fs IH]; intros b; [done|].
  simpl. destruct (IH (editing_book_field f b)) as [-> ->]. by destruct f.
Qed.

Lemma run_edit_inputs fs (w : World srv_state State) b :
  editingBook (w_state w) = Some b ->
  editingBook (w_state (run_events handler (ChangeEdit <$> fs) w)) = Some (edit_inputs fs b).
Proof.
  revert w b. induction fs as [|f fs IH]; intros w b Hb; [done|].
  simpl. unfold onEditingBookChange. rewrite Hb. by apply IH.
Qed.

(** (C4) The edit form sends back the [availableCopies] the book was
    loaded with: after Edit on a card of a book with an id and any inputs
    of the edit form ending with Total Copies, Update sends
    [PUT /books/{id}] with the total typed and the loaded available
    count (lines 81-92 and 321).  Lowering the total below the copies
    available puts a body with more copies available than in total on
    the wire, against the invariant of spec.md section 3. *)
Theorem edit_copies_overflow (w : World srv_state State) b id a fs v n :
  bookId b = Some id -> id <> 0%Z -> availableCopies b = Int a -> parseInt v = Int n ->
  let w' := run_events handler (ClickEdit b :: (ChangeEdit <$> fs) ++ [ChangeEdit (FCopies v)]) w in
  exists b' k, handleUpdateBook (w_state w') = Await ApiClient (PutBook id b') k /\
    bookId b' = Some id /\ availableCopies b' = Int a /\ totalCopies b' = Int n.
Proof.
  intros Hid H0 Ha Hn w'. subst w'.
  cbn [run_events]. rewrite run_events_app.
  pose proof (run_edit_inputs fs (snd (run (handler (ClickEdit b) (w_state w)) w)) b eq_refl) as He.
  remember (run_events handler (ChangeEdit <$> fs) (snd (run (handler (ClickEdit b) (w_state w)) w))) as w1.
  destruct (edit_inputs_keep fs b) as [Hi Hav]. cbn [run_events handler]. unfold onEditingBookChange. rewrite He.
  unfold handleUpdateBook. cbn -[edit_inputs]. rewrite Hi, Hid. rewrite (proj2 (Z.eqb_neq id 0) H0).
  eexists _, _. split; [reflexivity|]. cbn -[edit_inputs]. by rewrite ?Hi, ?Hav, ?Ha, ?Hn.
Qed.
End Edit.

Section Page.
Context `{DateCodec} (cfg : Config).
#[local] Instance page_backend : Backend := service cfg.

(** The worlds of a mounted book page (Runtime's [page_reach]): its
    mount effect [fetchBooks] and every handler of [handler]. *)
Definition books_page : World Store State -> Prop := page_reach initial fetchBooks handler.

(** (C14) Whatever the page did and whatever happened to the store, the
    books the page holds are the service's Book JSON: each a stored record
    under its id, with integer copies; so every card it shows has its id
    as React key and as the id its Delete button sends. *)
Theorem page_books_served w :
  books_page w ->
  Forall served_book (books (w_state w)) /\ Forall (fun b => is_Some (bookId b)) (filteredBooks (w_state w)).
Proof.
  intros Hr.
  assert (Hinv : book_list_inv (w_state w)).
  { refine (page_reach_preserves initial fetchBooks handler book_lists_ok book_list_inv
              (service_book_lists cfg) _ fetchBooks_on handler_on w Hr).
    intros now. by apply Forall_nil. }
  split; [exact Hinv|]. unfold filteredBooks. apply List.Forall_forall. intros b [Hb _]%filter_In.
  unfold book_list_inv in Hinv. rewrite List.Forall_forall in Hinv. destruct (Hinv b Hb) as (id & r & ->). by eexists.
Qed.

End Page.

End BookFacts.

(** ** The edit form and the copies on loan *)

Module BookCounterexamples.
Import BookManagement ServiceWitnesses.

(** A book of two copies (id 1), an active member (id 1), and one copy
    lent to that member (loan 1). *)
Definition lent_store : Store :=
  snd (serve_store default_config 0 (PostBorrow "1" "1")
    (snd (serve_store default_config 0 (PostMember demo_member)
      (snd (serve_store default_config 0 (PostBook two_copies) empty_store))))).

Lemma lent_store_reachable : reachable default_config lent_store.
Proof. repeat (apply reach_step; [|reflexivity]). apply reach_init. Qed.

(** The consequence of [edit_copies_overflow] for the modelled service,
    which stores a PUT's book as sent: with one of two copies lent,
    editing the total to 1 is accepted, and once the loan is returned the
    book has more copies available than it has in total. *)
Lemma edit_then_return_overflow :
  reachable default_config lent_store /\
  exists b st1 st2 b2,
    Service.books lent_store !! 1 = Some b /\
    serve_store default_config 0 (PutBook 1 (editing_book_field (FCopies "1") (book_json 1 b))) lent_store
      = (Response 200 tt, st1) /\
    serve_store default_config 0 (PostReturn 1) st1 = (Response 200 tt, st2) /\
    Service.books st2 !! 1 = Some b2 /\ (b_total b2 < b_available b2)%Z.
Proof.
  split; [apply lent_store_reachable|].
  do 4 eexists. split; [vm_compute; reflexivity|]. split; [vm_compute; reflexivity|].
  split; [vm_compute; reflexivity|]. split; [vm_compute; reflexivity|]. vm_compute. reflexivity.
Qed.

End BookCounterexamples.

Module BookWitnesses.
Import BookManagement BookFacts ServiceWitnesses.

Definition dune_search : State := setSearchTerm " dune" (initial 0).

Lemma handleSearch_service_witness :
  str_truthy (trim (searchTerm dune_search)) = true /\
  @run (service default_config) _ _ (handleSearch dune_search) (mkWorld (Srv := Store) dune_search demo_store 0 [] 0) =
    (tt, mkWorld (setBooks (search_books " dune" demo_store) dune_search) demo_store 0 [] 1) /\
  List.filter (book_matches " dune") (search_books " dune" demo_store) = search_books " dune" demo_store.
Proof.
  split; [reflexivity|].
  apply (handleSearch_service default_config dune_search (mkWorld (Srv := Store) dune_search demo_store 0 [] 0)).
  reflexivity.
Defined.


(** Dune, two copies, both on the shelf: the user renames it and types a
    total of 1; the PUT carries 2 copies available out of 1. *)
Definition dune_two : BookType :=
  mkBook (Some 1) "Dune" "Frank Herbert" "Science Fiction" "9780441013593" (Int 1965) (Int 2) (Int 2).

Lemma edit_copies_overflow_witness :
  bookId dune_two = Some 1 /\ 1%Z <> 0%Z /\ availableCopies dune_two = Int 2 /\ parseInt "1" = Int 1 /\
  let w' := @run_events (service default_config) _ _ handler
              (ClickEdit dune_two :: (ChangeEdit <$> [FTitle "Dune Messiah"]) ++ [ChangeEdit (FCopies "1")])
              (mkWorld (Srv := Store) (initial 0) demo_store 0 [] 0) in
  exists b' k, handleUpdateBook (w_state w') = Await ApiClient (PutBook 1 b') k /\
    bookId b' = Some 1 /\ availableCopies b' = Int 2 /\ totalCopies b' = Int 1.
Proof.
  assert (Hn : parseInt "1" = Int 1) by (vm_compute; reflexivity).
  split; [reflexivity|]. split; [lia|]. split; [reflexivity|]. split; [exact Hn|].
  pose proof (@edit_copies_overflow (service default_config) (mkWorld (Srv := Store) (initial 0) demo_store 0 [] 0)
                dune_two 1 2 [FTitle "Dune Messiah"] "1" 1 eq_refl ltac:(lia) eq_refl Hn) as X.
  exact X.
Defined.

Lemma new_book_copies_witness :
  yearPublished (blankBook 2024) = Int 2024 /\
  book_of_json (new_book_field (FCopies "3") (blankBook 2024)) = Some (mkBookRec "" "" "" "" 2024 3 3).
Proof.
  split; [reflexivity|]. rewrite (new_book_copies (blankBook 2024) "3" 2024); reflexivity.
Defined.

(** Dune (by Frank Herbert) and Frankenstein. *)
Definition frankenstein : BookType :=
  mkBook None "Frankenstein" "Mary Shelley" "Gothic" "9780486282114" (Int 1818) (Int 1) (Int 1).

Definition race_store : Store :=
  snd (serve_store default_config 0 (PostBook frankenstein)
    (snd (serve_store default_config 0 (PostBook demo_book) empty_store))).

Definition race_world : World Store State :=
  mkWorld (setSearchTerm "Dune" (initial 0)) race_store 0 [] 0.

(** "Dune" answered after "Frank": the box shows "Frank", the list holds
    Dune alone, while the service's search for "Frank" has both books. *)
Lemma search_last_reply_wins_witness :
  str_truthy (trim (searchTerm (w_state race_world))) = true /\ str_truthy (trim "Frank") = true /\
  @esteps (service default_config) _ (search_twice "Frank") (mkPool race_world []) =
    Some (mkPool (mkWorld (setBooks (search_books "Dune" race_store) (setSearchTerm "Frank" (w_state race_world)))
                          race_store 0 [] 2) []) /\
  filteredBooks (setBooks (search_books "Dune" race_store) (setSearchTerm "Frank" (w_state race_world)))
    <> search_books "Frank" race_store.
Proof.
  assert (H1 : str_truthy (trim (searchTerm (w_state race_world))) = true) by reflexivity.
  assert (H2 : str_truthy (trim "Frank") = true) by reflexivity.
  split; [exact H1|]. split; [exact H2|]. split.
  - pose proof (search_last_reply_wins default_config "Frank" race_world H1 H2) as X. exact X.
  - vm_compute. discriminate.
Defined.

(** The page mounted over the demo store, after its mount effect. *)
Definition mounted_page : World Store State :=
  snd (@run (page_backend default_config) _ _ fetchBooks (mkWorld (Srv := Store) (initial 0) demo_store 0 [] 0)).

Lemma page_books_served_witness :
  books_page default_config mounted_page /\
  Forall served_book (books (w_state mounted_page)) /\
  Forall (fun b => is_Some (bookId b)) (filteredBooks (w_state mounted_page)).
Proof.
  assert (Hr : books_page default_config mounted_page).
  { exact (@page_mount (page_backend default_config) _ _ initial fetchBooks handler _
             (@page_init (page_backend default_config) _ _ initial fetchBooks handler 0 demo_store [] 0)). }
  split; [exact Hr|]. pose proof (page_books_served default_config mounted_page Hr) as X. exact X.
Defined.

(** A backend that refuses every connection rejects every request. *)
Lemma silent_failures_witness :
  @all_rejected (refusing (service default_config)) /\
  let w := mkWorld (Srv := Store) (initial 0) demo_store 0 [] 0 in
  let unchanged m := w_state (snd (@run (refusing (service default_config)) _ _ m w)) = w_state w /\
                     w_alerts (snd (@run (refusing (service default_config)) _ _ m w)) = w_alerts w in
  unchanged (handleAddBook (initial 0)) /\ unchanged (handleUpdateBook (initial 0)) /\
  unchanged (handleDeleteBook true 1).
Proof.
  assert (Hr : @all_rejected (refusing (service default_config))).
  { intros R now r st. eexists. rewrite api_exchange_refusing. reflexivity. }
  split; [exact Hr|].
  pose proof (@silent_failures (refusing (service default_config)) (mkWorld (Srv := Store) (initial 0) demo_store 0 [] 0)
                (initial 0) true 1 Hr) as X.
  exact X.
Defined.

End BookWitnesses.
