(* ===== verification/Members.v ===== *)
(** * Members: the MemberManagement component
    (src/src/components/MemberManagement.tsx).

    The same shape as [Books]: the [useState] hooks are the fields of
    [State]; [fetchMembers], [handleAddMember], [handleUpdateMember],
    [handleDeleteMember] and [handleSearch] are [Eff] programs;
    [filteredMembers], [getStatusBadgeVariant] and [render] are what the
    component computes for a state.  [window.confirm] is the user's
    answer, an argument of [handleDeleteMember].  [UiEvent] and
    [handler] list the page's event handlers; [search_url] is the URL of
    the search.  MemberFacts proves the client's filter against the
    service's search and that the page only holds members as the service
    sends them ([page_members_served]). *)

From S2P Require Import Prelude Js Model IsoDate Http Url Runtime Service.

Module MemberManagement.

Record State := mkState {
  members : list Member;
  searchTerm : string;
  showAddForm : bool;
  editingMember : option Member;
  loading : bool;
  newMember : Member;
  error : option string }.

(** The empty add form (lines 29-35 and 62-68). *)
Definition blankMember : Member := mkMember None "" "" "" "" ACTIVE None.

Definition initial : State := mkState [] "" false None true blankMember None.

Definition setMembers v s := mkState v (searchTerm s) (showAddForm s) (editingMember s) (loading s) (newMember s) (error s).
Definition setSearchTerm v s := mkState (members s) v (showAddForm s) (editingMember s) (loading s) (newMember s) (error s).
Definition setShowAddForm v s := mkState (members s) (searchTerm s) v (editingMember s) (loading s) (newMember s) (error s).
Definition setEditingMember v s := mkState (members s) (searchTerm s) (showAddForm s) v (loading s) (newMember s) (error s).
Definition setLoading v s := mkState (members s) (searchTerm s) (showAddForm s) (editingMember s) v (newMember s) (error s).
Definition setNewMember v s := mkState (members s) (searchTerm s) (showAddForm s) (editingMember s) (loading s) v (error s).
Definition setError v s := mkState (members s) (searchTerm s) (showAddForm s) (editingMember s) (loading s) (newMember s) v.

Definition fetch_error_fallback : string :=
  "Failed to fetch members. Please check if the backend server is running.".

Local Open Scope eff_scope.

(** [fetchMembers] (lines 44-56). *)
Definition fetchMembers : Eff State unit :=
  set (setError None) ;;
  response <- await GetMembers ;;
  match response with
  | Fulfilled _ data => set (setMembers data)
  | Rejected e => set (setError (Some (message_or fetch_error_fallback e))) ;; set (setMembers [])
  end ;;
  set (setLoading false).

(** [handleAddMember] (lines 58-74), for the state [s] of its render. *)
Definition handleAddMember (s : State) : Eff State unit :=
  o <- await (PostMember (newMember s)) ;;
  match o with
  | Fulfilled _ _ =>
      set (setNewMember blankMember) ;;
      set (setShowAddForm false) ;;
      spawn fetchMembers
  | Rejected _ => Ret tt
  end.

(** [handleUpdateMember] (lines 76-87): [!editingMember?.memberId] also
    stops on the id 0. *)
Definition handleUpdateMember (s : State) : Eff State unit :=
  match editingMember s with
  | Some m =>
      match memberId m with
      | Some id =>
          if (id =? 0)%Z then Ret tt
          else
            o <- await (PutMember id m) ;;
            match o with
            | Fulfilled _ _ => set (setEditingMember None) ;; spawn fetchMembers
            | Rejected _ => Ret tt
            end
      | None => Ret tt
      end
  | None => Ret tt
  end.

(** [handleDeleteMember] (lines 89-98). *)
Definition handleDeleteMember (confirmed : bool) (memberId : Z) : Eff State unit :=
  if confirmed then
    o <- await (DeleteMember memberId) ;;
    match o with
    | Fulfilled _ _ => spawn fetchMembers
    | Rejected _ => Ret tt
    end
  else Ret tt.

(** The URL of [handleSearch]'s request (line 107). *)
Definition search_url (term : string) : string := "/members/search?name=" +:+ encodeURIComponent term.

(** [handleSearch] (lines 100-112). *)
Definition handleSearch (s : State) : Eff State unit :=
  if negb (str_truthy (trim (searchTerm s))) then spawn fetchMembers
  else
    response <- await (SearchMembers (searchTerm s)) ;;
    match response with
    | Fulfilled _ data => set (setMembers data)
    | Rejected _ => Ret tt
    end.

Local Close Scope eff_scope.

(** [filteredMembers] (lines 114-118). *)
Definition member_matches (term : string) (m : Member) : bool :=
  includes (toLowerCase (name m)) (toLowerCase term) ||
  includes (toLowerCase (email m)) (toLowerCase term).

Definition filteredMembers (s : State) : list Member :=
  List.filter (member_matches (searchTerm s)) (members s).

(** [getStatusBadgeVariant] (lines 120-131); the [default] branch of the
    switch is unreachable for a status of the declared type. *)
Definition getStatusBadgeVariant (st : MembershipStatus) : UiVariant :=
  match st with ACTIVE => default | SUSPENDED => destructive | EXPIRED => secondary end.

(** ** The forms' [onChange] handlers *)

(** The inputs of a member form; the status select of the edit form
    offers the three statuses only (lines 298-300). *)
Inductive MemberField :=
  | FName (v : string)
  | FEmail (v : string)
  | FPhone (v : string)
  | FAddress (v : string)
  | FStatus (v : MembershipStatus).

(** [{ ...member, field: value }] (lines 196-224 and 253-294). *)
Definition member_field (f : MemberField) (m : Member) : Member :=
  match f with
  | FName v => mkMember (memberId m) v (email m) (phone m) (address m) (membershipStatus m) (registrationDate m)
  | FEmail v => mkMember (memberId m) (name m) v (phone m) (address m) (membershipStatus m) (registrationDate m)
  | FPhone v => mkMember (memberId m) (name m) (email m) v (address m) (membershipStatus m) (registrationDate m)
  | FAddress v => mkMember (memberId m) (name m) (email m) (phone m) v (membershipStatus m) (registrationDate m)
  | FStatus v => mkMember (memberId m) (name m) (email m) (phone m) (address m) v (registrationDate m)
  end.

(** The add form has no status input. *)
Definition onNewMemberChange (f : MemberField) (s : State) : Eff State unit :=
  match f with
  | FStatus _ => Ret tt
  | _ => set (setNewMember (member_field f (newMember s)))
  end.

Definition onEditingMemberChange (f : MemberField) (s : State) : Eff State unit :=
  match editingMember s with
  | Some m => set (setEditingMember (Some (member_field f m)))
  | None => Ret tt
  end.

(** The card's buttons (lines 325 and 331). *)
Definition onEditClick (m : Member) : Eff State unit := set (setEditingMember (Some m)).

Definition onDeleteClick (confirmed : bool) (m : Member) : Eff State unit :=
  match memberId m with
  | Some id => if (id =? 0)%Z then Ret tt else handleDeleteMember confirmed id
  | None => Ret tt
  end.

(** The search box (lines 156-165): [onChange] sets the term;
    [onKeyPress] with Enter, like the button, starts the [handleSearch]
    of the render. *)
Definition onSearchChange (v : string) : Eff State unit := set (setSearchTerm v).

Definition onSearchKeyPress (key : string) (s : State) : Eff State unit :=
  if String.eqb key "Enter" then handleSearch s else Ret tt.

(** The other buttons: Add Member (line 148), the error card's Retry
    (line 176), and the Cancel buttons of the two forms (lines 231 and
    306). *)
Definition onAddClick : Eff State unit := set (setShowAddForm true).
Definition onRetryClick : Eff State unit := fetchMembers.
Definition onCancelAdd : Eff State unit := set (setShowAddForm false).
Definition onCancelEdit : Eff State unit := set (setEditingMember None).

(** Every event handler of the page, for the state of its render. *)
Inductive UiEvent :=
  | ClickAdd | ClickRetry | CancelAdd | CancelEdit
  | SubmitAdd | SubmitUpdate | ClickSearch
  | ChangeNew (f : MemberField) | ChangeEdit (f : MemberField)
  | ClickEdit (m : Member) | ClickDelete (confirmed : bool) (m : Member)
  | ChangeSearch (v : string) | KeyPress (key : string).

Definition handler (e : UiEvent) (s : State) : Eff State unit :=
  match e with
  | ClickAdd => onAddClick
  | ClickRetry => onRetryClick
  | CancelAdd => onCancelAdd
  | CancelEdit => onCancelEdit
  | SubmitAdd => handleAddMember s
  | SubmitUpdate => handleUpdateMember s
  | ClickSearch => handleSearch s
  | ChangeNew f => onNewMemberChange f s
  | ChangeEdit f => onEditingMemberChange f s
  | ClickEdit m => onEditClick m
  | ClickDelete c m => onDeleteClick c m
  | ChangeSearch v => onSearchChange v
  | KeyPress k => onSearchKeyPress k s
  end.

(** ** What the component shows (lines 133-371) *)

Section View.
Context `{DateCodec}.

Record MemberCard := mkMemberCard {
  card_key : option Z;
  card_name : string;
  card_email : string;
  card_phone : string;
  card_address : string;
  card_registered : option (option Z);
  card_badge : UiVariant;
  card_badge_text : MembershipStatus }.

(** [{member.registrationDate && <p>{new Date(...)...}</p>}]: shown for a
    non-empty date, as the time value it parses to. *)
Definition render_card (m : Member) : MemberCard :=
  mkMemberCard (memberId m) (name m) (email m) (phone m) (address m)
    (date_parse <$> (str_guard (registrationDate m)))
    (getStatusBadgeVariant (membershipStatus m)) (membershipStatus m).

Inductive View :=
  | Spinner
  | Page (error_banner : option string) (add_form : option Member) (edit_form : option Member)
         (cards : list MemberCard) (empty_message : bool).

Definition render (s : State) : View :=
  if loading s then Spinner
  else Page (str_guard (error s))
         (if showAddForm s then Some (newMember s) else None)
         (editingMember s)
         (render_card <$> filteredMembers s)
         (bool_decide (filteredMembers s = [])).
End View.

End MemberManagement.

(** ** Lemmas on the component *)

Module MemberFacts.
Import MemberManagement.

(** With an empty search box, the page lists every member it holds. *)
Lemma filteredMembers_blank s : searchTerm s = "" -> filteredMembers s = members s.
Proof.
  intros Hs. unfold filteredMembers. rewrite Hs. apply filter_all. intros m.
  unfold member_matches. by rewrite !includes_empty.
Qed.

Section Served.
Context `{DateCodec}.

(** (C21) Filtering the full list of members in the client shows exactly
    what the service's search for the same term returns: the
    case-insensitive match on name or email of spec.md section 4.1. *)
Theorem filter_list_members_search term st :
  List.filter (member_matches term) (list_members st) = search_members term st.
Proof.
  unfold list_members, search_members, list_members_of.
  rewrite (filter_all (fun '(_, m) => true)) by (intros [? ?]; done).
  apply filter_fmap_comm. intros [id m]. reflexivity.
Qed.

Context (cfg : Config).
#[local] Instance member_backend : Backend := service cfg.

(** [fetchMembers] against the service: one request, the error cleared,
    the full list shown, loading over. *)
Lemma fetchMembers_service (w : World Store State) :
  run fetchMembers w =
    (tt, mkWorld (setLoading false (setMembers (list_members (w_srv w)) (setError None (w_state w))))
                 (w_srv w) (w_clock w) (w_alerts w) (Nat.succ (w_sent w))).
Proof. unfold fetchMembers. cbn -[exchange]. erewrite (@exchange_fulfilled member_backend State); reflexivity. Qed.

End Served.

(** The name the service reads from the URL of [handleSearch]'s request
    is the search term, whatever the user typed. *)
Lemma member_search_url_roundtrip term : query_param (search_url term) "name" = Some term.
Proof.
  destruct (no_char_encode term) as [Ha _].
  exact (query_param_single "/members/search" "name" _ term eq_refl eq_refl Ha (url_decode_encode term)).
Qed.

(** ** The shape of the members the page holds *)

Section Page.
Context `{DateCodec} (cfg : Config).
#[local] Instance members_page_backend : Backend := service cfg.

(** A member as the service sends it: with its id and the date it was
    registered, as the service prints dates. *)
Definition served_member (m : Member) : Prop :=
  exists id day, memberId m = Some id /\ registrationDate m = Some (format_day day).

(** What the service sends for the requests that return members. *)
Definition member_lists_ok : ReplyProp := fun R r =>
  match r in Request R return R -> Prop with
  | GetMembers => Forall served_member
  | GetActiveMembers => Forall served_member
  | SearchMembers _ => Forall served_member
  | _ => fun _ => True
  end.

Definition member_list_inv (s : State) : Prop := Forall served_member (members s).

Lemma served_members_of p st : Forall served_member (list_members_of p st).
Proof.
  apply Forall_fmap, Forall_forall. intros [id m] _. simpl. by exists id, (m_registered m).
Qed.

Lemma service_member_lists : serves_ok member_lists_ok.
Proof.
  intros R now r st code d st' Hs. destruct r; simpl in Hs |- *; try done;
    injection Hs as _ <- _; apply served_members_of.
Qed.

(** Every handler of the page keeps the members it holds as the service
    sends them. *)
Lemma fetchMembers_on : upds_ok_on member_lists_ok member_list_inv fetchMembers.
Proof. unfold fetchMembers. upds_on_solve. Qed.

Lemma member_handler_on e s : upds_ok_on member_lists_ok member_list_inv (handler e s).
Proof.
  destruct e; simpl;
    unfold onAddClick, onRetryClick, onCancelAdd, onCancelEdit, handleAddMember, handleUpdateMember,
      handleSearch, onNewMemberChange, onEditingMemberChange, onEditClick, onDeleteClick,
      handleDeleteMember, onSearchChange, onSearchKeyPress, handleSearch;
    upds_on_solve; apply fetchMembers_on.
Qed.

(** The worlds of a mounted member page (Runtime's [page_reach]). *)
Definition members_page : World Store State -> Prop := page_reach (fun _ => initial) fetchMembers handler.

(** (C17) Whatever the member page did and whatever happened to the
    store, the members it holds are as the service sends them: each with
    its id and a registration date the service printed; so every card it
    shows has its id as React key and as the id its Delete button
    sends. *)
Theorem page_members_served w :
  members_page w ->
  Forall served_member (members (w_state w)) /\
  Forall (fun m => is_Some (memberId m)) (filteredMembers (w_state w)).
Proof.
  intros Hr.
  assert (Hinv : member_list_inv (w_state w)).
  { refine (page_reach_preserves (fun _ => initial) fetchMembers handler member_lists_ok member_list_inv
              service_member_lists _ fetchMembers_on member_handler_on w Hr).
    intros _. by apply Forall_nil. }
  split; [exact Hinv|]. unfold filteredMembers. apply List.Forall_forall. intros m [Hm _]%filter_In.
  unfold member_list_inv in Hinv. rewrite List.Forall_forall in Hinv.
  destruct (Hinv m Hm) as (id & day & -> & _). by eexists.
Qed.

End Page.

End MemberFacts.

Module MemberWitnesses.
Import MemberManagement MemberFacts ServiceWitnesses.

(** The member page mounted over the demo store (one member), after its
    mount effect. *)
Definition mounted_members : World Store State :=
  snd (@run (members_page_backend default_config) _ _ fetchMembers
         (mkWorld (Srv := Store) initial demo_store 0 [] 0)).

Lemma page_members_served_witness :
  members_page default_config mounted_members /\
  Forall served_member (members (w_state mounted_members)) /\
  Forall (fun m => is_Some (memberId m)) (filteredMembers (w_state mounted_members)).
Proof.
  assert (Hr : members_page default_config mounted_members).
  { exact (@page_mount (members_page_backend default_config) _ _ (fun _ => initial) fetchMembers handler _
             (@page_init (members_page_backend default_config) _ _ (fun _ => initial) fetchMembers handler
                0 demo_store [] 0)). }
  split; [exact Hr|]. pose proof (page_members_served default_config mounted_members Hr) as X. exact X.
Defined.

End MemberWitnesses.
