(* ===== verification/Dashboard.v ===== *)
(** * Dashboard: the Dashboard component and its MockDataProvider
    (src/src/components/Dashboard.tsx, MockDataProvider.tsx).

    [fetchStats] checks the backend's health first, then reads four lists
    with [Promise.allSettled] and counts them; on an unhealthy backend it
    shows the startup guide and the demo-mode offer of the
    [MockDataProvider].  The provider is a child component: its
    [isLoading] state exists only while it is mounted (while the page
    shows the guide), which is [provider = Some isLoading]; a setter
    called on the unmounted provider does nothing, as React ignores it. *)

From S2P Require Import Prelude Js Model IsoDate Http Runtime Service.

Module DashboardComponent.

Record DashboardStats := mkStats {
  totalBooks : nat;
  availableBooks : nat;
  totalMembers : nat;
  activeTransactions : nat;
  overdueBooks : nat }.

(** [mockStats] (lines 18-24) and the all-zero stats (lines 27-33 and
    77-83). *)
Definition mockStats : DashboardStats := mkStats 10 7 8 5 1.
Definition zeroStats : DashboardStats := mkStats 0 0 0 0 0.

Record State := mkState {
  stats : DashboardStats;
  loading : bool;
  showStartupGuide : bool;
  usingMockData : bool;
  provider : option bool }.

Definition initial : State := mkState zeroStats true false false None.

(** The provider is rendered when the page (not the spinner) is shown
    with the guide: a render that shows it mounts a fresh provider
    ([isLoading] starts [false]) unless one is mounted; a render that
    does not show it unmounts it. *)
Definition mount_provider (s : State) : State :=
  mkState (stats s) (loading s) (showStartupGuide s) (usingMockData s)
    (if negb (loading s) && showStartupGuide s
     then Some (from_option id false (provider s)) else None).

Definition setStats v s := mkState v (loading s) (showStartupGuide s) (usingMockData s) (provider s).
Definition setUsingMockData v s := mkState (stats s) (loading s) (showStartupGuide s) v (provider s).
Definition setLoading v s :=
  mount_provider (mkState (stats s) v (showStartupGuide s) (usingMockData s) (provider s)).
Definition setShowStartupGuide v s :=
  mount_provider (mkState (stats s) (loading s) v (usingMockData s) (provider s)).

(** The provider's [setIsLoading], a no-op once it is unmounted. *)
Definition setProviderLoading (v : bool) (s : State) : State :=
  mkState (stats s) (loading s) (showStartupGuide s) (usingMockData s) (const v <$> provider s).

(** The counts of [fetchStats] (lines 56-70). *)
Definition stats_of (booksData : list BookType) (membersData : list Member)
    (transactionsData overdueData : list BorrowingTransaction) : DashboardStats :=
  mkStats (length booksData)
    (count_if (fun b => num_gt (availableCopies b) 0) booksData)
    (length membersData)
    (count_if (fun t => bool_decide (status t = BORROWED)) transactionsData)
    (length overdueData).

Local Open Scope eff_scope.

(** [fetchStats] (lines 38-87); the [throw] of an unhealthy backend goes
    to the [catch] branch. *)
Definition fetchStats : Eff State unit :=
  set (setLoading true) ;;
  isBackendHealthy <- checkBackendHealth ;;
  (if negb isBackendHealthy then
     set (setShowStartupGuide true) ;;
     set (setStats zeroStats)
   else
     books <- await GetBooks ;;
     members <- await GetMembers ;;
     transactions <- await GetBorrowing ;;
     overdueTransactions <- await GetOverdue ;;
     set (setStats (stats_of (settled_or_empty books) (settled_or_empty members)
                      (settled_or_empty transactions) (settled_or_empty overdueTransactions))) ;;
     set (setShowStartupGuide false) ;;
     set (setUsingMockData false)) ;;
  set (setLoading false).

(** The dashboard's [handleUseMockData] (lines 89-93). *)
Definition handleUseMockData : Eff State unit :=
  set (setStats mockStats) ;;
  set (setUsingMockData true) ;;
  set (setShowStartupGuide false).

(** The provider's [handleUseMockData] (MockDataProvider.tsx lines
    15-21): a second of simulated loading, then the dashboard's handler;
    the last [setIsLoading(false)] reaches an unmounted provider. *)
Definition provider_handleUseMockData : Eff State unit :=
  set (setProviderLoading true) ;;
  Sleep 1000 (Ret tt) ;;
  handleUseMockData ;;
  set (setProviderLoading false).

Local Close Scope eff_scope.

(** ** What the component shows (lines 99-210) *)

Inductive View :=
  | Spinner
  | Page (demo_mode : bool) (guide : bool) (provider_button_disabled : option bool)
         (stats : DashboardStats) (status_text : list string).

Definition render (s : State) : View :=
  if loading s then Spinner
  else Page (usingMockData s) (showStartupGuide s) (provider s) (stats s)
         (if usingMockData s then ["Demo Mode"; "Demo Mode"; "Demo Mode"]
          else ["Active"; "Running"; "Enabled"]).

End DashboardComponent.

(** ** Lemmas on the component *)

Module DashboardFacts.
Import DashboardComponent.

Section Counts.
Context `{DateCodec} (cfg : Config).

Lemma length_list_books st : length (list_books st) = size (Service.books st).
Proof. unfold list_books. by rewrite length_fmap, length_map_to_list. Qed.

Lemma length_list_members st : length (list_members st) = size (Service.members st).
Proof.
  unfold list_members, list_members_of. rewrite length_fmap, filter_all by (intros [? ?]; done).
  apply length_map_to_list.
Qed.

(** The books counted available are the books GET /books/available
    lists. *)
Lemma count_available_books st :
  count_if (fun b => num_gt (availableCopies b) 0) (list_books st) = length (available_books st).
Proof.
  unfold count_if, list_books, available_books. rewrite length_fmap.
  rewrite (filter_fmap_comm _ _ (fun '(_, b) => (0 <? b_available b)%Z)); [by rewrite length_fmap|].
  intros [id b]. reflexivity.
Qed.

Lemma list_loans_status now st :
  (forall id t, loans st !! id = Some t ->
     is_Some (Service.books st !! l_book t) /\ is_Some (Service.members st !! l_member t)) ->
  status <$> list_loans cfg now st = (fun '(_, t) => Lifecycle.classify t now) <$> map_to_list (loans st).
Proof.
  intros Hrefs. unfold list_loans. apply fmap_omap_all.
  intros [id t] Hin%list_elem_of_In%elem_of_map_to_list.
  destruct (Hrefs id t Hin) as [[b Hb] [m Hm]]. unfold tx_json. rewrite Hb, Hm. by eexists.
Qed.

(** The transactions served with a status are the loans [classify] gives
    that status at the time of the request. *)
Lemma count_served_status now st s0 :
  (forall id t, loans st !! id = Some t ->
     is_Some (Service.books st !! l_book t) /\ is_Some (Service.members st !! l_member t)) ->
  count_if (fun t => bool_decide (status t = s0)) (list_loans cfg now st) =
    map_count (fun t => bool_decide (Lifecycle.classify t now = s0)) (loans st).
Proof.
  intros Hrefs.
  transitivity (count_if (fun s => bool_decide (s = s0)) (status <$> list_loans cfg now st));
    [by rewrite count_if_fmap|].
  rewrite list_loans_status by done. unfold map_count. rewrite !count_if_fmap.
  apply count_if_ext. by intros [id t] _.
Qed.

(** The transactions served as [BORROWED] plus those served as overdue
    are the loans not returned. *)
Lemma open_transactions now st :
  (forall id t, loans st !! id = Some t ->
     is_Some (Service.books st !! l_book t) /\ is_Some (Service.members st !! l_member t)) ->
  (count_if (fun t => bool_decide (status t = BORROWED)) (list_loans cfg now st) +
    length (overdue_loans cfg now st) =
   map_count (fun t => bool_decide (l_return t = None)) (loans st))%nat.
Proof.
  intros Hrefs. unfold overdue_loans.
  change (length (List.filter ?p ?l)) with (count_if p l).
  rewrite count_if_or by (intros x _; by destruct (status x)).
  transitivity (count_if (fun s => bool_decide (s = BORROWED) || bool_decide (s = OVERDUE))
                  (status <$> list_loans cfg now st)); [by rewrite count_if_fmap|].
  rewrite list_loans_status by done. unfold map_count. rewrite !count_if_fmap.
  apply count_if_ext. intros [id t] _. simpl. unfold Lifecycle.classify.
  destruct (l_return t); [done|]. by case_match.
Qed.
End Counts.

Section Served.
Context `{DateCodec} (cfg : Config).
#[local] Instance dash_backend : Backend := service cfg.

(** [fetchStats] against the service: the health check and the four
    reads succeed, nothing changes in the store. *)
Lemma fetchStats_run (w : World Store State) :
  run fetchStats w =
    (tt, mkWorld
      (setLoading false (setUsingMockData false (setShowStartupGuide false
        (setStats (stats_of (list_books (w_srv w)) (list_members (w_srv w))
                     (list_loans cfg (w_clock w) (w_srv w)) (overdue_loans cfg (w_clock w) (w_srv w)))
          (setLoading true (w_state w))))))
      (w_srv w) (w_clock w) (w_alerts w) (5 + w_sent w)).
Proof.
  unfold fetchStats. cbn -[exchange]. unfold exchange at 1. cbn -[exchange].
  repeat (erewrite (@exchange_fulfilled dash_backend State); [|reflexivity|reflexivity]; cbn -[exchange]).
  reflexivity.
Qed.

(** (C1) Against a well-formed store, [fetchStats] shows the store's
    numbers: every book and member, the books the borrow form offers as
    available, as active the loans [classify] finds [BORROWED] and as
    overdue those it finds [OVERDUE] at the time of the requests, which
    together are exactly the loans not returned; the startup guide and
    demo mode are off. *)
Theorem fetchStats_service (w : World Store State) :
  store_wf cfg (w_srv w) ->
  let '(_, w') := run fetchStats w in
  let st := w_srv w in
  w_srv w' = st /\ loading (w_state w') = false /\ showStartupGuide (w_state w') = false /\
  usingMockData (w_state w') = false /\
  totalBooks (stats (w_state w')) = size (Service.books st) /\
  availableBooks (stats (w_state w')) = length (available_books st) /\
  totalMembers (stats (w_state w')) = size (Service.members st) /\
  activeTransactions (stats (w_state w')) =
    map_count (fun t => bool_decide (Lifecycle.classify t (w_clock w) = BORROWED)) (loans st) /\
  overdueBooks (stats (w_state w')) =
    map_count (fun t => bool_decide (Lifecycle.classify t (w_clock w) = OVERDUE)) (loans st) /\
  (activeTransactions (stats (w_state w')) + overdueBooks (stats (w_state w')) =
     map_count (fun t => bool_decide (l_return t = None)) (loans st))%nat.
Proof.
  intros Hwf. pose proof (wf_refs _ _ Hwf) as Hrefs. rewrite fetchStats_run. cbn.
  rewrite length_list_books, count_available_books, length_list_members.
  do 7 (split; [done|]). split; [by apply count_served_status|].
  split; [unfold overdue_loans; by apply count_served_status|]. by apply open_transactions.
Qed.
End Served.

Section AnyBackend.
Context `{Backend}.

(** (C23) With a backend whose health check fails, [fetchStats] sends that
    one request, shows zero stats and the startup guide, and mounts a
    fresh demo-mode offer. *)
Theorem fetchStats_unhealthy (w : World srv_state State) reply s' :
  serve (w_clock w) GetHealth (w_srv w) = (reply, s') -> health_of (settle reply) = false ->
  run fetchStats w =
    (tt, mkWorld (mkState zeroStats false true (usingMockData (w_state w)) (Some false))
                 s' (w_clock w) (w_alerts w) (Nat.succ (w_sent w))).
Proof.
  intros Hs Hh. unfold fetchStats. cbn -[exchange]. unfold exchange. cbn -[health_of settle].
  rewrite Hs. cbn -[health_of settle]. rewrite Hh. reflexivity.
Qed.

(** (C31) The demo-mode button: after a second of loading the dashboard
    shows the mock stats in demo mode and hides the guide, which
    unmounts the provider, so the provider's own last update is lost. *)
Theorem provider_handleUseMockData_run (w : World srv_state State) :
  run provider_handleUseMockData w =
    (tt, mkWorld (mkState mockStats (loading (w_state w)) false true None)
                 (w_srv w) (w_clock w + 1000)%Z (w_alerts w) (w_sent w)).
Proof. cbn. destruct (w_state w) as [st [|] g u p]; reflexivity. Qed.
End AnyBackend.

End DashboardFacts.

Module DashboardWitnesses.
Import DashboardComponent DashboardFacts ServiceWitnesses.

Definition demo_dash_world : World Store State := mkWorld (Srv := Store) initial demo_store 0 [] 0.

Lemma fetchStats_service_witness :
  store_wf default_config (w_srv demo_dash_world) /\
  let '(_, w') := @run (dash_backend default_config) _ _ fetchStats demo_dash_world in
  let st := w_srv demo_dash_world in
  w_srv w' = st /\ loading (w_state w') = false /\ showStartupGuide (w_state w') = false /\
  usingMockData (w_state w') = false /\
  totalBooks (stats (w_state w')) = size (Service.books st) /\
  availableBooks (stats (w_state w')) = length (available_books st) /\
  totalMembers (stats (w_state w')) = size (Service.members st) /\
  activeTransactions (stats (w_state w')) =
    map_count (fun t => bool_decide (Lifecycle.classify t (w_clock demo_dash_world) = BORROWED)) (loans st) /\
  overdueBooks (stats (w_state w')) =
    map_count (fun t => bool_decide (Lifecycle.classify t (w_clock demo_dash_world) = OVERDUE)) (loans st) /\
  (activeTransactions (stats (w_state w')) + overdueBooks (stats (w_state w')) =
     map_count (fun t => bool_decide (l_return t = None)) (loans st))%nat.
Proof.
  assert (Hwf : store_wf default_config (w_srv demo_dash_world)).
  { apply ServiceTheorems.reachable_store_wf. change (w_srv demo_dash_world) with demo_store. unfold demo_store.
    apply reach_step; [apply reach_step; [apply reach_init | reflexivity] | reflexivity]. }
  split; [exact Hwf|]. pose proof (fetchStats_service default_config demo_dash_world Hwf) as X. exact X.
Defined.


Lemma fetchStats_unhealthy_witness :
  @serve HttpWitnesses.flaky unit 0 GetHealth 0%nat = (Response 500 tt, 1%nat) /\
  health_of (settle (Response 500 tt)) = false /\
  @run HttpWitnesses.flaky _ _ fetchStats (mkWorld (Srv := nat) initial 0%nat 0 [] 0) =
    (tt, mkWorld (mkState zeroStats false true false (Some false)) 1%nat 0 [] 1).
Proof.
  split; [reflexivity|]. split; [reflexivity|].
  apply (@fetchStats_unhealthy HttpWitnesses.flaky (mkWorld (Srv := nat) initial 0%nat 0 [] 0) (Response 500 tt) 1%nat);
    reflexivity.
Defined.

End DashboardWitnesses.
