(* ===== verification/Connection.v ===== *)
(** * Connection: the ConnectionStatus component
    (src/src/components/ConnectionStatus.tsx).

    [checkConnection] is an [Eff] program; its two halves, before and
    after the awaited health check, are [start_check] and [finish_check].
    The component runs a check when it mounts, again on every tick of
    [setInterval(checkConnection, 30000)], and on a click of Retry; the
    health check's axios instance gives up after 5000 ms.  [Timed] is the
    step relation of these events over time: checks in flight interleave,
    each half runs atomically (JavaScript runs one callback at a time). *)

From S2P Require Import Prelude Js Model Http Runtime.

Local Open Scope Z_scope.

Module ConnectionStatusComponent.

Record State := mkState {
  isConnected : option bool;
  isChecking : bool;
  lastChecked : option Z }.

Definition initial : State := mkState None false None.

Definition setIsConnected v s := mkState v (isChecking s) (lastChecked s).
Definition setIsChecking v s := mkState (isConnected s) v (lastChecked s).
Definition setLastChecked v s := mkState (isConnected s) (isChecking s) v.

Local Open Scope eff_scope.

(** [checkConnection] (lines 13-26); [checkBackendHealth] never
    rejects, so the [catch] branch is unreachable. *)
Definition checkConnection : Eff State unit :=
  set (setIsChecking true) ;;
  healthy <- checkBackendHealth ;;
  set (setIsConnected (Some healthy)) ;;
  t <- now ;;
  set (setLastChecked (Some t)) ;;
  set (setIsChecking false).

Local Close Scope eff_scope.

(** The halves of [checkConnection]. *)
Definition start_check (s : State) : State := setIsChecking true s.

Definition finish_check (healthy : bool) (t : Z) (s : State) : State :=
  setIsChecking false (setLastChecked (Some t) (setIsConnected (Some healthy) s)).

(** ** What the component shows (lines 35-85) *)

Inductive View :=
  | Checking
  | Disconnected (last : option Z) (retry_disabled : bool) (retry_label : string)
  | Connected (last : option Z).

Definition render (s : State) : View :=
  if bool_decide (isConnected s = None) && isChecking s then Checking
  else if negb (from_option id false (isConnected s)) then
    Disconnected (lastChecked s) (isChecking s) (if isChecking s then "Checking..." else "Retry")
  else Connected (lastChecked s).

(** The Retry button can be clicked: it is shown and not disabled. *)
Definition retry_enabled (s : State) : bool :=
  match render s with Disconnected _ disabled _ => negb disabled | _ => false end.

End ConnectionStatusComponent.

(** ** Checks over time *)

Module Timed.
Import ConnectionStatusComponent.

(** The interval of [setInterval] (line 31) and the [timeout] of the
    health check's axios instance (api.ts line 59), in ms. *)
Definition interval_ms : Z := 30000.
Definition timeout_ms : Z := 5000.

(** The component's state, the start times of the checks in flight, the
    time, and the time of the next tick. *)
Record Conn := mkConn {
  c_state : State;
  c_pending : list Z;
  c_now : Z;
  c_next_tick : Z }.

(** Mounting at time [t0]: the first check starts and the interval is
    set (lines 28-33). *)
Definition mount (t0 : Z) : Conn :=
  mkConn (start_check initial) [t0] t0 (t0 + interval_ms).

Inductive event :=
  | Tick
  | Click
  | Respond (i : nat) (healthy : bool)
  | Advance (d : Z).

(** One event; [None] when it cannot happen now. *)
Definition step (e : event) (c : Conn) : option Conn :=
  match e with
  | Tick =>
      if bool_decide (c_now c = c_next_tick c)
      then Some (mkConn (start_check (c_state c)) (c_pending c ++ [c_now c]) (c_now c)
                        (c_next_tick c + interval_ms))
      else None
  | Click =>
      if retry_enabled (c_state c)
      then Some (mkConn (start_check (c_state c)) (c_pending c ++ [c_now c]) (c_now c) (c_next_tick c))
      else None
  | Respond i healthy =>
      match c_pending c !! i with
      | Some _ => Some (mkConn (finish_check healthy (c_now c) (c_state c)) (delete i (c_pending c))
                               (c_now c) (c_next_tick c))
      | None => None
      end
  | Advance d =>
      if bool_decide (0 < d /\ c_now c + d <= c_next_tick c /\
                      Forall (fun p => c_now c + d <= p + timeout_ms) (c_pending c))
      then Some (mkConn (c_state c) (c_pending c) (c_now c + d) (c_next_tick c))
      else None
  end.

(** A sequence of events, stopping at the first that cannot happen. *)
Fixpoint steps (es : list event) (c : Conn) : option Conn :=
  match es with
  | [] => Some c
  | e :: es => c' ← step e c; steps es c'
  end.

Inductive reach : Conn -> Prop :=
  | reach_mount t0 : reach (mount t0)
  | reach_step e c c' : reach c -> step e c = Some c' -> reach c'.

(** The runs without a click of Retry. *)
Inductive reach_auto : Conn -> Prop :=
  | auto_mount t0 : reach_auto (mount t0)
  | auto_step e c c' : reach_auto c -> e <> Click -> step e c = Some c' -> reach_auto c'.

End Timed.

(** ** Lemmas on the component *)

Module ConnectionFacts.
Import ConnectionStatusComponent Timed.

Section Halves.
Context `{Backend}.

(** [checkConnection] is its two halves around the health check: the
    step relation's [Click]/[Tick] and [Respond] events run exactly these
    state changes. *)
Lemma checkConnection_halves (w : World srv_state State) reply s' :
  serve (w_clock w) GetHealth (w_srv w) = (reply, s') ->
  w_state (snd (run checkConnection w)) =
    finish_check (health_of (settle reply)) (w_clock w) (start_check (w_state w)).
Proof. intros Hs. unfold checkConnection. cbn -[exchange]. unfold exchange. simpl. by rewrite Hs. Qed.
End Halves.

(** A step keeps the state, or starts a check, or finishes one. *)
Lemma step_cases e c c' :
  step e c = Some c' ->
  (c_state c' = start_check (c_state c) /\ c_pending c' = c_pending c ++ [c_now c]) \/
  (exists i p h, c_pending c !! i = Some p /\ c_state c' = finish_check h (c_now c) (c_state c) /\
                 c_pending c' = delete i (c_pending c)) \/
  (c_state c' = c_state c /\ c_pending c' = c_pending c).
Proof.
  destruct e as [| |i h|d]; simpl.
  - case_bool_decide; [|done]. intros [= <-]. by left.
  - destruct (retry_enabled _); [|done]. intros [= <-]. by left.
  - destruct (c_pending c !! i) eqn:Hi; [|done]. intros [= <-]. right; left. eauto 10.
  - case_bool_decide; [|done]. intros [= <-]. by right; right.
Qed.

(** (C19) Whenever the component says it is checking, a check is in
    flight. *)
Theorem checking_pending c : reach c -> isChecking (c_state c) = true -> c_pending c <> [].
Proof.
  induction 1 as [t0|e c c' Hr IH Hs]; [done|].
  destruct (step_cases e c c' Hs) as [[-> ->]|[(i & p & h & Hi & -> & ->)|[-> ->]]].
  - intros _. by destruct (c_pending c).
  - done.
  - done.
Qed.

(** The invariant of the runs without a click: at most one check in
    flight, started at the last tick and still within its timeout. *)
Definition auto_inv (c : Conn) : Prop :=
  (length (c_pending c) <= 1)%nat /\ (c_now c <= c_next_tick c)%Z /\
  Forall (fun p => c_now c <= p + timeout_ms /\ c_next_tick c = p + interval_ms)%Z (c_pending c) /\
  (isChecking (c_state c) = true <-> c_pending c <> []).

Lemma auto_inv_step e c c' : auto_inv c -> e <> Click -> step e c = Some c' -> auto_inv c'.
Proof.
  intros (Hlen & Hnow & Hall & Hchk) He. unfold auto_inv, interval_ms, timeout_ms in *.
  destruct e as [| |i h|d]; simpl; [| done | |].
  - case_bool_decide as Ht; [|done]. intros [= <-]. cbn. unfold interval_ms, timeout_ms.
    destruct (c_pending c) as [|p ps] eqn:Hp.
    + simpl. repeat split; try done; try lia; repeat constructor; lia.
    + exfalso. inversion Hall as [|? ? [Hp1 Hp2] _]. lia.
  - destruct (c_pending c !! i) as [p|] eqn:Hi; [|done]. intros [= <-]. cbn. unfold interval_ms, timeout_ms.
    destruct (c_pending c) as [|q [|q' ps]] eqn:Hp; simpl in *; [done| |lia].
    destruct i; [|done]. simpl. repeat split; try done; try lia; constructor.
  - case_bool_decide as Hd; [|done]. intros [= <-]. destruct Hd as (Hd1 & Hd2 & Hd3). cbn. unfold timeout_ms in Hd3.
    repeat split; try lia; try by apply Hchk.
    eapply Forall_impl; [apply (proj2 (Forall_and _ _) (conj Hd3 Hall))|]. simpl. intros p [? [? ?]]. split; lia.
Qed.

(** (C18) Without a click of Retry, the 30 s interval and the 5 s timeout
    keep the checks apart: at most one is in flight, and the component
    says it is checking exactly when one is. *)
Theorem auto_single_check c :
  reach_auto c -> (length (c_pending c) <= 1)%nat /\ (isChecking (c_state c) = true <-> c_pending c <> []).
Proof.
  intros Hr. assert (auto_inv c) as (? & _ & _ & ?); [|done].
  induction Hr as [t0|e c c' Hr IH He Hs]; [|by eapply auto_inv_step].
  unfold auto_inv, mount, interval_ms, timeout_ms. simpl. repeat split; try done; try lia; repeat constructor; lia.
Qed.

Definition overlap_trace : list event := [Respond 0 false; Advance 29000; Click; Advance 1000; Tick].

(** (C20) With a click of Retry shortly before a tick, two checks are in
    flight; the one that answers first turns [isChecking] off while the
    other is still running, and the older check, answering last,
    decides what is shown: the component says disconnected although the
    newest check found the backend healthy. *)
Theorem overlapping_checks :
  exists c1 c2 c3,
    steps overlap_trace (mount 0) = Some c1 /\ c_pending c1 = [29000; 30000] /\
    step (Respond 1 true) c1 = Some c2 /\ isChecking (c_state c2) = false /\ c_pending c2 = [29000] /\
    steps [Advance 4000; Respond 0 false] c2 = Some c3 /\
    isConnected (c_state c3) = Some false /\ lastChecked (c_state c3) = Some 34000.
Proof. do 3 eexists. by_compute. Qed.

End ConnectionFacts.

Module ConnectionWitnesses.
Import ConnectionStatusComponent Timed ConnectionFacts HttpWitnesses.

Lemma checking_pending_witness :
  reach (mount 0) /\ isChecking (c_state (mount 0)) = true /\ c_pending (mount 0) <> [].
Proof.
  assert (Hr : reach (mount 0)) by apply reach_mount.
  split; [exact Hr|]. split; [reflexivity|]. apply checking_pending; [exact Hr | reflexivity].
Defined.

Lemma auto_single_check_witness :
  reach_auto (mount 0) /\
  (length (c_pending (mount 0)) <= 1)%nat /\ (isChecking (c_state (mount 0)) = true <-> c_pending (mount 0) <> []).
Proof.
  assert (Hr : reach_auto (mount 0)) by apply auto_mount.
  split; [exact Hr|]. exact (auto_single_check (mount 0) Hr).
Defined.



End ConnectionWitnesses.
