(* ===== verification/App.v ===== *)
(** * App: the tabs of the application (src/src/App.tsx).

    [App] keeps the active tab; the content is the component of that tab,
    mounted with its initial state.  Selecting the active tab again
    changes nothing (React bails out of a state update to the same value);
    selecting another tab unmounts the content, whose state is lost, and
    mounts the new tab's component, whose mount effect then loads its
    data ([fetchStats], [fetchBooks], [fetchMembers], [fetchData]).
    [ConnectionStatus] is mounted above the tabs for the application's
    lifetime.  [render] is the header and the tab buttons; [selectTab]
    is a click on a tab followed by the mount of its content, and
    [selectTab_loads] shows what the new page holds against the
    service. *)

From S2P Require Import Prelude Js Model IsoDate Http Runtime Service Borrowing Books Members Dashboard.

Module AppComponent.

Inductive ActiveTab := dashboard | books | members | borrowing.

#[export] Instance ActiveTab_eq_dec : EqDecision ActiveTab.
Proof. solve_decision. Defined.

(** The mounted content, with its state. *)
Inductive Content :=
  | CDashboard (s : DashboardComponent.State)
  | CBooks (s : BookManagement.State)
  | CMembers (s : MemberManagement.State)
  | CBorrowing (s : BorrowingManagement.State).

(** [renderContent] (lines 17-30), as the component a tab mounts; the
    [default] branch is unreachable for a tab of the declared type. *)
Definition renderContent (t : ActiveTab) (now : Z) : Content :=
  match t with
  | dashboard => CDashboard DashboardComponent.initial
  | books => CBooks (BookManagement.initial now)
  | members => CMembers MemberManagement.initial
  | borrowing => CBorrowing BorrowingManagement.initial
  end.

Record AppState := mkApp {
  activeTab : ActiveTab;
  content : Content }.

Definition initial (now : Z) : AppState := mkApp dashboard (renderContent dashboard now).

(** A tab button's [onClick] (lines 50, 58, 66 and 74) at time [now]. *)
Definition setActiveTab (t : ActiveTab) (now : Z) (a : AppState) : AppState :=
  if bool_decide (t = activeTab a) then a else mkApp t (renderContent t now).

(** A tab button's [variant] (lines 49, 57, 65 and 73). *)
Definition tab_variant (t : ActiveTab) (a : AppState) : UiVariant :=
  if bool_decide (activeTab a = t) then default else outline.

(** What [App] renders (lines 31-87): the title, the [ConnectionStatus]
    card (a component of its own, Connection.v), the four tab buttons
    with their labels and variants, and the content in [<main>]. *)
Record AppView := mkAppView {
  app_title : string;
  tab_buttons : list (ActiveTab * string * UiVariant);
  main : Content }.

Definition tab_label (t : ActiveTab) : string :=
  match t with
  | dashboard => "Dashboard"
  | books => "Books"
  | members => "Members"
  | borrowing => "Borrowing"
  end.

Definition render (a : AppState) : AppView :=
  mkAppView "Library Management System"
    ((fun t => (t, tab_label t, tab_variant t a)) <$> [dashboard; books; members; borrowing])
    (content a).

(** ** Mounting the content

    The content's component runs its mount effect ([useEffect(..., [])]:
    [fetchStats], [fetchBooks], [fetchMembers], [fetchData]) once it is
    mounted; the application's world carries no state of its own
    ([unit]) and lends the backend, clock and alerts to the component. *)
Section Mount.
Context `{Backend}.

Definition in_world {S} (s : S) (w : World srv_state unit) : World srv_state S :=
  mkWorld s (w_srv w) (w_clock w) (w_alerts w) (w_sent w).

Definition out_world {S} (w : World srv_state S) : World srv_state unit :=
  mkWorld tt (w_srv w) (w_clock w) (w_alerts w) (w_sent w).

Definition run_in {S} (m : Eff S unit) (s : S) (w : World srv_state unit) : S * World srv_state unit :=
  let w' := snd (run m (in_world s w)) in (w_state w', out_world w').

Definition mount_effect (c : Content) (w : World srv_state unit) : Content * World srv_state unit :=
  match c with
  | CDashboard s => let '(s', w') := run_in DashboardComponent.fetchStats s w in (CDashboard s', w')
  | CBooks s => let '(s', w') := run_in BookManagement.fetchBooks s w in (CBooks s', w')
  | CMembers s => let '(s', w') := run_in MemberManagement.fetchMembers s w in (CMembers s', w')
  | CBorrowing s => let '(s', w') := run_in BorrowingManagement.fetchData s w in (CBorrowing s', w')
  end.

(** A tab button's [onClick], then the mount of the new content at the
    time of the click. *)
Definition selectTab (t : ActiveTab) (a : AppState) (w : World srv_state unit) : AppState * World srv_state unit :=
  let a' := setActiveTab t (w_clock w) a in
  if bool_decide (t = activeTab a) then (a, w)
  else let '(c, w') := mount_effect (content a') w in (mkApp t c, w').

End Mount.

End AppComponent.

Module AppFacts.
Import AppComponent.

(** Leaving a tab and coming back mounts its component afresh: whatever
    was typed or selected there is gone. *)
Lemma tab_roundtrip_resets a t now1 now2 :
  t <> activeTab a ->
  setActiveTab (activeTab a) now2 (setActiveTab t now1 a) = mkApp (activeTab a) (renderContent (activeTab a) now2).
Proof.
  intros Ht. unfold setActiveTab. rewrite (bool_decide_false (t = activeTab a)) by done. simpl.
  rewrite bool_decide_false by congruence. done.
Qed.

(** Exactly one tab button is highlighted: the active tab's. *)
Lemma tab_variant_default t a : tab_variant t a = default <-> t = activeTab a.
Proof.
  unfold tab_variant. destruct (decide (activeTab a = t)) as [<-|Hne].
  - rewrite bool_decide_true by done. done.
  - rewrite bool_decide_false by done. split; [done|congruence].
Qed.

(** The page highlights exactly one tab button, the active tab's,
    and keeps the four buttons in their order whatever the tab. *)
Theorem render_one_default a :
  List.filter (fun '(_, _, v) => bool_decide (v = default)) (tab_buttons (render a)) =
    [(activeTab a, tab_label (activeTab a), default)] /\
  (fun '(t, _, _) => t) <$> tab_buttons (render a) = [dashboard; books; members; borrowing].
Proof. destruct a as [[] c]; split; reflexivity. Qed.

Section Served.
Context `{DateCodec} (cfg : Config).
#[local] Instance app_backend : Backend := service cfg.

(** The content of a tab once its data is loaded from the store [st] at
    time [now]: loading is over and the page shows the store's data. *)
Definition loaded (now : Z) (st : Store) (c : Content) : Prop :=
  match c with
  | CDashboard s =>
      DashboardComponent.loading s = false /\
      DashboardComponent.stats s =
        DashboardComponent.stats_of (list_books st) (list_members st) (list_loans cfg now st)
          (overdue_loans cfg now st)
  | CBooks s => BookManagement.loading s = false /\ BookManagement.filteredBooks s = list_books st
  | CMembers s => MemberManagement.loading s = false /\ MemberManagement.filteredMembers s = list_members st
  | CBorrowing s =>
      BorrowingManagement.loading s = false /\ BorrowingManagement.transactions s = list_loans cfg now st /\
      BorrowingManagement.books s = available_books st /\
      BorrowingManagement.members s = list_members_of (fun m => bool_decide (m_status m = ACTIVE)) st
  end.

(** Rewrite with a component's run lemma, stated for the component's
    own name of the service instance. *)
Ltac mount_rewrite L :=
  let E := fresh "E" in
  pose proof L as E;
  cbv delta [DashboardFacts.dash_backend BookFacts.book_backend MemberFacts.member_backend
             BorrowingFacts.borrow_backend] in E;
  rewrite E; clear E.

(** The requests a tab's mount effect sends against the service. *)
Definition mount_requests (t : ActiveTab) : nat :=
  match t with dashboard => 5 | books => 1 | members => 1 | borrowing => 3 end.

(** (C26) Selecting another tab against the service mounts that tab's
    component, whose mount effect loads the store's current data: the
    page shows it, the store and the clock are as they were, and the
    tab's requests are sent.  Leaving a tab and coming back therefore
    shows what changed in the store meanwhile. *)
Theorem selectTab_loads t a (w : World Store unit) :
  t <> activeTab a ->
  let '(a', w') := selectTab t a w in
  activeTab a' = t /\ w_srv w' = w_srv w /\ w_clock w' = w_clock w /\
  w_sent w' = (mount_requests t + w_sent w)%nat /\
  loaded (w_clock w) (w_srv w) (content a').
Proof.
  intros Ht. unfold selectTab. rewrite bool_decide_false by done.
  unfold setActiveTab. rewrite bool_decide_false by done.
  destruct t; cbn [content renderContent mount_effect]; unfold run_in, app_backend.
  - mount_rewrite (DashboardFacts.fetchStats_run cfg). cbn. split_and!; done.
  - mount_rewrite (BookFacts.fetchBooks_service cfg). cbn -[BookManagement.filteredBooks]. split_and!; try done.
    rewrite BookFacts.filteredBooks_blank; done.
  - mount_rewrite (MemberFacts.fetchMembers_service cfg). cbn -[MemberManagement.filteredMembers]. split_and!; try done.
    rewrite MemberFacts.filteredMembers_blank; done.
  - mount_rewrite (BorrowingFacts.fetchData_run cfg). cbn. split_and!; done.
Qed.

End Served.

End AppFacts.

Module AppWitnesses.
Import AppComponent AppFacts.

Lemma tab_roundtrip_resets_witness :
  books <> activeTab (initial 0) /\
  setActiveTab (activeTab (initial 0)) 5000 (setActiveTab books 1000 (initial 0)) =
    mkApp (activeTab (initial 0)) (renderContent (activeTab (initial 0)) 5000).
Proof.
  assert (Ht : books <> activeTab (initial 0)) by discriminate.
  split; [exact Ht|]. exact (tab_roundtrip_resets (initial 0) books 1000 5000 Ht).
Defined.

(** The books tab over the demo store: the page lists its one book. *)
Lemma selectTab_loads_witness :
  books <> activeTab (initial 0) /\
  let '(a', w') := @selectTab (service default_config) books (initial 0) (mkWorld (Srv := Store) tt ServiceWitnesses.demo_store 0 [] 0) in
  activeTab a' = books /\ w_srv w' = ServiceWitnesses.demo_store /\ w_clock w' = 0%Z /\
  w_sent w' = (mount_requests books + 0)%nat /\
  loaded default_config 0 ServiceWitnesses.demo_store (content a').
Proof.
  assert (Ht : books <> activeTab (initial 0)) by discriminate.
  split; [exact Ht|].
  pose proof (selectTab_loads default_config books (initial 0) (mkWorld (Srv := Store) tt ServiceWitnesses.demo_store 0 [] 0) Ht) as X.
  exact X.
Defined.

End AppWitnesses.
